(** * Cloudflare Workers task queue: the three roles and their contracts

    A shallow embedding of the three programs of the repository:

    - [Api]      the API worker (Hono application), owner of the
                 authoritative task records in the [TASK_STORAGE] namespace;
    - [Buffer]   the consumer worker, owner of the buffer entries in the
                 [TASK_BUFFER] namespace (queue handler and HTTP handlers);
    - [Consumer] the local consumer, which claims, executes and reports.

    Cloudflare KV and the queue are services outside the repository.  They are
    modelled healthy: [get], [put], [delete], [list] and [send] do not throw,
    except in [Api.submitUnder], which follows [POST /tasks] when [put] or
    [send] throws.  [list] gives one page, of at most 1000 names.  The
    exceptions that remain are the ones the handlers' own code raises (a
    request body that is not JSON, destructuring [null]), and on the consumer
    side the failures of HTTP requests.  A request of the consumer reaches a
    service through the path of its address ([Url]), where the task id is
    percent-encoded and dot segments are resolved.  One handler invocation
    reads the clock as a single instant [now], in milliseconds since the
    epoch. *)

From Stdlib Require Import ZArith QArith String Ascii List.
From stdpp Require Import base gmap strings list fin_maps sorting.

Local Open Scope string_scope.
Local Open Scope Z_scope.
Local Open Scope list_scope.

(** ** JSON values, as [JSON.parse] returns them *)

(** An object holds its own properties in insertion order, with distinct
    keys.  A number is the rational a finite double denotes. *)
#[warnings="-register-all"]
Inductive Json : Type :=
| JNull
| JBool (b : bool)
| JNum (q : Q)
| JStr (s : string)
| JArr (items : list Json)
| JObj (fields : list (string * Json)).

(** A JavaScript value that may be [undefined]. *)
Abbreviation JsValue := (option Json).

(** Truthiness: [undefined], [null], [false], [0] and the empty string are
    falsy, everything else (arrays and objects included) is truthy. *)
Definition truthy (v : JsValue) : bool :=
  match v with
  | None => false
  | Some JNull => false
  | Some (JBool b) => b
  | Some (JNum q) => negb (Qeq_bool q 0)
  | Some (JStr s) => negb (String.eqb s "")
  | Some (JArr _) => true
  | Some (JObj _) => true
  end.

Fixpoint assoc (k : string) (fields : list (string * Json)) : JsValue :=
  match fields with
  | [] => None
  | (k', v) :: rest => if String.eqb k k' then Some v else assoc k rest
  end.

(** Property read [v.k] for the property names the programs use ([type],
    [payload], [success], [result], [error], [shouldFail]): reading from
    [null] throws a TypeError ([None] here), an object gives its own property,
    every other value gives [undefined]. *)
Definition prop (v : Json) (k : string) : option JsValue :=
  match v with
  | JNull => None
  | JObj fields => Some (assoc k fields)
  | _ => Some None
  end.

(** An object literal as [JSON.stringify] (or [c.json]) writes it: a property
    whose value is [undefined] is left out. *)
Fixpoint literal (fields : list (string * JsValue)) : list (string * Json) :=
  match fields with
  | [] => []
  | (k, Some v) :: rest => (k, v) :: literal rest
  | (_, None) :: rest => literal rest
  end.

Definition field (v : Json) (k : string) : JsValue :=
  match v with
  | JObj fields => assoc k fields
  | _ => None
  end.

(** ** [Date.prototype.toISOString] *)

Module Date.

Definition digit (n : Z) : ascii := ascii_of_nat (48 + Z.to_nat (n mod 10)).

Definition pad2 (n : Z) : string :=
  String (digit (n / 10)) (String (digit n) "").

Definition pad3 (n : Z) : string := String (digit (n / 100)) (pad2 n).

Definition pad4 (n : Z) : string := String (digit (n / 1000)) (pad3 n).

(** Year, month and day of the proleptic Gregorian calendar for a day count
    from 1970-01-01. *)
Definition civil (days : Z) : Z * Z * Z :=
  let z := days + 719468 in
  let era := z / 146097 in
  let doe := z - era * 146097 in
  let yoe := (doe - doe / 1460 + doe / 36524 - doe / 146096) / 365 in
  let doy := doe - (365 * yoe + yoe / 4 - yoe / 100) in
  let mp := (5 * doy + 2) / 153 in
  let d := doy - (153 * mp + 2) / 5 + 1 in
  let m := if mp <? 10 then mp + 3 else mp - 9 in
  let y := yoe + era * 400 + (if m <=? 2 then 1 else 0) in
  (y, m, d).

(** [new Date(ms).toISOString()], for the years 0000 to 9999. *)
Definition toISOString (ms : Z) : string :=
  let '(y, m, d) := civil (ms / 86400000) in
  let r := ms mod 86400000 in
  pad4 y +:+ "-" +:+ pad2 m +:+ "-" +:+ pad2 d +:+ "T"
    +:+ pad2 (r / 3600000) +:+ ":" +:+ pad2 (r / 60000 mod 60) +:+ ":"
    +:+ pad2 (r / 1000 mod 60) +:+ "." +:+ pad3 (r mod 1000) +:+ "Z".

End Date.

(** ** A Workers KV namespace *)

Module KV.

(** A stored value with the absolute expiration (seconds since the epoch)
    it was written with, if any. *)
Record entry (V : Type) : Type := Entry {
  value : V;
  expiration : option Z
}.
Arguments Entry {V} _ _.
Arguments value {V} _.
Arguments expiration {V} _.

Abbreviation namespace V := (gmap string (entry V)).

Definition seconds (now : Z) : Z := now / 1000.

(** A key whose expiration has passed reads as absent, whether or not the
    store has purged it. *)
Definition live {V} (now : Z) (e : entry V) : bool :=
  match expiration e with
  | None => true
  | Some t => seconds now <? t
  end.

Definition get {V} (ns : namespace V) (now : Z) (key : string) : option V :=
  match ns !! key with
  | Some e => if live now e then Some (value e) else None
  | None => None
  end.

(** [put(key, value, { expirationTtl })]; without the option the key is
    written with no expiration, also when it had one before. *)
Definition put {V} (ns : namespace V) (now : Z) (key : string) (v : V)
    (expirationTtl : option Z) : namespace V :=
  <[key := Entry v ((fun ttl => seconds now + ttl) <$> expirationTtl)]> ns.

Definition delete {V} (ns : namespace V) (key : string) : namespace V :=
  base.delete key ns.

(** The size of a page of [list]. *)
Definition limit : nat := 1000.

(** [list({ prefix })]: the first page of the names of the stored keys with
    the prefix, that is the names in the order of their bytes, at most
    [limit] of them.  Keys that have expired and are not purged yet may be
    among them.  No handler follows the cursor of the page, so a name beyond
    the first page is never read. *)
Definition list {V} (ns : namespace V) (prefix : string) : List.list string :=
  take limit
    (merge_sort (fun a b => Is_true (String.leb a b))
       (List.filter (String.prefix prefix) (List.map fst (map_to_list ns)))).

End KV.

(** ** HTTP responses *)

Module Http.

Record Response : Type := mkResponse {
  status : Z;
  body : Json
}.

(** The statuses for which axios resolves instead of throwing. *)
Definition ok (r : Response) : bool :=
  (200 <=? status r) && (status r <? 300).

Definition count {A} (l : list A) : Json :=
  JNum (inject_Z (Z.of_nat (length l))).

End Http.

(** ** The path of a request

    The local consumer builds the address of a request from the base URL of
    the service and the task id; [axios] hands it to [new URL], the buffer
    worker reads [new URL(request.url).pathname] and Hono routes on the same
    path.  [pathname] follows the path state of the URL parser
    (url.spec.whatwg.org, an http or https address) on what comes after the
    origin, the base URLs being origins without a path.  A string is a
    sequence of bytes, a character outside ASCII standing as its UTF-8
    bytes. *)

Module Url.

Definition hexDigit (n : N) : ascii :=
  ascii_of_N (if (n <? 10)%N then 48 + n else 55 + n)%N.

(** The bytes of a character, percent-encoded: [%20] for a space. *)
Definition percentEncode (c : ascii) : string :=
  let n := N_of_ascii c in
  String "%" (String (hexDigit (n / 16)%N) (String (hexDigit (n mod 16)%N) "")).

(** The path percent-encode set: the C0 controls and the space, the bytes
    above [~], and the double quote, [#], [<], [>], [?], [^], the backquote,
    the opening and the closing brace. *)
Definition inPathSet (c : ascii) : bool :=
  let n := N_of_ascii c in
  (n <=? 32)%N || (126 <? n)%N
  || existsb (N.eqb n) [34; 35; 60; 62; 63; 94; 96; 123; 125]%N.

Definition isSingleDot (segment : string) : bool :=
  existsb (String.eqb segment) ["."; "%2e"; "%2E"].

Definition isDoubleDot (segment : string) : bool :=
  existsb (String.eqb segment)
    [".."; ".%2e"; ".%2E"; "%2e."; "%2E."; "%2e%2e"; "%2e%2E"; "%2E%2e";
     "%2E%2E"].

(** The end of a segment, at a slash ([slash]) or at the end of the path:
    a double-dot segment removes the segment before it, a single-dot segment
    is dropped, any other segment joins the path. *)
Definition endSegment (path : list string) (buffer : string) (slash : bool)
    : list string :=
  if isDoubleDot buffer then
    let path := removelast path in
    if slash then path else path ++ [""]
  else if isSingleDot buffer then
    if slash then path else path ++ [""]
  else path ++ [buffer].

(** The path state: the segments end at [/] and at [\], the path ends at
    [?] and at [#]. *)
Fixpoint pathState (input : string) (path : list string) (buffer : string)
    : list string :=
  match input with
  | EmptyString => endSegment path buffer false
  | String c rest =>
      let n := N_of_ascii c in
      if (n =? 47)%N || (n =? 92)%N
      then pathState rest (endSegment path buffer true) ""
      else if (n =? 63)%N || (n =? 35)%N
      then endSegment path buffer false
      else pathState rest path
             (buffer +:+ (if inPathSet c then percentEncode c else String c ""))
  end.

(** The parser first removes every tab and newline from its input. *)
Fixpoint clean (input : string) : string :=
  match input with
  | EmptyString => EmptyString
  | String c rest =>
      let n := N_of_ascii c in
      if (n =? 9)%N || (n =? 10)%N || (n =? 13)%N
      then clean rest
      else String c (clean rest)
  end.

(** The segments of the path of [origin + address]: [pathname] is [/]
    followed by the segments joined with [/]. *)
Definition pathname (address : string) : list string :=
  match clean address with
  | EmptyString => pathState "" [] ""
  | String c rest =>
      let n := N_of_ascii c in
      if (n =? 47)%N || (n =? 92)%N
      then pathState rest [] ""
      else pathState (String c rest) [] ""
  end.

Definition hexValue (c : ascii) : option N :=
  let n := N_of_ascii c in
  if (48 <=? n)%N && (n <=? 57)%N then Some (n - 48)%N
  else if (65 <=? n)%N && (n <=? 70)%N then Some (n - 55)%N
  else if (97 <=? n)%N && (n <=? 102)%N then Some (n - 87)%N
  else None.

(** Percent-decoding of a segment, as Hono gives a path parameter to a
    handler ([decodeURI] on the path, [decodeURIComponent] on the
    parameter).  Escapes that are not UTF-8, which Hono leaves as they are,
    are decoded here like the others. *)
Fixpoint decode (segment : string) : string :=
  match segment with
  | EmptyString => EmptyString
  | String c tail =>
      match tail with
      | String h (String l rest) =>
          match Ascii.eqb c "%", hexValue h, hexValue l with
          | true, Some a, Some b =>
              String (ascii_of_N (16 * a + b)%N) (decode rest)
          | _, _, _ => String c (decode tail)
          end
      | _ => String c (decode tail)
      end
  end.

(** The characters of a UUID and of like ids: letters, digits, [-] and
    [_]. *)
Definition plain (c : ascii) : bool :=
  let n := N_of_ascii c in
  ((48 <=? n)%N && (n <=? 57)%N) || ((65 <=? n)%N && (n <=? 90)%N)
  || ((97 <=? n)%N && (n <=? 122)%N) || (n =? 45)%N || (n =? 95)%N.

Fixpoint allPlain (s : string) : bool :=
  match s with
  | EmptyString => true
  | String c rest => plain c && allPlain rest
  end.

(** An id that travels through a path unchanged: not empty, made of plain
    characters. *)
Definition safe (taskId : string) : bool :=
  negb (String.eqb taskId "") && allPlain taskId.

End Url.

(** ** The consumer worker: queue handler and buffer endpoints
    (consumer-worker/src/index.ts) *)

Module Buffer.

Inductive Status : Type := ready | processing | completed.

#[export] Instance Status_eq_dec : EqDecision Status.
Proof. solve_decision. Defined.

(** [type] is declared a string and [payload] is [any]; both travel as the
    submitter sent them, so both are JSON values here, and [payload] may be
    missing. *)
Record QueueMessage : Type := {
  taskId : string;
  type : Json;
  payload : JsValue;
  createdAt : string
}.

(** [interface BufferedTask extends QueueMessage]: the inherited fields are
    the embedded [message]. *)
Record BufferedTask : Type := {
  message : QueueMessage;
  status : Status;
  receivedAt : string;
  claimedAt : option string
}.

Record Env : Type := {
  TASK_BUFFER : KV.namespace BufferedTask
}.

Definition status_name (s : Status) : string :=
  match s with
  | ready => "ready"
  | processing => "processing"
  | completed => "completed"
  end.

(** [JSON.stringify] of a buffered task: the document that is stored and
    that the endpoints send back. *)
Definition task_json (task : BufferedTask) : Json :=
  JObj (literal
    [ ("taskId", Some (JStr (taskId (message task))));
      ("type", Some (type (message task)));
      ("payload", payload (message task));
      ("createdAt", Some (JStr (createdAt (message task))));
      ("status", Some (JStr (status_name (status task))));
      ("receivedAt", Some (JStr (receivedAt task)));
      ("claimedAt", JStr <$> claimedAt task) ]).

Definition key (taskId : string) : string := "task:" +:+ taskId.

(** [queue(batch, env)]: every message of the batch is written as a
    [ready] entry under its task id, with a 24 hour TTL. *)
Fixpoint queue (env : Env) (now : Z) (batch : list QueueMessage) : Env :=
  match batch with
  | [] => env
  | body :: rest =>
      let bufferedTask :=
        {| message := body;
           status := ready;
           receivedAt := Date.toISOString now;
           claimedAt := None |} in
      let env' :=
        {| TASK_BUFFER :=
             KV.put (TASK_BUFFER env) now (key (taskId body)) bufferedTask
               (Some 86400) |} in
      queue env' now rest
  end.

(** The loop of [GET /tasks/ready] over the listed key names. *)
Fixpoint readyLoop (env : Env) (now : Z) (keys : list string)
    (readyTasks : list BufferedTask) : list BufferedTask :=
  match keys with
  | [] => readyTasks
  | name :: rest =>
      match KV.get (TASK_BUFFER env) now name with
      | Some task =>
          if decide (status task = ready)
          then readyLoop env now rest (readyTasks ++ [task])
          else readyLoop env now rest readyTasks
      | None => readyLoop env now rest readyTasks
      end
  end.

Definition readyTasks (env : Env) (now : Z) : list BufferedTask :=
  readyLoop env now (KV.list (TASK_BUFFER env) "task:") [].

Definition listReady (env : Env) (now : Z) : Env * Http.Response :=
  let readyTasks := readyTasks env now in
  (env,
   Http.mkResponse 200 (JObj
     [ ("tasks", JArr (map task_json readyTasks));
       ("count", Http.count readyTasks);
       ("timestamp", JStr (Date.toISOString now)) ])).

(** [POST /tasks/:id/claim] *)
Definition claim (env : Env) (now : Z) (taskId : string)
    : Env * Http.Response :=
  match KV.get (TASK_BUFFER env) now (key taskId) with
  | None =>
      (env,
       Http.mkResponse 404 (JObj
         [ ("error", JStr "Task not found"); ("taskId", JStr taskId) ]))
  | Some task =>
      if decide (status task <> ready) then
        (env,
         Http.mkResponse 409 (JObj
           [ ("error", JStr "Task not available");
             ("taskId", JStr taskId);
             ("currentStatus", JStr (status_name (status task))) ]))
      else
        let task :=
          {| message := message task;
             status := processing;
             receivedAt := receivedAt task;
             claimedAt := Some (Date.toISOString now) |} in
        ({| TASK_BUFFER :=
              KV.put (TASK_BUFFER env) now (key taskId) task None |},
         Http.mkResponse 200 (JObj
           [ ("success", JBool true);
             ("task", task_json task);
             ("message", JStr "Task claimed successfully") ]))
  end.

(** [POST /tasks/:id/complete] *)
Definition complete (env : Env) (now : Z) (taskId : string)
    : Env * Http.Response :=
  ({| TASK_BUFFER := KV.delete (TASK_BUFFER env) (key taskId) |},
   Http.mkResponse 200 (JObj
     [ ("success", JBool true);
       ("message", JStr "Task removed from buffer");
       ("taskId", JStr taskId) ])).

(** The loop of [GET /tasks/all]. *)
Fixpoint allLoop (env : Env) (now : Z) (keys : list string)
    (allTasks : list BufferedTask) : list BufferedTask :=
  match keys with
  | [] => allTasks
  | name :: rest =>
      match KV.get (TASK_BUFFER env) now name with
      | Some task => allLoop env now rest (allTasks ++ [task])
      | None => allLoop env now rest allTasks
      end
  end.

Definition listAll (env : Env) (now : Z) : Env * Http.Response :=
  let allTasks := allLoop env now (KV.list (TASK_BUFFER env) "task:") [] in
  (env,
   Http.mkResponse 200 (JObj
     [ ("tasks", JArr (map task_json allTasks));
       ("count", Http.count allTasks);
       ("timestamp", JStr (Date.toISOString now)) ])).

Definition health (env : Env) (now : Z) : Env * Http.Response :=
  (env,
   Http.mkResponse 200 (JObj
     [ ("status", JStr "healthy");
       ("timestamp", JStr (Date.toISOString now));
       ("service", JStr "queue-buffer-v2") ])).

(** A request: its method and its path split at the slashes
    ([/tasks/abc/claim] is [["tasks"; "abc"; "claim"]]). *)
Record Request : Type := {
  method : string;
  pathname : list string
}.

Definition notFound (env : Env) (req : Request) : Env * Http.Response :=
  (env,
   Http.mkResponse 404 (JObj
     [ ("error", JStr "Not Found");
       ("path", JStr (fold_right (fun seg p => "/" +:+ seg +:+ p) "" (pathname req)));
       ("method", JStr (method req)) ])).

(** The test of a path against [^\/tasks\/[^\/]+\/claim$] (or [complete]),
    and [split('/')[2]] on a path that passes: the task id is a non-empty
    segment between [tasks] and the last segment. *)
Definition taskRoute (pathname : list string) (last : string) : option string :=
  match pathname with
  | [first; taskId; last'] =>
      if String.eqb first "tasks" && negb (String.eqb taskId "")
         && String.eqb last' last
      then Some taskId
      else None
  | _ => None
  end.

(** [fetch(request, env)]: the routes in the order the handler tests them. *)
Definition fetch (env : Env) (now : Z) (req : Request)
    : Env * Http.Response :=
  if String.eqb (method req) "OPTIONS" then (env, Http.mkResponse 200 JNull)
  else if bool_decide (pathname req = ["health"])
          && String.eqb (method req) "GET"
  then health env now
  else if bool_decide (pathname req = ["tasks"; "ready"])
          && String.eqb (method req) "GET"
  then listReady env now
  else
    match taskRoute (pathname req) "claim", String.eqb (method req) "POST" with
    | Some taskId, true => claim env now taskId
    | _, _ =>
        match taskRoute (pathname req) "complete",
              String.eqb (method req) "POST" with
        | Some taskId, true => complete env now taskId
        | _, _ =>
            if bool_decide (pathname req = ["tasks"; "all"])
               && String.eqb (method req) "GET"
            then listAll env now
            else notFound env req
        end
    end.

(** What the runtime does with the worker: it delivers a batch to [queue] or
    hands a request to [fetch]. *)
Inductive Invocation : Type :=
| Deliver (batch : list QueueMessage)
| Fetch (req : Request).

Definition invoke (env : Env) (now : Z) (i : Invocation) : Env :=
  match i with
  | Deliver batch => queue env now batch
  | Fetch req => fst (fetch env now req)
  end.

(** The buffer after a history of invocations, each with its time. *)
Fixpoint run (env : Env) (history : list (Z * Invocation)) : Env :=
  match history with
  | [] => env
  | (now, i) :: rest => run (invoke env now i) rest
  end.

(** The tasks [GET /tasks/all] answers with. *)
Definition allTasks (env : Env) (now : Z) : list BufferedTask :=
  allLoop env now (KV.list (TASK_BUFFER env) "task:") [].

End Buffer.

(** ** The API worker (api-worker/src/index.ts) *)

Module Api.

Inductive Status : Type := pending | processing | completed | failed.

#[export] Instance Status_eq_dec : EqDecision Status.
Proof. solve_decision. Defined.

(** [interface Task], with the two properties the completion handler
    attaches through [(task as any)]: [result] and [error].  [type] is
    declared a string but is stored as the request carried it. *)
Record Task : Type := {
  id : string;
  type : Json;
  payload : JsValue;
  createdAt : string;
  status : Status;
  completedAt : option string;
  result : JsValue;
  error : JsValue
}.

(** The bindings: the namespace of the records and the queue, as the list of
    the messages sent so far. *)
Record Env : Type := {
  TASK_STORAGE : KV.namespace Task;
  TASK_QUEUE_V2 : list Json
}.

Definition status_name (s : Status) : string :=
  match s with
  | pending => "pending"
  | processing => "processing"
  | completed => "completed"
  | failed => "failed"
  end.

(** [JSON.stringify] of a task: the stored document.  [result] and [error]
    come after the declared properties in the order in which they were first
    attached; the record does not keep that order and [result] is written
    first here, so documents are to be compared property by property. *)
Definition task_json (task : Task) : Json :=
  JObj (literal
    [ ("id", Some (JStr (id task)));
      ("type", Some (type task));
      ("payload", payload task);
      ("createdAt", Some (JStr (createdAt task)));
      ("status", Some (JStr (status_name (status task))));
      ("completedAt", JStr <$> completedAt task);
      ("result", result task);
      ("error", error task) ]).

Definition key (taskId : string) : string := "task:" +:+ taskId.

Definition health (env : Env) (now : Z) : Env * Http.Response :=
  (env,
   Http.mkResponse 200 (JObj
     [ ("status", JStr "healthy");
       ("timestamp", JStr (Date.toISOString now));
       ("service", JStr "task-api-v2") ])).

(** [POST /tasks].  [body] is [None] when the request body is not JSON, so
    that [c.req.json()] throws; [taskId] is what [crypto.randomUUID()]
    returns.  Every exception ends in the handler's [catch]. *)
Definition submit (env : Env) (now : Z) (taskId : string)
    (body : option Json) : Env * Http.Response :=
  let caught :=
    (env, Http.mkResponse 500 (JObj [ ("error", JStr "Failed to create task") ])) in
  match body with
  | None => caught
  | Some json =>
      match prop json "type", prop json "payload" with
      | Some type, Some payload =>
          match type with
          | Some type' =>
              if negb (truthy type) then
                (env,
                 Http.mkResponse 400 (JObj
                   [ ("error", JStr "Task type is required") ]))
              else
                let task :=
                  {| id := taskId;
                     type := type';
                     payload := payload;
                     createdAt := Date.toISOString now;
                     status := pending;
                     completedAt := None;
                     result := None;
                     error := None |} in
                let storage :=
                  KV.put (TASK_STORAGE env) now (key taskId) task None in
                let sent :=
                  (TASK_QUEUE_V2 env ++
                   [ JObj (literal
                       [ ("taskId", Some (JStr taskId));
                         ("type", type);
                         ("payload", payload);
                         ("createdAt", Some (JStr (createdAt task))) ]) ])%list in
                ({| TASK_STORAGE := storage; TASK_QUEUE_V2 := sent |},
                 Http.mkResponse 201 (JObj
                   [ ("success", JBool true);
                     ("taskId", JStr taskId);
                     ("status", JStr "pending");
                     ("message", JStr "Task queued successfully") ]))
          | None =>
              (env,
               Http.mkResponse 400 (JObj
                 [ ("error", JStr "Task type is required") ]))
          end
      | _, _ => caught
      end
  end.

(** [GET /tasks/:id/status] *)
Definition getStatus (env : Env) (now : Z) (taskId : string)
    : Env * Http.Response :=
  match KV.get (TASK_STORAGE env) now (key taskId) with
  | None =>
      (env, Http.mkResponse 404 (JObj [ ("error", JStr "Task not found") ]))
  | Some task =>
      (env,
       Http.mkResponse 200 (JObj (literal
         [ ("taskId", Some (JStr (id task)));
           ("status", Some (JStr (status_name (status task))));
           ("type", Some (type task));
           ("createdAt", Some (JStr (createdAt task)));
           ("completedAt", JStr <$> completedAt task) ])))
  end.

(** The assignments of the completion handler to the record it read. *)
Definition completed_task (task : Task) (now : Z)
    (success result' error' : JsValue) : Task :=
  {| id := id task;
     type := type task;
     payload := payload task;
     createdAt := createdAt task;
     status := if truthy success then completed else failed;
     completedAt := Some (Date.toISOString now);
     result := if truthy result' then result' else result task;
     error := if truthy error' then error' else error task |}.

(** [POST /tasks/:id/complete].  The body is read before the record is
    looked up. *)
Definition reportCompletion (env : Env) (now : Z) (taskId : string)
    (body : option Json) : Env * Http.Response :=
  let caught :=
    (env, Http.mkResponse 500 (JObj [ ("error", JStr "Failed to complete task") ])) in
  match body with
  | None => caught
  | Some json =>
      match prop json "success", prop json "result", prop json "error" with
      | Some success, Some result, Some error =>
          match KV.get (TASK_STORAGE env) now (key taskId) with
          | None =>
              (env,
               Http.mkResponse 404 (JObj [ ("error", JStr "Task not found") ]))
          | Some task =>
              let task := completed_task task now success result error in
              ({| TASK_STORAGE :=
                    KV.put (TASK_STORAGE env) now (key taskId) task None;
                  TASK_QUEUE_V2 := TASK_QUEUE_V2 env |},
               Http.mkResponse 200 (JObj
                 [ ("success", JBool true);
                   ("message",
                    JStr ("Task marked as " +:+ status_name (status task)));
                   ("taskId", JStr taskId);
                   ("status", JStr (status_name (status task))) ]))
          end
      | _, _, _ => caught
      end
  end.

(** [GET /tasks]: [count] is the number of listed keys, [tasks] the documents
    that could be read. *)
Definition listTasks (env : Env) (now : Z) : Env * Http.Response :=
  let keys := KV.list (TASK_STORAGE env) "task:" in
  let tasks := map (fun name => KV.get (TASK_STORAGE env) now name) keys in
  (env,
   Http.mkResponse 200 (JObj
     [ ("tasks", JArr (map task_json (omap (fun data => data) tasks)));
       ("count", Http.count tasks) ])).

(** The requests the application routes; [PostTasks] carries the UUID the
    handler draws. *)
Inductive Request : Type :=
| GetHealth
| PostTasks (taskId : string) (body : option Json)
| GetTaskStatus (taskId : string)
| PostTaskComplete (taskId : string) (body : option Json)
| GetTasks.

Definition app (env : Env) (now : Z) (req : Request) : Env * Http.Response :=
  match req with
  | GetHealth => health env now
  | PostTasks taskId body => submit env now taskId body
  | GetTaskStatus taskId => getStatus env now taskId
  | PostTaskComplete taskId body => reportCompletion env now taskId body
  | GetTasks => listTasks env now
  end.

(** The storage after a history of requests, each with the time at which
    it is handled. *)
Fixpoint run (env : Env) (history : list (Z * Request)) : Env :=
  match history with
  | [] => env
  | (now, req) :: rest => run (fst (app env now req)) rest
  end.

(** How the two bindings behave while [POST /tasks] is handled: both work,
    [TASK_STORAGE.put] throws, or the [put] works and [TASK_QUEUE_V2.send]
    throws. *)
Inductive Bindings : Type := healthy | putThrows | sendThrows.

(** [POST /tasks] under bindings that may throw: the record is written
    before the message is sent, every exception ends in the handler's
    [catch], and nothing undoes a write that was made. *)
Definition submitUnder (bindings : Bindings) (env : Env) (now : Z)
    (taskId : string) (body : option Json) : Env * Http.Response :=
  let caught (env' : Env) :=
    (env', Http.mkResponse 500 (JObj [ ("error", JStr "Failed to create task") ])) in
  match body with
  | None => caught env
  | Some json =>
      match prop json "type", prop json "payload" with
      | Some type, Some payload =>
          match type with
          | Some type' =>
              if negb (truthy type) then
                (env,
                 Http.mkResponse 400 (JObj
                   [ ("error", JStr "Task type is required") ]))
              else
                let task :=
                  {| id := taskId;
                     type := type';
                     payload := payload;
                     createdAt := Date.toISOString now;
                     status := pending;
                     completedAt := None;
                     result := None;
                     error := None |} in
                match bindings with
                | putThrows => caught env
                | sendThrows =>
                    caught
                      {| TASK_STORAGE :=
                           KV.put (TASK_STORAGE env) now (key taskId) task None;
                         TASK_QUEUE_V2 := TASK_QUEUE_V2 env |}
                | healthy =>
                    ({| TASK_STORAGE :=
                          KV.put (TASK_STORAGE env) now (key taskId) task None;
                        TASK_QUEUE_V2 :=
                          (TASK_QUEUE_V2 env ++
                           [ JObj (literal
                               [ ("taskId", Some (JStr taskId));
                                 ("type", type);
                                 ("payload", payload);
                                 ("createdAt", Some (JStr (createdAt task))) ]) ])%list |},
                     Http.mkResponse 201 (JObj
                       [ ("success", JBool true);
                         ("taskId", JStr taskId);
                         ("status", JStr "pending");
                         ("message", JStr "Task queued successfully") ]))
                end
          | None =>
              (env,
               Http.mkResponse 400 (JObj
                 [ ("error", JStr "Task type is required") ]))
          end
      | _, _ => caught env
      end
  end.

(** Hono's answer when no route matches. *)
Definition notFound (env : Env) : Env * Http.Response :=
  (env, Http.mkResponse 404 (JStr "404 Not Found")).

(** Hono's router on the method and the segments of the path: a literal
    segment of a route is compared with the decoded segment, [:id] takes any
    segment that is not empty and hands it decoded to the handler.  [taskId]
    is the UUID [POST /tasks] draws when it gets that far. *)
Definition route (method : string) (pathname : list string) (taskId : string)
    (body : option Json) : option Request :=
  match map Url.decode pathname with
  | [only] =>
      if String.eqb only "health" && String.eqb method "GET"
      then Some GetHealth
      else if String.eqb only "tasks" && String.eqb method "POST"
      then Some (PostTasks taskId body)
      else if String.eqb only "tasks" && String.eqb method "GET"
      then Some GetTasks
      else None
  | [first; id; last] =>
      if String.eqb first "tasks" && negb (String.eqb id "") then
        if String.eqb last "status" && String.eqb method "GET"
        then Some (GetTaskStatus id)
        else if String.eqb last "complete" && String.eqb method "POST"
        then Some (PostTaskComplete id body)
        else None
      else None
  | _ => None
  end.

(** The application on a request: the CORS middleware answers a preflight
    itself, every other request goes to its route. *)
Definition fetch (env : Env) (now : Z) (method : string)
    (pathname : list string) (taskId : string) (body : option Json)
    : Env * Http.Response :=
  if String.eqb method "OPTIONS" then (env, Http.mkResponse 204 JNull)
  else
    match route method pathname taskId body with
    | Some req => app env now req
    | None => notFound env
    end.


End Api.

(** ** The local consumer (local-consumer/src/index.ts) *)

Module Consumer.

Inductive Level : Type := info | warn | error.

(** What a [catch] clause can receive: an axios error, with the status of the
    response if there was one, or a JavaScript [Error]. *)
Inductive Exn : Type :=
| AxiosError (status : option Z)
| Error (message : string).

Definition message (e : Exn) : string :=
  match e with
  | AxiosError (Some _) => "Request failed"
  | AxiosError None => "Network Error"
  | Error message => message
  end.

(** The requests the consumer sends. *)
Inductive Call : Type :=
| GetReady
| PostClaim (taskId : string)
| PostApiComplete (taskId : string) (data : Json)
| PostBufferComplete (taskId : string).

Inductive Event : Type :=
| Log (level : Level) (text : string)
| Sent (call : Call).

(** What the network does with one request: it is answered, it never
    reaches the service, or the service handles it and the answer is lost. *)
Inductive Net : Type := delivered | dropped | lost.

(** The world the consumer runs in: the two services, the clock, the fate of
    the coming requests (all delivered once the list is used up) and the
    trace of what the consumer did, oldest first. *)
Record World : Type := {
  api : Api.Env;
  buffer : Buffer.Env;
  clock : Z;
  network : list Net;
  trace : list Event
}.

(** How an asynchronous call ends: it resolves, it rejects, or an exception
    escapes outside every promise and ends the process. *)
Inductive Outcome (A : Type) : Type :=
| Returned (a : A)
| Thrown (e : Exn)
| Uncaught (e : Exn).
Arguments Returned {A} _.
Arguments Thrown {A} _.
Arguments Uncaught {A} _.

Definition M (A : Type) : Type := World -> World * Outcome A.

Definition ret {A} (a : A) : M A := fun w => (w, Returned a).

Definition bind {A B} (m : M A) (k : A -> M B) : M B :=
  fun w =>
    match m w with
    | (w', Returned a) => k a w'
    | (w', Thrown e) => (w', Thrown e)
    | (w', Uncaught e) => (w', Uncaught e)
    end.

(** [try { m } catch (e) { handler e }] *)
Definition try_catch {A} (m : M A) (handler : Exn -> M A) : M A :=
  fun w =>
    match m w with
    | (w', Thrown e) => handler e w'
    | result => result
    end.

Notation "x <- m ;; k" := (bind m (fun x => k))
  (at level 100, m at next level, right associativity).
Notation "m ;;; k" := (bind m (fun _ => k))
  (at level 100, right associativity).

Definition record (ev : Event) : M unit :=
  fun w =>
    ({| api := api w; buffer := buffer w; clock := clock w;
        network := network w; trace := trace w ++ [ev] |},
     Returned tt).

Definition log (level : Level) (text : string) : M unit :=
  record (Log level text).

Definition now : M Z := fun w => (w, Returned (clock w)).

(** [setTimeout(..., ms)] *)
Definition sleep (ms : Z) : M unit :=
  fun w =>
    ({| api := api w; buffer := buffer w; clock := clock w + ms;
        network := network w; trace := trace w |},
     Returned tt).

(** The segments of the path of [/tasks/${taskId}/claim] and of
    [/tasks/${taskId}/complete]. *)
Definition taskPath (taskId last : string) : list string :=
  Url.pathname ("/tasks/" +:+ taskId +:+ "/" +:+ last).

(** The service handling a request.  The request reaches the service
    through its path.  The body of a completion report has no [type]: a
    report whose path is that of [POST /tasks] is refused before an id is
    drawn, so that the id given to the application here is not used (lemma
    [report_draws_no_id]). *)
Definition serve (call : Call) (w : World) : World * Http.Response :=
  match call with
  | GetReady =>
      let (buffer', r) :=
        Buffer.fetch (buffer w) (clock w)
          {| Buffer.method := "GET";
             Buffer.pathname := Url.pathname "/tasks/ready" |} in
      ({| api := api w; buffer := buffer'; clock := clock w;
          network := network w; trace := trace w |}, r)
  | PostClaim taskId =>
      let (buffer', r) :=
        Buffer.fetch (buffer w) (clock w)
          {| Buffer.method := "POST";
             Buffer.pathname := taskPath taskId "claim" |} in
      ({| api := api w; buffer := buffer'; clock := clock w;
          network := network w; trace := trace w |}, r)
  | PostApiComplete taskId data =>
      let (api', r) :=
        Api.fetch (api w) (clock w) "POST" (taskPath taskId "complete") ""
          (Some data) in
      ({| api := api'; buffer := buffer w; clock := clock w;
          network := network w; trace := trace w |}, r)
  | PostBufferComplete taskId =>
      let (buffer', r) :=
        Buffer.fetch (buffer w) (clock w)
          {| Buffer.method := "POST";
             Buffer.pathname := taskPath taskId "complete" |} in
      ({| api := api w; buffer := buffer'; clock := clock w;
          network := network w; trace := trace w |}, r)
  end.

Definition next (network : list Net) : Net * list Net :=
  match network with
  | [] => (delivered, [])
  | n :: rest => (n, rest)
  end.

(** [axios.get] and [axios.post]: the promise rejects when no answer arrives
    and when the status of the answer is not 2xx. *)
Definition request (call : Call) : M Http.Response :=
  record (Sent call) ;;;
  fun w =>
    let (n, rest) := next (network w) in
    let w :=
      {| api := api w; buffer := buffer w; clock := clock w;
         network := rest; trace := trace w |} in
    match n with
    | dropped => (w, Thrown (AxiosError None))
    | lost => (fst (serve call w), Thrown (AxiosError None))
    | delivered =>
        let (w', r) := serve call w in
        if Http.ok r then (w', Returned r)
        else (w', Thrown (AxiosError (Some (Http.status r))))
    end.

Definition getProcessingTime (type : Json) : Z :=
  match type with
  | JStr type =>
      if String.eqb type "heavy" then 3000
      else if String.eqb type "medium" then 2000
      else if String.eqb type "light" then 500
      else 1000
  | _ => 1000
  end.

(** [simulateWork]: after the processing time the timer callback reads
    [payload.shouldFail]; on a missing or [null] payload that read throws
    inside the callback, outside the promise. *)
Definition simulateWork (type : Json) (payload : JsValue) : M unit :=
  let processingTime := getProcessingTime type in
  log info "Simulating work..." ;;;
  sleep processingTime ;;;
  fun w =>
    match payload with
    | None => (w, Uncaught (Error "Cannot read properties of undefined"))
    | Some payload =>
        match prop payload "shouldFail" with
        | None => (w, Uncaught (Error "Cannot read properties of null"))
        | Some shouldFail =>
            if truthy shouldFail
            then (w, Thrown (Error "Simulated task failure"))
            else (w, Returned tt)
        end
    end.

Definition markTaskCompleted (taskId : string) (success : bool)
    (result : JsValue) (error' : option Exn) : M unit :=
  try_catch
    (response <- request (PostApiComplete taskId (JObj (literal
       [ ("success", Some (JBool success));
         ("result", result);
         ("error", (fun e => JStr (message e)) <$> error') ]))) ;;
     log info "Completion reported to API:")
    (fun err => log error "Failed to mark task as completed in API:").

Definition completeTaskInBuffer (taskId : string) : M unit :=
  try_catch
    (response <- request (PostBufferComplete taskId) ;;
     log info "Task removed from queue buffer")
    (fun err => log error "Failed to remove task from buffer:").

Definition processTask (task : Buffer.BufferedTask) : M unit :=
  let taskId := Buffer.taskId (Buffer.message task) in
  let type := Buffer.type (Buffer.message task) in
  log info "Processing Task:" ;;;
  try_catch
    (log info "Processing task..." ;;;
     simulateWork type (Buffer.payload (Buffer.message task)) ;;;
     processedAt <- now ;;
     markTaskCompleted taskId true
       (Some (JObj
          [ ("processedAt", JStr (Date.toISOString processedAt));
            ("processedBy", JStr "local-consumer-v2");
            ("processingDuration", JNum (inject_Z (getProcessingTime type))) ]))
       None ;;;
     completeTaskInBuffer taskId ;;;
     log info "Task completed successfully")
    (fun error' =>
       log error "Task failed:" ;;;
       markTaskCompleted taskId false None (Some error') ;;;
       completeTaskInBuffer taskId).

(** The requests of a trace, in the order they were sent. *)
Fixpoint calls (trace : list Event) : list Call :=
  match trace with
  | [] => []
  | Sent call :: rest => call :: calls rest
  | Log _ _ :: rest => calls rest
  end.

(** The consumer's view of a task document in an answer of the buffer worker:
    the source has no parser, it casts [response.data] to
    [interface BufferedTask] and reads [taskId], [type], [payload] and the
    times from it.  [parseTask] gives these properties at the types the
    interface declares; on every document the buffer worker writes it gives
    the task back (lemma [parseTask_json]). *)
Definition parseStatus (status : string) : option Buffer.Status :=
  if String.eqb status "ready" then Some Buffer.ready
  else if String.eqb status "processing" then Some Buffer.processing
  else if String.eqb status "completed" then Some Buffer.completed
  else None.

Definition parseTask (json : Json) : option Buffer.BufferedTask :=
  match field json "taskId", field json "type", field json "createdAt",
        field json "status", field json "receivedAt" with
  | Some (JStr taskId), Some type, Some (JStr createdAt),
    Some (JStr status), Some (JStr receivedAt) =>
      match parseStatus status, field json "claimedAt" with
      | Some status, Some (JStr claimedAt) =>
          Some {| Buffer.message :=
                    {| Buffer.taskId := taskId;
                       Buffer.type := type;
                       Buffer.payload := field json "payload";
                       Buffer.createdAt := createdAt |};
                  Buffer.status := status;
                  Buffer.receivedAt := receivedAt;
                  Buffer.claimedAt := Some claimedAt |}
      | Some status, None =>
          Some {| Buffer.message :=
                    {| Buffer.taskId := taskId;
                       Buffer.type := type;
                       Buffer.payload := field json "payload";
                       Buffer.createdAt := createdAt |};
                  Buffer.status := status;
                  Buffer.receivedAt := receivedAt;
                  Buffer.claimedAt := None |}
      | _, _ => None
      end
  | _, _, _, _, _ => None
  end.

(** [response.data.tasks || []] *)
Definition tasksOf (response : Http.Response) : list Buffer.BufferedTask :=
  match field (Http.body response) "tasks" with
  | Some (JArr items) => omap parseTask items
  | _ => []
  end.

(** [getReadyTasks]: a failed poll is logged and gives no tasks. *)
Definition getReadyTasks : M (list Buffer.BufferedTask) :=
  try_catch
    (log info "Polling for ready tasks..." ;;;
     response <- request GetReady ;;
     let tasks := tasksOf response in
     (if 0 <? Z.of_nat (length tasks)
      then log info "Found ready task(s)"
      else ret tt) ;;;
     ret tasks)
    (fun error' => log error "Queue polling error:" ;;; ret []).

(** [claimTask]: [response.data.task], or [null] when the claim failed. *)
Definition claimTask (taskId : string) : M (option Buffer.BufferedTask) :=
  try_catch
    (log info "Claiming task" ;;;
     response <- request (PostClaim taskId) ;;
     log info "Task claimed successfully" ;;;
     ret (field (Http.body response) "task" ≫= parseTask))
    (fun error' =>
       match error' with
       | AxiosError _ => log warn "Failed to claim task"
       | Error _ => log error "Failed to claim task"
       end ;;;
       ret None).

(** The [for] loop of [start] over the tasks of one poll.  [stop] has no
    caller, so [isRunning] stays true once the loop runs and the [break] is
    never taken. *)
Fixpoint forTasks (readyTasks : list Buffer.BufferedTask) : M unit :=
  match readyTasks with
  | [] => ret tt
  | task :: rest =>
      claimedTask <- claimTask (Buffer.taskId (Buffer.message task)) ;;
      match claimedTask with
      | Some claimedTask => processTask claimedTask
      | None => ret tt
      end ;;;
      forTasks rest
  end.

(** One turn of the [while] loop of [start]. *)
Definition cycle (pollInterval : Z) : M unit :=
  try_catch
    (readyTasks <- getReadyTasks ;;
     (if 0 <? Z.of_nat (length readyTasks)
      then log info "Processing task(s)" ;;; forTasks readyTasks
      else log info "No ready tasks") ;;;
     sleep pollInterval)
    (fun error' => log error "Consumer loop error:" ;;; sleep pollInterval).

(** The first [turns] turns of the loop. *)
Fixpoint loop (pollInterval : Z) (turns : nat) : M unit :=
  match turns with
  | O => ret tt
  | S turns => cycle pollInterval ;;; loop pollInterval turns
  end.

(** The two services the consumer talks to. *)
Inductive Service : Type := queueWorker | apiWorker.

(** [axios.get(url + '/health', { timeout: 5000 })].  A health request is no
    task request: it leaves no [Sent] event in the trace. *)
Definition probe (service : Service) : M Http.Response :=
  fun w =>
    let (n, rest) := next (network w) in
    let w :=
      {| api := api w; buffer := buffer w; clock := clock w;
         network := rest; trace := trace w |} in
    match n with
    | delivered =>
        let r :=
          match service with
          | queueWorker =>
              snd (Buffer.fetch (buffer w) (clock w)
                     {| Buffer.method := "GET"; Buffer.pathname := ["health"] |})
          | apiWorker => snd (Api.app (api w) (clock w) Api.GetHealth)
          end in
        if Http.ok r then (w, Returned r)
        else (w, Thrown (AxiosError (Some (Http.status r))))
    | dropped => (w, Thrown (AxiosError None))
    | lost => (w, Thrown (AxiosError None))
    end.

Definition testConnections : M bool :=
  try_catch
    (log info "Testing connections..." ;;;
     queueHealth <- probe queueWorker ;;
     log info "Queue worker connection OK:" ;;;
     apiHealth <- probe apiWorker ;;
     log info "API worker connection OK:" ;;;
     ret true)
    (fun error' => log error "Connection test failed:" ;;; ret false).

(** [start], with the [while] loop cut after [turns] turns. *)
Definition start (pollInterval : Z) (turns : nat) : M unit :=
  log info "Task Consumer starting..." ;;;
  connectionsOk <- testConnections ;;
  if negb connectionsOk then
    log error "Failed to connect to required services. Exiting..."
  else
    log info "Task Consumer started successfully" ;;;
    log info "Polling every pollInterval ms" ;;;
    log info "Press Ctrl+C to stop" ;;;
    loop pollInterval turns.

End Consumer.

(** ** An invariant of the buffer *)

(** Every [ready] entry carries an expiration. *)
Definition ready_expires (env : Buffer.Env) : Prop :=
  forall name e,
    Buffer.TASK_BUFFER env !! name = Some e ->
    Buffer.status (KV.value e) = Buffer.ready ->
    exists t, KV.expiration e = Some t.

(** ** The shape of a buffer entry *)

(** An entry is stored under the key of its own task id; it is [ready], not
    claimed and with an expiration, or [processing], claimed and without
    one. *)
Definition entry_shape (name : string) (e : KV.entry Buffer.BufferedTask)
    : Prop :=
  name = Buffer.key (Buffer.taskId (Buffer.message (KV.value e))) /\
  ((Buffer.status (KV.value e) = Buffer.ready /\
    Buffer.claimedAt (KV.value e) = None /\
    exists t, KV.expiration e = Some t) \/
   (Buffer.status (KV.value e) = Buffer.processing /\
    (exists at_, Buffer.claimedAt (KV.value e) = Some at_) /\
    KV.expiration e = None)).

Definition buffer_shape (env : Buffer.Env) : Prop :=
  forall name e, Buffer.TASK_BUFFER env !! name = Some e -> entry_shape name e.

(** ** The shape of an authoritative record *)

(** A record is stored under the key of its own id, without expiration; its
    status is never [processing], and it has a [completedAt] exactly when it
    is not [pending]. *)
Definition record_shape (name : string) (e : KV.entry Api.Task) : Prop :=
  name = Api.key (Api.id (KV.value e)) /\
  KV.expiration e = None /\
  Api.status (KV.value e) <> Api.processing /\
  (Api.completedAt (KV.value e) = None <->
   Api.status (KV.value e) = Api.pending).

Definition storage_shape (env : Api.Env) : Prop :=
  forall name e, Api.TASK_STORAGE env !! name = Some e -> record_shape name e.

(** ** Payloads the simulated work can read *)


(** ** Sample data *)

Definition sample_message : Buffer.QueueMessage :=
  {| Buffer.taskId := "t1";
     Buffer.type := JStr "email";
     Buffer.payload := Some (JObj [("to", JStr "a@b.com")]);
     Buffer.createdAt := Date.toISOString 1754222400000 |}.

Definition empty_buffer : Buffer.Env := {| Buffer.TASK_BUFFER := ∅ |}.

(** The buffer after the delivery of [sample_message] at noon. *)
Definition buffered : Buffer.Env :=
  Buffer.queue empty_buffer 1754222400000 [sample_message].

(** The same buffer after a claim one second later. *)
Definition claimed : Buffer.Env :=
  fst (Buffer.claim buffered 1754222401000 "t1").

Definition empty_storage : Api.Env :=
  {| Api.TASK_STORAGE := ∅; Api.TASK_QUEUE_V2 := [] |}.

Definition sample_submission : Json :=
  JObj [("type", JStr "email"); ("payload", JObj [("to", JStr "a@b.com")])].

(** The storage after [sample_submission] was accepted at noon under the id
    [t1]. *)
Definition submitted : Api.Env :=
  fst (Api.submit empty_storage 1754222400000 "t1" (Some sample_submission)).

Definition sample_task : Api.Task :=
  {| Api.id := "t1";
     Api.type := JStr "email";
     Api.payload := Some (JObj [("to", JStr "a@b.com")]);
     Api.createdAt := Date.toISOString 1754222400000;
     Api.status := Api.pending;
     Api.completedAt := None;
     Api.result := None;
     Api.error := None |}.

Definition success_report : Json :=
  JObj [("success", JBool true);
        ("result", JObj [("processedBy", JStr "local-consumer-v2")])].

Definition failure_report : Json :=
  JObj [("success", JBool false); ("error", JStr "Simulated task failure")].

(** The storage after the success of [t1] was reported five seconds after
    noon, and after it was reported again four seconds later. *)
Definition reported_once : Api.Env :=
  fst (Api.reportCompletion submitted 1754222405000 "t1" (Some success_report)).

Definition reported_twice : Api.Env :=
  fst (Api.reportCompletion reported_once 1754222409000 "t1"
         (Some success_report)).

(** The storage after a success report followed by a failure report. *)
Definition reported_both : Api.Env :=
  fst (Api.reportCompletion reported_once 1754222409000 "t1"
         (Some failure_report)).

(** The entry of [t1] as the consumer receives it from the claim. *)
Definition claimed_task : Buffer.BufferedTask :=
  {| Buffer.message := sample_message;
     Buffer.status := Buffer.processing;
     Buffer.receivedAt := Date.toISOString 1754222400000;
     Buffer.claimedAt := Some (Date.toISOString 1754222401000) |}.

(** A consumer that has claimed [t1]; [network] tells what happens to its
    coming requests. *)
Definition claimed_world (network : list Consumer.Net) : Consumer.World :=
  {| Consumer.api := submitted;
     Consumer.buffer := claimed;
     Consumer.clock := 1754222401000;
     Consumer.network := network;
     Consumer.trace := [] |}.

(** A second delivery for the task [t1], with another payload. *)
Definition sample_redelivery : Buffer.QueueMessage :=
  {| Buffer.taskId := "t1";
     Buffer.type := JStr "email";
     Buffer.payload := Some (JObj [("to", JStr "c@d.com")]);
     Buffer.createdAt := Date.toISOString 1754222400000 |}.

(** A delivery for another task, [t2]. *)
Definition other_message : Buffer.QueueMessage :=
  {| Buffer.taskId := "t2";
     Buffer.type := JStr "heavy";
     Buffer.payload := Some (JObj [("shouldFail", JBool true)]);
     Buffer.createdAt := Date.toISOString 1754222400000 |}.

(** The buffer after the delivery of [sample_message] and [other_message] in
    one batch at noon. *)
Definition buffered_two : Buffer.Env :=
  Buffer.queue empty_buffer 1754222400000 [sample_message; other_message].

(** The message of the task whose id is the number [n] written with four
    digits, and the buffer after the delivery of the 1001 messages
    [0000] to [1000] at noon: one key more than a page of [list]. *)
Definition numbered (n : nat) : Buffer.QueueMessage :=
  {| Buffer.taskId := Date.pad4 (Z.of_nat n);
     Buffer.type := JStr "email";
     Buffer.payload := Some (JObj []);
     Buffer.createdAt := Date.toISOString 1754222400000 |}.

Definition crowded : Buffer.Env :=
  Buffer.queue empty_buffer 1754222400000 (map numbered (seq 0 1001)).

(** A submission without payload, which the API accepts, and the message
    the queue delivers for it: it has no [payload] property. *)
Definition bare_submission : Json := JObj [("type", JStr "email")].

Definition bare_message : Buffer.QueueMessage :=
  {| Buffer.taskId := "t1";
     Buffer.type := JStr "email";
     Buffer.payload := None;
     Buffer.createdAt := Date.toISOString 1754222400000 |}.

(** The two services once [bare_submission] was accepted at noon under the
    id [t1] and its message delivered, and a consumer that starts a turn of
    its loop one second later, with every request answered. *)
Definition bare_world : Consumer.World :=
  {| Consumer.api :=
       fst (Api.submit empty_storage 1754222400000 "t1" (Some bare_submission));
     Consumer.buffer := Buffer.queue empty_buffer 1754222400000 [bare_message];
     Consumer.clock := 1754222401000;
     Consumer.network := [];
     Consumer.trace := [] |}.

(** * Properties *)

#[local] Existing Instance Buffer.Status_eq_dec.
#[local] Existing Instance Api.Status_eq_dec.

Example toISOString_epoch : Date.toISOString 0 = "1970-01-01T00:00:00.000Z".
Proof. reflexivity. Qed.

Example toISOString_readme :
  Date.toISOString 1754222400000 = "2025-08-03T12:00:00.000Z".
Proof. vm_compute. reflexivity. Qed.

Example toISOString_leap :
  Date.toISOString 951868799123 = "2000-02-29T23:59:59.123Z".
Proof. vm_compute. reflexivity. Qed.

(** ** The key-value namespace *)

Section Namespace.
Context {V : Type}.
Implicit Types (ns : KV.namespace V) (e : KV.entry V).

Lemma get_Some ns now name v :
  KV.get ns now name = Some v <->
  exists e, ns !! name = Some e /\ KV.live now e = true /\ KV.value e = v.
Proof.
  unfold KV.get. split.
  - destruct (ns !! name) as [e|] eqn:Hl; [|discriminate].
    destruct (KV.live now e) eqn:Hlive; [|discriminate].
    intros [= <-]. now exists e.
  - intros (e & -> & -> & ->). reflexivity.
Qed.

Lemma get_absent ns now name : ns !! name = None -> KV.get ns now name = None.
Proof. unfold KV.get. now intros ->. Qed.

Lemma get_expired ns now name e :
  ns !! name = Some e -> KV.live now e = false -> KV.get ns now name = None.
Proof. unfold KV.get. now intros -> ->. Qed.

Lemma get_put_eq ns now later name v :
  KV.get (KV.put ns now name v None) later name = Some v.
Proof. unfold KV.get, KV.put. now rewrite lookup_insert_eq. Qed.

Lemma get_put_ne ns now later name name' v ttl :
  name <> name' ->
  KV.get (KV.put ns now name v ttl) later name' = KV.get ns later name'.
Proof. intros Hne. unfold KV.get, KV.put. now rewrite lookup_insert_ne. Qed.

Lemma list_keys_page ns prefix :
  KV.list ns prefix ++
    drop KV.limit
      (merge_sort (fun a b => Is_true (String.leb a b))
         (List.filter (String.prefix prefix) (List.map fst (map_to_list ns))))
  ≡ₚ List.filter (String.prefix prefix) (List.map fst (map_to_list ns)).
Proof. unfold KV.list. now rewrite take_drop, merge_sort_Permutation. Qed.

Lemma elem_of_prefixed ns prefix name :
  name ∈ List.filter (String.prefix prefix) (List.map fst (map_to_list ns)) <->
  String.prefix prefix name = true /\ is_Some (ns !! name).
Proof.
  rewrite list_elem_of_In, filter_In, in_map_iff. split.
  - intros [([k e] & <- & Hin) Hp]. split; [exact Hp|].
    apply list_elem_of_In, elem_of_map_to_list in Hin. simpl. eauto.
  - intros [Hp [e He]]. split; [|exact Hp].
    exists (name, e). split; [reflexivity|].
    now apply list_elem_of_In, elem_of_map_to_list.
Qed.

(** A listed name is a stored key with the prefix. *)
Lemma list_keys_sound ns prefix name :
  name ∈ KV.list ns prefix ->
  String.prefix prefix name = true /\ is_Some (ns !! name).
Proof.
  intros Hin. apply elem_of_prefixed.
  rewrite <- list_keys_page. apply elem_of_app. now left.
Qed.

Lemma prefixed_length ns prefix :
  (length (List.filter (String.prefix prefix) (List.map fst (map_to_list ns)))
   <= size ns)%nat.
Proof.
  rewrite <- length_map_to_list, <- (length_map fst).
  generalize (List.map fst (map_to_list ns)). intros l.
  induction l as [|a l IH]; simpl; [lia|].
  destruct (String.prefix prefix a); simpl; lia.
Qed.

(** Within one page, every stored key with the prefix is listed. *)
Lemma list_keys_complete ns prefix name :
  (size ns <= KV.limit)%nat ->
  String.prefix prefix name = true -> is_Some (ns !! name) ->
  name ∈ KV.list ns prefix.
Proof.
  intros Hsize Hp Hstored. unfold KV.list.
  rewrite take_ge.
  - rewrite merge_sort_Permutation. now apply elem_of_prefixed.
  - rewrite merge_sort_Permutation. pose proof (prefixed_length ns prefix). lia.
Qed.

(** No name is listed twice, and a page has at most [limit] names. *)
Lemma list_keys_NoDup ns prefix : NoDup (KV.list ns prefix).
Proof.
  assert (Hall : NoDup (List.filter (String.prefix prefix)
                          (List.map fst (map_to_list ns)))).
  { apply NoDup_ListNoDup, List.NoDup_filter, NoDup_ListNoDup.
    apply NoDup_fst_map_to_list. }
  rewrite <- list_keys_page in Hall. now apply NoDup_app in Hall as [Hpage _].
Qed.

Lemma list_keys_length ns prefix :
  (length (KV.list ns prefix) <= KV.limit)%nat.
Proof. unfold KV.list. rewrite length_take. lia. Qed.

End Namespace.

(** ** The buffer endpoints *)

Example buffered_claim_status :
  Http.status (snd (Buffer.claim buffered 1754222401000 "t1")) = 200.
Proof. vm_compute. reflexivity. Qed.

Example claimed_claim_status :
  Http.status (snd (Buffer.claim claimed 1754222402000 "t1")) = 409.
Proof. vm_compute. reflexivity. Qed.

Example expired_claim_status :
  Http.status (snd (Buffer.claim buffered (1754222400000 + 86400000) "t1")) = 404.
Proof. vm_compute. reflexivity. Qed.

(** C1. A claim on a task id with no buffer entry, or with an entry whose
    expiration has passed, is answered 404; a claim on an entry that can be
    read but whose status is not [ready] is answered 409 with the current
    status; in the three cases the buffer is returned as it was. *)
Theorem claim_rejected_without_write (env : Buffer.Env) (now : Z)
    (taskId : string) :
  (Buffer.TASK_BUFFER env !! Buffer.key taskId = None ->
   Buffer.claim env now taskId =
     (env, Http.mkResponse 404 (JObj
        [("error", JStr "Task not found"); ("taskId", JStr taskId)]))) /\
  (forall e,
     Buffer.TASK_BUFFER env !! Buffer.key taskId = Some e ->
     KV.live now e = false ->
     Buffer.claim env now taskId =
       (env, Http.mkResponse 404 (JObj
          [("error", JStr "Task not found"); ("taskId", JStr taskId)]))) /\
  (forall task,
     KV.get (Buffer.TASK_BUFFER env) now (Buffer.key taskId) = Some task ->
     Buffer.status task <> Buffer.ready ->
     Buffer.claim env now taskId =
       (env, Http.mkResponse 409 (JObj
          [("error", JStr "Task not available");
           ("taskId", JStr taskId);
           ("currentStatus", JStr (Buffer.status_name (Buffer.status task)))]))).
Proof.
  repeat split.
  - intros Habsent. unfold Buffer.claim.
    now rewrite (get_absent _ _ _ Habsent).
  - intros e Hstored Hexpired. unfold Buffer.claim.
    now rewrite (get_expired _ _ _ _ Hstored Hexpired).
  - intros task Hget Hstatus. unfold Buffer.claim. rewrite Hget.
    destruct (decide (Buffer.status task <> Buffer.ready)) as [_|Hready];
      [reflexivity|].
    exfalso. apply Hready, Hstatus.
Qed.

Lemma claim_rejected_without_write_witness :
  Http.status (snd (Buffer.claim empty_buffer 1754222400000 "t1")) = 404 /\
  Buffer.claim buffered (1754222400000 + 86400000) "t1" =
    (buffered, Http.mkResponse 404 (JObj
       [("error", JStr "Task not found"); ("taskId", JStr "t1")])) /\
  Buffer.claim claimed 1754222402000 "t1" =
    (claimed, Http.mkResponse 409 (JObj
       [("error", JStr "Task not available");
        ("taskId", JStr "t1");
        ("currentStatus", JStr "processing")])).
Proof.
  split; [|split].
  - rewrite (proj1 (claim_rejected_without_write empty_buffer 1754222400000 "t1"));
      reflexivity.
  - eapply (proj1 (proj2
      (claim_rejected_without_write buffered (1754222400000 + 86400000) "t1")));
      vm_compute; reflexivity.
  - refine (proj2 (proj2
      (claim_rejected_without_write claimed 1754222402000 "t1"))
      {| Buffer.message := sample_message;
         Buffer.status := Buffer.processing;
         Buffer.receivedAt := Date.toISOString 1754222400000;
         Buffer.claimedAt := Some (Date.toISOString 1754222401000) |} _ _).
    + vm_compute. reflexivity.
    + discriminate.
Defined.

(** C2. A claim on an entry that can be read and whose status is [ready] is
    answered 200 with the claimed entry: the entry with status [processing]
    and [claimedAt] set to the time of the claim, its other fields as they
    were.  The claimed entry is what the buffer then holds for the task id
    (written without an expiration), and no other key is touched. *)
Theorem claim_ready_entry (env : Buffer.Env) (now : Z) (taskId : string)
    (task : Buffer.BufferedTask) :
  KV.get (Buffer.TASK_BUFFER env) now (Buffer.key taskId) = Some task ->
  Buffer.status task = Buffer.ready ->
  exists claimed env',
    Buffer.claim env now taskId =
      (env', Http.mkResponse 200 (JObj
         [("success", JBool true);
          ("task", Buffer.task_json claimed);
          ("message", JStr "Task claimed successfully")])) /\
    Buffer.status claimed = Buffer.processing /\
    Buffer.claimedAt claimed = Some (Date.toISOString now) /\
    Buffer.message claimed = Buffer.message task /\
    Buffer.receivedAt claimed = Buffer.receivedAt task /\
    Buffer.TASK_BUFFER env' !! Buffer.key taskId = Some (KV.Entry claimed None) /\
    (forall later,
       KV.get (Buffer.TASK_BUFFER env') later (Buffer.key taskId) = Some claimed) /\
    (forall name, name <> Buffer.key taskId ->
       Buffer.TASK_BUFFER env' !! name = Buffer.TASK_BUFFER env !! name).
Proof.
  intros Hget Hready. unfold Buffer.claim. rewrite Hget.
  destruct (decide (Buffer.status task <> Buffer.ready)) as [Hne|_];
    [contradiction|].
  eexists _, _. split; [reflexivity|]. simpl.
  repeat split.
  - unfold KV.put. simpl. apply lookup_insert_eq.
  - intros later. apply get_put_eq.
  - intros name Hne. unfold KV.put. now apply lookup_insert_ne.
Qed.

Lemma claim_ready_entry_witness :
  exists claimed env',
    Buffer.claim buffered 1754222401000 "t1" =
      (env', Http.mkResponse 200 (JObj
         [("success", JBool true);
          ("task", Buffer.task_json claimed);
          ("message", JStr "Task claimed successfully")])) /\
    Buffer.status claimed = Buffer.processing /\
    Buffer.claimedAt claimed = Some (Date.toISOString 1754222401000).
Proof.
  destruct (claim_ready_entry buffered 1754222401000 "t1"
    {| Buffer.message := sample_message;
       Buffer.status := Buffer.ready;
       Buffer.receivedAt := Date.toISOString 1754222400000;
       Buffer.claimedAt := None |})
    as (claimed & env' & Hclaim & Hstatus & HclaimedAt & _).
  - vm_compute. reflexivity.
  - reflexivity.
  - exists claimed, env'. auto.
Defined.

(** C5. Retiring a task id is always answered 200: afterwards the buffer
    holds nothing under the id, whatever the status of the entry was, no
    other key is touched, a buffer that held nothing under the id is
    returned as it was, and a second call is answered 200 again and changes
    nothing more. *)
Theorem complete_never_fails (env : Buffer.Env) (now later : Z)
    (taskId : string) :
  let answer := Http.mkResponse 200 (JObj
    [("success", JBool true);
     ("message", JStr "Task removed from buffer");
     ("taskId", JStr taskId)]) in
  let env' := fst (Buffer.complete env now taskId) in
  Buffer.complete env now taskId = (env', answer) /\
  Buffer.TASK_BUFFER env' !! Buffer.key taskId = None /\
  (forall name, name <> Buffer.key taskId ->
     Buffer.TASK_BUFFER env' !! name = Buffer.TASK_BUFFER env !! name) /\
  (Buffer.TASK_BUFFER env !! Buffer.key taskId = None -> env' = env) /\
  Buffer.complete env' later taskId = (env', answer).
Proof.
  simpl. unfold Buffer.complete, KV.delete. simpl. repeat split.
  - apply lookup_delete_eq.
  - intros name Hne. now apply lookup_delete_ne.
  - intros Habsent. destruct env as [ns]. simpl in *. f_equal.
    now apply delete_id.
  - do 2 f_equal. apply delete_id, lookup_delete_eq.
Qed.

Lemma complete_never_fails_witness :
  fst (Buffer.complete empty_buffer 1754222400000 "t1") = empty_buffer /\
  Http.status (snd (Buffer.complete buffered 1754222400000 "t1")) = 200.
Proof.
  split.
  - apply (complete_never_fails empty_buffer 1754222400000 1754222400000 "t1").
    reflexivity.
  - now rewrite (proj1
      (complete_never_fails buffered 1754222400000 1754222400000 "t1")).
Defined.

Lemma readyLoop_spec (env : Buffer.Env) (now : Z) (keys : list string) :
  forall (acc : list Buffer.BufferedTask) (task : Buffer.BufferedTask),
    task ∈ Buffer.readyLoop env now keys acc <->
    task ∈ acc \/
    exists name,
      name ∈ keys /\
      KV.get (Buffer.TASK_BUFFER env) now name = Some task /\
      Buffer.status task = Buffer.ready.
Proof.
  induction keys as [|name keys IH]; intros acc task; simpl.
  - split; [now left|]. intros [H|(name & Hin & _)]; [exact H|].
    now apply elem_of_nil in Hin.
  - destruct (KV.get (Buffer.TASK_BUFFER env) now name) as [found|] eqn:Hget.
    + destruct (decide (Buffer.status found = Buffer.ready)) as [Hready|Hother];
        rewrite IH; [rewrite elem_of_app, list_elem_of_singleton|]; split.
      * intros [[H| ->]|(name' & Hin & H)]; [now left| |].
        -- right. exists name. split; [apply list_elem_of_here|easy].
        -- right. exists name'. split; [now apply list_elem_of_further|easy].
      * intros [H|(name' & Hin & Hget' & Hr)]; [now left; left|].
        apply elem_of_cons in Hin as [->|Hin].
        -- left; right. congruence.
        -- right. now exists name'.
      * intros [H|(name' & Hin & H)]; [now left|].
        right. exists name'. split; [now apply list_elem_of_further|easy].
      * intros [H|(name' & Hin & Hget' & Hr)]; [now left|].
        apply elem_of_cons in Hin as [->|Hin].
        -- exfalso. apply Hother. congruence.
        -- right. now exists name'.
    + rewrite IH. split.
      * intros [H|(name' & Hin & H)]; [now left|].
        right. exists name'. split; [now apply list_elem_of_further|easy].
      * intros [H|(name' & Hin & Hget' & Hr)]; [now left|].
        apply elem_of_cons in Hin as [->|Hin]; [congruence|].
        right. now exists name'.
Qed.

Lemma prefix_key (taskId : string) :
  String.prefix "task:" (Buffer.key taskId) = true.
Proof. unfold Buffer.key. destruct taskId; vm_compute; reflexivity. Qed.

(** The two task routes of [fetch] are the handlers [claim] and
    [complete]. *)
Lemma fetch_claim (env : Buffer.Env) (now : Z) (taskId : string) :
  taskId <> "" ->
  Buffer.fetch env now
    {| Buffer.method := "POST"; Buffer.pathname := ["tasks"; taskId; "claim"] |}
  = Buffer.claim env now taskId.
Proof.
  intros Hid. unfold Buffer.fetch. cbn [Buffer.method Buffer.pathname].
  repeat (case_bool_decide; [discriminate|]). cbn.
  now destruct (String.eqb_spec taskId "").
Qed.

Lemma fetch_complete (env : Buffer.Env) (now : Z) (taskId : string) :
  taskId <> "" ->
  Buffer.fetch env now
    {| Buffer.method := "POST";
       Buffer.pathname := ["tasks"; taskId; "complete"] |}
  = Buffer.complete env now taskId.
Proof.
  intros Hid. unfold Buffer.fetch. cbn [Buffer.method Buffer.pathname].
  repeat (case_bool_decide; [discriminate|]). cbn.
  now destruct (String.eqb_spec taskId "").
Qed.

(** Only the claim and the retirement can change the buffer through
    [fetch]. *)
Lemma fetch_writes (env : Buffer.Env) (now : Z) (req : Buffer.Request) :
  fst (Buffer.fetch env now req) = env \/
  (exists taskId, Buffer.fetch env now req = Buffer.claim env now taskId) \/
  (exists taskId, Buffer.fetch env now req = Buffer.complete env now taskId).
Proof.
  unfold Buffer.fetch.
  destruct (String.eqb (Buffer.method req) "OPTIONS"); [now left|].
  destruct (_ && _); [now left|].
  destruct (_ && _); [now left|].
  destruct (Buffer.taskRoute _ "claim") as [taskId|],
    (String.eqb (Buffer.method req) "POST");
    try (right; left; now exists taskId);
    destruct (Buffer.taskRoute _ "complete") as [taskId'|];
    try (right; right; now exists taskId');
    destruct (_ && _); now left.
Qed.

Lemma queue_ready_expires (now : Z) (batch : list Buffer.QueueMessage) :
  forall env, ready_expires env -> ready_expires (Buffer.queue env now batch).
Proof.
  induction batch as [|body rest IH]; intros env Hinv; simpl; [exact Hinv|].
  apply IH. intros name e. simpl. unfold KV.put.
  destruct (decide (Buffer.key (Buffer.taskId body) = name)) as [<-|Hne].
  - rewrite lookup_insert_eq. intros [= <-] _. simpl. eauto.
  - rewrite lookup_insert_ne by exact Hne. apply Hinv.
Qed.

Lemma claim_ready_expires (env : Buffer.Env) (now : Z) (taskId : string) :
  ready_expires env -> ready_expires (fst (Buffer.claim env now taskId)).
Proof.
  intros Hinv. unfold Buffer.claim.
  destruct (KV.get _ _ _) as [task|]; [|exact Hinv].
  destruct (decide _); [exact Hinv|].
  intros name e. simpl. unfold KV.put.
  destruct (decide (Buffer.key taskId = name)) as [<-|Hne].
  - rewrite lookup_insert_eq. intros [= <-]. discriminate.
  - rewrite lookup_insert_ne by exact Hne. apply Hinv.
Qed.

Lemma complete_ready_expires (env : Buffer.Env) (now : Z) (taskId : string) :
  ready_expires env -> ready_expires (fst (Buffer.complete env now taskId)).
Proof.
  intros Hinv name e. simpl. unfold KV.delete.
  intros Hl Hready. apply lookup_delete_Some in Hl as [_ Hl].
  exact (Hinv name e Hl Hready).
Qed.

Lemma run_ready_expires (history : list (Z * Buffer.Invocation)) :
  forall env, ready_expires env -> ready_expires (Buffer.run env history).
Proof.
  induction history as [|[now i] rest IH]; intros env Hinv; simpl;
    [exact Hinv|].
  apply IH. destruct i as [batch|req]; simpl.
  - now apply queue_ready_expires.
  - destruct (fetch_writes env now req) as [->|[[taskId ->]|[taskId ->]]].
    + exact Hinv.
    + now apply claim_ready_expires.
    + now apply complete_ready_expires.
Qed.

Lemma readyLoop_omap (env : Buffer.Env) (now : Z) (keys : list string) :
  forall acc : list Buffer.BufferedTask,
    Buffer.readyLoop env now keys acc =
      acc ++
      omap (fun name =>
              match KV.get (Buffer.TASK_BUFFER env) now name with
              | Some task =>
                  if decide (Buffer.status task = Buffer.ready)
                  then Some task else None
              | None => None
              end) keys.
Proof.
  induction keys as [|name keys IH]; intros acc; cbn [Buffer.readyLoop].
  - now rewrite app_nil_r.
  - cbn [omap list_omap].
    destruct (KV.get (Buffer.TASK_BUFFER env) now name) as [task|];
      [|apply IH].
    destruct (decide (Buffer.status task = Buffer.ready)); [|apply IH].
    now rewrite IH, <- app_assoc.
Qed.

Lemma omap_length_le {A B} (f : A -> option B) (l : list A) :
  (length (omap f l) <= length l)%nat.
Proof.
  induction l as [|a l IH]; [reflexivity|]. cbn [omap list_omap].
  destruct (f a); cbn [length]; lia.
Qed.

Lemma readyTasks_sound (env : Buffer.Env) (now : Z)
    (task : Buffer.BufferedTask) :
  task ∈ Buffer.readyTasks env now ->
  exists name e,
    String.prefix "task:" name = true /\
    Buffer.TASK_BUFFER env !! name = Some e /\
    KV.live now e = true /\
    KV.value e = task /\
    Buffer.status task = Buffer.ready.
Proof.
  unfold Buffer.readyTasks. rewrite readyLoop_spec.
  intros [Hnil|(name & Hin & Hget & Hready)];
    [now apply elem_of_nil in Hnil|].
  apply list_keys_sound in Hin as [Hp _].
  apply get_Some in Hget as (e & Hl & Hlive & Hv).
  now exists name, e.
Qed.

Lemma readyTasks_complete (env : Buffer.Env) (now : Z) (name : string)
    (e : KV.entry Buffer.BufferedTask) :
  (size (Buffer.TASK_BUFFER env) <= KV.limit)%nat ->
  String.prefix "task:" name = true ->
  Buffer.TASK_BUFFER env !! name = Some e ->
  KV.live now e = true ->
  Buffer.status (KV.value e) = Buffer.ready ->
  KV.value e ∈ Buffer.readyTasks env now.
Proof.
  intros Hsize Hp Hl Hlive Hready. unfold Buffer.readyTasks.
  apply readyLoop_spec. right. exists name. split; [|split; [|exact Hready]].
  - apply list_keys_complete; [exact Hsize|exact Hp|now exists e].
  - apply get_Some. now exists e.
Qed.

(** C6, as stated, fails: [list] is called once and gives one page of 1000
    names.  In a buffer of 1001 delivered entries, all of them [ready] and
    none expired, the entry of the task [1000] is stored and can be read,
    but it is not among the 1000 tasks [GET /tasks/ready] returns. *)
Lemma listReady_misses_beyond_page :
  exists e,
    Buffer.TASK_BUFFER crowded !! Buffer.key "1000" = Some e /\
    String.prefix "task:" (Buffer.key "1000") = true /\
    KV.live 1754222401000 e = true /\
    Buffer.status (KV.value e) = Buffer.ready /\
    length (Buffer.readyTasks crowded 1754222401000) = 1000%nat /\
    KV.value e ∉ Buffer.readyTasks crowded 1754222401000.
Proof.
  assert (Hothers :
    forallb (fun task =>
               negb (String.eqb (Buffer.taskId (Buffer.message task)) "1000"))
      (Buffer.readyTasks crowded 1754222401000) = true)
    by (vm_compute; reflexivity).
  eexists. split; [vm_compute; reflexivity|].
  split; [reflexivity|]. split; [vm_compute; reflexivity|].
  split; [reflexivity|]. split; [vm_compute; reflexivity|].
  intros Hin. apply list_elem_of_In in Hin.
  rewrite forallb_forall in Hothers. apply Hothers in Hin. discriminate.
Qed.

(** C6, amended.  [GET /tasks/ready] leaves the buffer as it is and returns
    one task for each name of the first page of [task:] keys whose value can
    be read and is [ready], in the order of the page and at most 1000.
    Every task returned is the value of a stored key whose expiration has
    not passed and whose status is [ready]; when the buffer holds at most
    1000 keys, every such value is returned.  An entry written by the queue
    handler at [received] carries the expiration [received] + 86400 s: from
    then on the key reads as absent and is not listed, although the entry is
    still stored.  In a buffer that deliveries and requests have built from
    the empty one, every [ready] entry carries an expiration. *)
Theorem listReady_first_page (env : Buffer.Env) (now : Z) :
  Buffer.listReady env now =
    (env, Http.mkResponse 200 (JObj
       [("tasks", JArr (map Buffer.task_json (Buffer.readyTasks env now)));
        ("count", Http.count (Buffer.readyTasks env now));
        ("timestamp", JStr (Date.toISOString now))])) /\
  (Buffer.readyTasks env now =
     omap (fun name =>
             match KV.get (Buffer.TASK_BUFFER env) now name with
             | Some task =>
                 if decide (Buffer.status task = Buffer.ready)
                 then Some task else None
             | None => None
             end) (KV.list (Buffer.TASK_BUFFER env) "task:") /\
   NoDup (KV.list (Buffer.TASK_BUFFER env) "task:") /\
   (length (Buffer.readyTasks env now) <= 1000)%nat) /\
  (forall task,
     task ∈ Buffer.readyTasks env now ->
     exists name e,
       String.prefix "task:" name = true /\
       Buffer.TASK_BUFFER env !! name = Some e /\
       KV.live now e = true /\
       KV.value e = task /\
       Buffer.status task = Buffer.ready) /\
  ((size (Buffer.TASK_BUFFER env) <= 1000)%nat ->
   forall name e,
     String.prefix "task:" name = true ->
     Buffer.TASK_BUFFER env !! name = Some e ->
     KV.live now e = true ->
     Buffer.status (KV.value e) = Buffer.ready ->
     KV.value e ∈ Buffer.readyTasks env now) /\
  (forall received body,
     let env' := Buffer.queue env received [body] in
     exists task,
       Buffer.TASK_BUFFER env' !! Buffer.key (Buffer.taskId body) =
         Some (KV.Entry task (Some (KV.seconds received + 86400))) /\
       ((size (Buffer.TASK_BUFFER env') <= 1000)%nat ->
        KV.seconds now < KV.seconds received + 86400 ->
        task ∈ Buffer.readyTasks env' now) /\
       (KV.seconds received + 86400 <= KV.seconds now ->
        KV.get (Buffer.TASK_BUFFER env') now (Buffer.key (Buffer.taskId body))
          = None /\
        forall listed,
          listed ∈ Buffer.readyTasks env' now ->
          exists name,
            name <> Buffer.key (Buffer.taskId body) /\
            KV.get (Buffer.TASK_BUFFER env) now name = Some listed)) /\
  (forall history name e,
     env = Buffer.run empty_buffer history ->
     Buffer.TASK_BUFFER env !! name = Some e ->
     Buffer.status (KV.value e) = Buffer.ready ->
     exists t, KV.expiration e = Some t).
Proof.
  split; [reflexivity|]. split; [split; [|split]|].
  { unfold Buffer.readyTasks. now rewrite readyLoop_omap. }
  { apply list_keys_NoDup. }
  { unfold Buffer.readyTasks. rewrite readyLoop_omap. cbn [app].
    etransitivity; [apply omap_length_le|apply list_keys_length]. }
  split; [apply readyTasks_sound|].
  split; [intros Hsize name e; now apply readyTasks_complete|].
  split; cycle 1.
  { intros history name e -> Hstored Hready.
    refine (run_ready_expires history empty_buffer _ name e Hstored Hready).
    intros name' e' Hempty. simpl in Hempty.
    now rewrite lookup_empty in Hempty. }
  intros received body env'. subst env'. simpl.
  set (name := Buffer.key (Buffer.taskId body)).
  eexists. split; [unfold KV.put; simpl; apply lookup_insert_eq|]. split.
  - intros Hsize Hlive.
    refine (readyTasks_complete (Buffer.queue env received [body]) now name
              (KV.Entry _ _) Hsize _ _ _ _).
    + apply prefix_key.
    + simpl. unfold KV.put. simpl. apply lookup_insert_eq.
    + unfold KV.live. simpl. now apply Z.ltb_lt.
    + reflexivity.
  - intros Hexpired. split.
    + eapply get_expired; [unfold KV.put; simpl; apply lookup_insert_eq|].
      unfold KV.live. simpl. now apply Z.ltb_ge.
    + intros listed Hin.
      apply readyTasks_sound in Hin
        as (name' & e & Hp & Hl & Hlive & Hv & Hready).
      simpl in Hl. unfold KV.put in Hl.
      destruct (decide (name = name')) as [<-|Hne].
      * rewrite lookup_insert_eq in Hl. injection Hl as <-.
        unfold KV.live in Hlive. simpl in Hlive.
        apply Z.ltb_lt in Hlive. lia.
      * rewrite lookup_insert_ne in Hl by exact Hne.
        exists name'. split; [congruence|]. apply get_Some. now exists e.
Qed.

Lemma listReady_first_page_witness :
  (exists task, task ∈ Buffer.readyTasks buffered 1754222401000) /\
  KV.get (Buffer.TASK_BUFFER buffered) (1754222400000 + 86400000)
    (Buffer.key "t1") = None /\
  (exists t,
     KV.expiration
       (KV.Entry
          {| Buffer.message := sample_message;
             Buffer.status := Buffer.ready;
             Buffer.receivedAt := Date.toISOString 1754222400000;
             Buffer.claimedAt := None |}
          (Some 1754308800)) = Some t).
Proof.
  split; [|split].
  - destruct (proj1 (proj2 (proj2 (proj2 (proj2
      (listReady_first_page empty_buffer 1754222401000)))))
      1754222400000 sample_message) as (task & _ & Hlive & _).
    exists task. apply Hlive; [vm_compute; lia|vm_compute; reflexivity].
  - destruct (proj1 (proj2 (proj2 (proj2 (proj2
      (listReady_first_page empty_buffer (1754222400000 + 86400000))))))
      1754222400000 sample_message) as (task & _ & _ & Hexpired).
    apply Hexpired. vm_compute. discriminate.
  - apply (proj2 (proj2 (proj2 (proj2 (proj2
      (listReady_first_page buffered 1754222401000)))))
      [(1754222400000, Buffer.Deliver [sample_message])] (Buffer.key "t1")).
    + reflexivity.
    + vm_compute. reflexivity.
    + reflexivity.
Defined.

Example buffered_history :
  claimed =
    Buffer.run empty_buffer
      [ (1754222400000, Buffer.Deliver [sample_message]);
        (1754222401000,
         Buffer.Fetch {| Buffer.method := "POST";
                         Buffer.pathname := ["tasks"; "t1"; "claim"] |}) ].
Proof. reflexivity. Qed.




(** ** The API worker *)

Example submitted_record :
  Api.TASK_STORAGE submitted !! Api.key "t1" = Some (KV.Entry sample_task None).
Proof. vm_compute. reflexivity. Qed.

Example submit_without_type :
  Http.status (snd (Api.submit empty_storage 0 "t1" (Some (JObj [])))) = 400.
Proof. reflexivity. Qed.

Example submit_null :
  Http.status (snd (Api.submit empty_storage 0 "t1" (Some JNull))) = 500.
Proof. reflexivity. Qed.

(** C10. A [POST /tasks] whose body is not JSON is answered 500 and leaves
    the storage and the queue as they were.  The answer is 400 exactly when
    the body is JSON, is not [null], and its [type] is missing or falsy; then
    too nothing is written. *)
Theorem submit_unparseable_is_internal (env : Api.Env) (now : Z)
    (taskId : string) :
  Api.submit env now taskId None =
    (env, Http.mkResponse 500 (JObj [("error", JStr "Failed to create task")]))
  /\
  (forall body,
     Http.status (snd (Api.submit env now taskId body)) = 400 ->
     (exists json type,
        body = Some json /\
        prop json "type" = Some type /\
        truthy type = false) /\
     Api.submit env now taskId body =
       (env, Http.mkResponse 400 (JObj [("error", JStr "Task type is required")])))
  /\
  (forall json type,
     prop json "type" = Some type ->
     truthy type = false ->
     Http.status (snd (Api.submit env now taskId (Some json))) = 400).
Proof.
  split; [reflexivity|]. split.
  - intros [json|] Hstatus; [|discriminate].
    unfold Api.submit in *.
    destruct (prop json "type") as [type|] eqn:Htype; [|discriminate].
    destruct (prop json "payload") as [payload|]; [|discriminate].
    destruct type as [type'|].
    + destruct (truthy (Some type')) eqn:Htruthy; [discriminate|].
      simpl. split; [|reflexivity]. now exists json, (Some type').
    + split; [|reflexivity]. now exists json, None.
  - intros json type Htype Hfalsy. unfold Api.submit. rewrite Htype.
    destruct json; try discriminate; simpl;
      (destruct type as [type'|]; [rewrite Hfalsy|]; reflexivity).
Qed.

Lemma submit_unparseable_is_internal_witness :
  (exists json type,
     Some (JObj [("payload", JNum 1)]) = Some json /\
     prop json "type" = Some type /\
     truthy type = false) /\
  Http.status
    (snd (Api.submit empty_storage 0 "t1" (Some (JObj [("type", JStr "")]))))
    = 400.
Proof.
  split.
  - apply (proj1 (proj2 (submit_unparseable_is_internal empty_storage 0 "t1"))
             (Some (JObj [("payload", JNum 1)]))).
    reflexivity.
  - apply (proj2 (proj2 (submit_unparseable_is_internal empty_storage 0 "t1"))
             (JObj [("type", JStr "")]) (Some (JStr ""))); reflexivity.
Defined.

(** C8, as stated, fails: the stored record of [t1] has a payload, and the
    answer of [GET /tasks/t1/status] is not the stored document and has no
    [payload] property. *)
Lemma getStatus_omits_payload :
  KV.get (Api.TASK_STORAGE submitted) 1754222401000 (Api.key "t1")
    = Some sample_task /\
  field (Api.task_json sample_task) "payload"
    = Some (JObj [("to", JStr "a@b.com")]) /\
  field (Http.body (snd (Api.getStatus submitted 1754222401000 "t1"))) "payload"
    = None /\
  Http.body (snd (Api.getStatus submitted 1754222401000 "t1"))
    <> Api.task_json sample_task.
Proof.
  repeat split; try (vm_compute; reflexivity).
  vm_compute. discriminate.
Qed.

(** C8, amended. [GET /tasks/:id/status] is answered 404 when no record can
    be read under the id; otherwise it is answered 200 with a snapshot of
    five properties of the record: [taskId], [status], [type], [createdAt]
    and, when set, [completedAt].  The payload, the result and the error of
    the record are not part of the answer.  In both cases the storage and
    the queue are returned as they were. *)
Theorem getStatus_snapshot (env : Api.Env) (now : Z) (taskId : string) :
  fst (Api.getStatus env now taskId) = env /\
  (KV.get (Api.TASK_STORAGE env) now (Api.key taskId) = None ->
   snd (Api.getStatus env now taskId) =
     Http.mkResponse 404 (JObj [("error", JStr "Task not found")])) /\
  (forall task,
     KV.get (Api.TASK_STORAGE env) now (Api.key taskId) = Some task ->
     let answer := snd (Api.getStatus env now taskId) in
     Http.status answer = 200 /\
     field (Http.body answer) "taskId" = Some (JStr (Api.id task)) /\
     field (Http.body answer) "status" =
       Some (JStr (Api.status_name (Api.status task))) /\
     field (Http.body answer) "type" = Some (Api.type task) /\
     field (Http.body answer) "createdAt" = Some (JStr (Api.createdAt task)) /\
     field (Http.body answer) "completedAt" = JStr <$> Api.completedAt task /\
     forall name,
       field (Http.body answer) name <> None ->
       name ∈ ["taskId"; "status"; "type"; "createdAt"; "completedAt"]).
Proof.
  unfold Api.getStatus. split; [|split].
  - now destruct (KV.get _ _ _).
  - now intros ->.
  - intros task ->. simpl.
    destruct (Api.completedAt task) as [at_|]; simpl;
      (repeat split; try reflexivity; intros name;
       repeat match goal with
         | |- context [String.eqb name ?k] =>
             destruct (String.eqb_spec name k) as [->|_];
             [intros _;
              repeat first [apply list_elem_of_here | apply list_elem_of_further]|]
         end;
       congruence).
Qed.

Lemma getStatus_snapshot_witness :
  snd (Api.getStatus empty_storage 0 "t1") =
    Http.mkResponse 404 (JObj [("error", JStr "Task not found")]) /\
  Http.status (snd (Api.getStatus submitted 1754222401000 "t1")) = 200.
Proof.
  split.
  - apply (proj1 (proj2 (getStatus_snapshot empty_storage 0 "t1"))).
    reflexivity.
  - apply (proj2 (proj2 (getStatus_snapshot submitted 1754222401000 "t1"))
             sample_task).
    vm_compute. reflexivity.
Defined.

Lemma completed_task_twice (task : Api.Task) (t1 t2 : Z)
    (success result error : JsValue) :
  Api.completed_task (Api.completed_task task t1 success result error)
    t2 success result error
  = Api.completed_task task t2 success result error.
Proof.
  unfold Api.completed_task. simpl.
  now destruct (truthy result), (truthy error).
Qed.

Lemma reportCompletion_found (env : Api.Env) (now : Z) (taskId : string)
    (json : Json) (success result error : JsValue) (task : Api.Task) :
  prop json "success" = Some success ->
  prop json "result" = Some result ->
  prop json "error" = Some error ->
  KV.get (Api.TASK_STORAGE env) now (Api.key taskId) = Some task ->
  let task' := Api.completed_task task now success result error in
  Api.reportCompletion env now taskId (Some json) =
    ({| Api.TASK_STORAGE :=
          KV.put (Api.TASK_STORAGE env) now (Api.key taskId) task' None;
        Api.TASK_QUEUE_V2 := Api.TASK_QUEUE_V2 env |},
     Http.mkResponse 200 (JObj
       [("success", JBool true);
        ("message",
         JStr ("Task marked as " +:+ Api.status_name (Api.status task')));
        ("taskId", JStr taskId);
        ("status", JStr (Api.status_name (Api.status task')))])).
Proof.
  intros Hs Hr He Hget. unfold Api.reportCompletion.
  now rewrite Hs, Hr, He, Hget.
Qed.

(** C4, as stated, fails: the record of [t1] after the same success report
    was handled twice is not the record after it was handled once; the two
    differ in [completedAt]. *)
Lemma reportCompletion_restamps :
  Api.completedAt <$>
    KV.get (Api.TASK_STORAGE reported_once) 1754222410000 (Api.key "t1")
    = Some (Some "2025-08-03T12:00:05.000Z") /\
  Api.completedAt <$>
    KV.get (Api.TASK_STORAGE reported_twice) 1754222410000 (Api.key "t1")
    = Some (Some "2025-08-03T12:00:09.000Z") /\
  KV.get (Api.TASK_STORAGE reported_twice) 1754222410000 (Api.key "t1")
    <> KV.get (Api.TASK_STORAGE reported_once) 1754222410000 (Api.key "t1") /\
  reported_twice <> reported_once.
Proof.
  split; [vm_compute; reflexivity|].
  split; [vm_compute; reflexivity|].
  assert (Hne :
    KV.get (Api.TASK_STORAGE reported_twice) 1754222410000 (Api.key "t1")
    <> KV.get (Api.TASK_STORAGE reported_once) 1754222410000 (Api.key "t1")).
  { vm_compute. discriminate. }
  split; [exact Hne|]. intros Heq. apply Hne. now rewrite Heq.
Qed.

(** C4, amended. When a completion report for a task with a record is
    handled twice, at [t1] and then at [t2], both calls are answered 200 and
    the record after the second call is the record the report gives when
    handled at [t2] alone: it agrees with the record after the first call on
    every field except [completedAt], which holds the time of the last call.
    When the two times print the same the storage after the second call is
    the storage after the first.  After a call of any content the status of
    a record that was [completed] or [failed] is [completed] or [failed]. *)
Theorem reportCompletion_last_report_wins (env : Api.Env) (t1 t2 : Z)
    (taskId : string) (json : Json) (success result error : JsValue)
    (task : Api.Task) :
  prop json "success" = Some success ->
  prop json "result" = Some result ->
  prop json "error" = Some error ->
  KV.get (Api.TASK_STORAGE env) t1 (Api.key taskId) = Some task ->
  let first := Api.reportCompletion env t1 taskId (Some json) in
  let second := Api.reportCompletion (fst first) t2 taskId (Some json) in
  let once := Api.completed_task task t1 success result error in
  let twice := Api.completed_task task t2 success result error in
  (Http.status (snd first) = 200 /\ Http.status (snd second) = 200) /\
  Api.TASK_STORAGE (fst first) !! Api.key taskId = Some (KV.Entry once None) /\
  Api.TASK_STORAGE (fst second) !! Api.key taskId = Some (KV.Entry twice None) /\
  (Api.id twice = Api.id once /\
   Api.type twice = Api.type once /\
   Api.payload twice = Api.payload once /\
   Api.createdAt twice = Api.createdAt once /\
   Api.status twice = Api.status once /\
   Api.result twice = Api.result once /\
   Api.error twice = Api.error once) /\
  Api.completedAt twice = Some (Date.toISOString t2) /\
  (Date.toISOString t1 = Date.toISOString t2 -> fst second = fst first) /\
  (forall now body e e',
     Api.TASK_STORAGE env !! Api.key taskId = Some e ->
     Api.status (KV.value e) = Api.completed \/
       Api.status (KV.value e) = Api.failed ->
     Api.TASK_STORAGE (fst (Api.reportCompletion env now taskId body))
       !! Api.key taskId = Some e' ->
     Api.status (KV.value e') = Api.completed \/
       Api.status (KV.value e') = Api.failed).
Proof.
  intros Hs Hr He Hget. cbv zeta.
  pose proof (reportCompletion_found env t1 taskId json _ _ _ task
                Hs Hr He Hget) as Hfirst.
  cbv zeta in Hfirst. rewrite Hfirst. cbn [fst snd].
  set (once := Api.completed_task task t1 success result error).
  set (env1 := {| Api.TASK_STORAGE := _; Api.TASK_QUEUE_V2 := _ |}).
  assert (Hget1 : KV.get (Api.TASK_STORAGE env1) t2 (Api.key taskId)
                  = Some once) by apply get_put_eq.
  pose proof (reportCompletion_found env1 t2 taskId json _ _ _ once
                Hs Hr He Hget1) as Hsecond.
  cbv zeta in Hsecond. subst once. rewrite completed_task_twice in Hsecond.
  rewrite Hsecond. cbn [fst snd]. subst env1.
  cbn [Http.status Api.TASK_STORAGE Api.TASK_QUEUE_V2]. unfold KV.put.
  split; [split; reflexivity|].
  split; [apply lookup_insert_eq|].
  split; [apply lookup_insert_eq|].
  split; [repeat split|].
  split; [reflexivity|].
  split.
  - intros Hsame. f_equal. rewrite insert_insert_eq.
    unfold Api.completed_task. now rewrite Hsame.
  - intros now body e e' Hstored Hterminal.
    unfold Api.reportCompletion.
    destruct body as [json'|]; simpl; [|congruence].
    destruct (prop json' "success") as [s'|]; [|simpl; congruence].
    destruct (prop json' "result") as [r'|]; [|simpl; congruence].
    destruct (prop json' "error") as [e0|]; [|simpl; congruence].
    destruct (KV.get _ now _) as [found|]; simpl; [|congruence].
    unfold KV.put. rewrite lookup_insert_eq. intros [= <-]. simpl.
    destruct (truthy s'); [now left|now right].
Qed.

Lemma reportCompletion_last_report_wins_witness :
  Api.TASK_STORAGE reported_twice !! Api.key "t1" =
    Some (KV.Entry
      (Api.completed_task sample_task 1754222409000 (Some (JBool true))
         (Some (JObj [("processedBy", JStr "local-consumer-v2")])) None)
      None).
Proof.
  apply (reportCompletion_last_report_wins submitted 1754222405000
           1754222409000 "t1" success_report
           (Some (JBool true))
           (Some (JObj [("processedBy", JStr "local-consumer-v2")]))
           None sample_task);
    vm_compute; reflexivity.
Defined.

(** C7, as stated, fails: after a success report followed by a failure
    report, both of the shape the consumer sends, the record of [t1] holds a
    result and an error. *)
Lemma result_and_error_together :
  reported_both =
    Api.run empty_storage
      [ (1754222400000, Api.PostTasks "t1" (Some sample_submission));
        (1754222405000, Api.PostTaskComplete "t1" (Some success_report));
        (1754222409000, Api.PostTaskComplete "t1" (Some failure_report)) ] /\
  exists task,
    KV.get (Api.TASK_STORAGE reported_both) 1754222410000 (Api.key "t1")
      = Some task /\
    Api.status task = Api.failed /\
    Api.result task = Some (JObj [("processedBy", JStr "local-consumer-v2")]) /\
    Api.error task = Some (JStr "Simulated task failure").
Proof.
  split; [reflexivity|].
  eexists. split; [vm_compute; reflexivity|]. repeat split.
Qed.

(** The invariant of the storage: a record with a result or an error is
    [completed] or [failed]. *)
Lemma app_keeps_terminal (env : Api.Env) (now : Z) (req : Api.Request) :
  (forall name e,
     Api.TASK_STORAGE env !! name = Some e ->
     Api.result (KV.value e) <> None \/ Api.error (KV.value e) <> None ->
     Api.status (KV.value e) = Api.completed \/
       Api.status (KV.value e) = Api.failed) ->
  forall name e,
    Api.TASK_STORAGE (fst (Api.app env now req)) !! name = Some e ->
    Api.result (KV.value e) <> None \/ Api.error (KV.value e) <> None ->
    Api.status (KV.value e) = Api.completed \/
      Api.status (KV.value e) = Api.failed.
Proof.
  intros Hinv name e.
  destruct req as [|taskId body|taskId|taskId body|]; simpl;
    try apply Hinv.
  - unfold Api.submit.
    destruct body as [json|]; [|apply Hinv].
    destruct (prop json "type") as [[type|]|]; try apply Hinv;
      destruct (prop json "payload") as [payload|]; try apply Hinv.
    destruct (truthy (Some type)); simpl; [|apply Hinv].
    unfold KV.put.
    destruct (decide (Api.key taskId = name)) as [<-|Hne].
    + rewrite lookup_insert_eq. intros [= <-]. simpl. intros [H|H]; congruence.
    + rewrite lookup_insert_ne by exact Hne. apply Hinv.
  - unfold Api.getStatus. destruct (KV.get _ _ _); apply Hinv.
  - unfold Api.reportCompletion.
    destruct body as [json|]; [|apply Hinv].
    destruct (prop json "success") as [success|]; [|apply Hinv].
    destruct (prop json "result") as [result|]; [|apply Hinv].
    destruct (prop json "error") as [error|]; [|apply Hinv].
    destruct (KV.get _ _ _) as [task|]; [|apply Hinv].
    simpl. unfold KV.put.
    destruct (decide (Api.key taskId = name)) as [<-|Hne].
    + rewrite lookup_insert_eq. intros [= <-] _. simpl.
      destruct (truthy success); [now left|now right].
    + rewrite lookup_insert_ne by exact Hne. apply Hinv.
Qed.

(** C7, amended.  In the storage after any history of requests, a record
    that holds a result or an error has status [completed] or [failed].  The
    two are not exclusive: a report stores the result and the error its body
    carries and clears neither.  A report that carries at most one of them,
    handled on a record that holds neither, leaves a record with at most
    one. *)
Theorem result_error_only_when_terminal (history : list (Z * Api.Request)) :
  (forall name e,
     Api.TASK_STORAGE (Api.run empty_storage history) !! name = Some e ->
     Api.result (KV.value e) <> None \/ Api.error (KV.value e) <> None ->
     Api.status (KV.value e) = Api.completed \/
       Api.status (KV.value e) = Api.failed) /\
  (forall task now success result error,
     Api.result task = None ->
     Api.error task = None ->
     truthy result = false \/ truthy error = false ->
     let task' := Api.completed_task task now success result error in
     Api.result task' = None \/ Api.error task' = None).
Proof.
  split.
  - assert (Hrun : forall env,
      (forall name e,
         Api.TASK_STORAGE env !! name = Some e ->
         Api.result (KV.value e) <> None \/ Api.error (KV.value e) <> None ->
         Api.status (KV.value e) = Api.completed \/
           Api.status (KV.value e) = Api.failed) ->
      forall name e,
        Api.TASK_STORAGE (Api.run env history) !! name = Some e ->
        Api.result (KV.value e) <> None \/ Api.error (KV.value e) <> None ->
        Api.status (KV.value e) = Api.completed \/
          Api.status (KV.value e) = Api.failed).
    { induction history as [|[now req] rest IH]; intros env Hinv; simpl.
      - exact Hinv.
      - apply IH. now apply app_keeps_terminal. }
    apply Hrun. intros name e Hl. simpl in Hl.
    now rewrite lookup_empty in Hl.
  - intros task now success result error Hr He [Hfalsy|Hfalsy]; simpl;
      rewrite Hfalsy; [left|right]; assumption.
Qed.

Lemma result_error_only_when_terminal_witness :
  (Api.status
     (Api.completed_task sample_task 1754222405000 (Some (JBool true))
        (Some (JObj [("processedBy", JStr "local-consumer-v2")])) None)
     = Api.completed \/
   Api.status
     (Api.completed_task sample_task 1754222405000 (Some (JBool true))
        (Some (JObj [("processedBy", JStr "local-consumer-v2")])) None)
     = Api.failed) /\
  (Api.result
     (Api.completed_task sample_task 1754222405000 (Some (JBool false))
        None (Some (JStr "Simulated task failure"))) = None \/
   Api.error
     (Api.completed_task sample_task 1754222405000 (Some (JBool false))
        None (Some (JStr "Simulated task failure"))) = None).
Proof.
  split.
  - refine (proj1 (result_error_only_when_terminal
      [ (1754222400000, Api.PostTasks "t1" (Some sample_submission));
        (1754222405000, Api.PostTaskComplete "t1" (Some success_report)) ])
      (Api.key "t1")
      (KV.Entry
         (Api.completed_task sample_task 1754222405000 (Some (JBool true))
            (Some (JObj [("processedBy", JStr "local-consumer-v2")])) None)
         None) _ _).
    + vm_compute. reflexivity.
    + left. discriminate.
  - apply (proj2 (result_error_only_when_terminal [])).
    + reflexivity.
    + reflexivity.
    + left. reflexivity.
Defined.

(** ** The path of a request *)

Lemma append_empty (s : string) : s +:+ "" = s.
Proof.
  induction s as [|c s IH]; [reflexivity|].
  change (String c s +:+ "") with (String c (s +:+ "")). now rewrite IH.
Qed.

Lemma append_assoc (a b c : string) : (a +:+ b) +:+ c = a +:+ (b +:+ c).
Proof.
  induction a as [|x a IH]; [reflexivity|].
  change ((String x a +:+ b) +:+ c) with (String x ((a +:+ b) +:+ c)).
  now rewrite IH.
Qed.

(** A plain character is copied by the parser and by the decoder. *)
Lemma plain_step (c : ascii) (rest : string) (path : list string)
    (buffer : string) :
  Url.plain c = true ->
  Url.pathState (String c rest) path buffer
    = Url.pathState rest path (buffer +:+ String c "") /\
  Url.clean (String c rest) = String c (Url.clean rest) /\
  Ascii.eqb c "%" = false.
Proof.
  destruct c as [[] [] [] [] [] [] [] []]; intros Hplain;
    try discriminate Hplain; repeat split.
Qed.

Lemma pathState_plain (s : string) :
  Url.allPlain s = true ->
  forall rest path buffer,
    Url.pathState (s +:+ rest) path buffer
      = Url.pathState rest path (buffer +:+ s).
Proof.
  induction s as [|c s IH]; intros Hplain rest path buffer.
  - now rewrite append_empty.
  - cbn [Url.allPlain] in Hplain. apply andb_prop in Hplain as [Hc Hs].
    change (String c s +:+ rest) with (String c (s +:+ rest)).
    rewrite (proj1 (plain_step c _ path buffer Hc)), (IH Hs).
    now rewrite append_assoc.
Qed.

Lemma clean_plain (s : string) :
  Url.allPlain s = true ->
  forall rest, Url.clean (s +:+ rest) = s +:+ Url.clean rest.
Proof.
  induction s as [|c s IH]; intros Hplain rest; [reflexivity|].
  cbn [Url.allPlain] in Hplain. apply andb_prop in Hplain as [Hc Hs].
  change (String c s +:+ rest) with (String c (s +:+ rest)).
  rewrite (proj1 (proj2 (plain_step c (s +:+ rest) [] "" Hc))), (IH Hs).
  reflexivity.
Qed.

Lemma decode_cons (c : ascii) (tail : string) :
  Ascii.eqb c "%" = false ->
  Url.decode (String c tail) = String c (Url.decode tail).
Proof.
  intros Hc. destruct tail as [|h [|l rest]]; try reflexivity.
  change (Url.decode (String c (String h (String l rest))))
    with (match Ascii.eqb c "%", Url.hexValue h, Url.hexValue l with
          | true, Some a, Some b =>
              String (ascii_of_N (16 * a + b)%N) (Url.decode rest)
          | _, _, _ => String c (Url.decode (String h (String l rest)))
          end).
  now rewrite Hc.
Qed.

Lemma decode_plain (s : string) :
  Url.allPlain s = true -> Url.decode s = s.
Proof.
  induction s as [|c s IH]; intros Hplain; [reflexivity|].
  cbn [Url.allPlain] in Hplain. apply andb_prop in Hplain as [Hc Hs].
  rewrite decode_cons by exact (proj2 (proj2 (plain_step c "" [] "" Hc))).
  now rewrite (IH Hs).
Qed.

Lemma safe_facts (taskId : string) :
  Url.safe taskId = true ->
  String.eqb taskId "" = false /\ Url.allPlain taskId = true.
Proof.
  unfold Url.safe. intros [Hne Hplain]%andb_prop.
  split; [now apply negb_true_iff|exact Hplain].
Qed.

(** A safe id is no dot segment: it joins the path as it is. *)
Lemma endSegment_safe (path : list string) (segment : string) (slash : bool) :
  Url.safe segment = true ->
  Url.endSegment path segment slash = path ++ [segment].
Proof.
  intros Hsafe. unfold Url.endSegment.
  assert (Hdots : forall dots,
            Forall (fun dot => Url.safe dot = false) dots ->
            existsb (String.eqb segment) dots = false).
  { intros dots Hall. induction Hall as [|dot dots Hdot _ IH]; [reflexivity|].
    cbn [existsb]. rewrite IH, orb_false_r.
    destruct (String.eqb_spec segment dot) as [->|]; [|reflexivity].
    congruence. }
  unfold Url.isDoubleDot, Url.isSingleDot.
  rewrite !Hdots; [reflexivity| |]; repeat constructor.
Qed.

(** The path of a request for a task with a safe id has the id as its
    second segment. *)
Lemma taskPath_safe (taskId last : string) :
  Url.safe taskId = true ->
  Url.safe last = true ->
  Consumer.taskPath taskId last = ["tasks"; taskId; last].
Proof.
  intros Hid Hlast.
  destruct (safe_facts _ Hid) as [_ Hplain].
  destruct (safe_facts _ Hlast) as [_ Hplain'].
  unfold Consumer.taskPath, Url.pathname.
  change ("/tasks/" +:+ taskId +:+ "/" +:+ last)
    with (String "/" ("tasks" +:+ String "/" (taskId +:+ String "/" last))).
  assert (Hclean :
    Url.clean (String "/" ("tasks" +:+ String "/" (taskId +:+ String "/" last)))
    = String "/" ("tasks" +:+ String "/" (taskId +:+ String "/" (last +:+ "")))).
  { change (Url.clean (String "/" ("tasks" +:+ String "/" ?x)))
      with (String "/" ("tasks" +:+ String "/" (Url.clean x))).
    rewrite (clean_plain _ Hplain).
    change (Url.clean (String "/" last)) with (String "/" (Url.clean last)).
    rewrite <- (append_empty last) at 1.
    now rewrite (clean_plain _ Hplain'). }
  rewrite Hclean.
  change (N_of_ascii "/" =? 47)%N with true. cbn [orb].
  rewrite (pathState_plain "tasks" eq_refl).
  change (Url.pathState (String "/" ?x) [] ("" +:+ "tasks"))
    with (Url.pathState x (Url.endSegment [] "tasks" true) "").
  rewrite (endSegment_safe [] "tasks" true eq_refl).
  rewrite (pathState_plain _ Hplain).
  change (Url.pathState (String "/" ?x) ?p ?b)
    with (Url.pathState x (Url.endSegment p b true) "").
  change ("" +:+ taskId) with taskId.
  rewrite (endSegment_safe _ taskId true Hid).
  rewrite (pathState_plain _ Hplain').
  change (Url.pathState "" ?p ?b) with (Url.endSegment p b false).
  change ("" +:+ last) with last.
  now rewrite (endSegment_safe _ last false Hlast).
Qed.

(** ** The routes of the two services *)

Lemma fetch_ready (env : Buffer.Env) (now : Z) :
  Buffer.fetch env now
    {| Buffer.method := "GET"; Buffer.pathname := Url.pathname "/tasks/ready" |}
  = Buffer.listReady env now.
Proof.
  change (Url.pathname "/tasks/ready") with ["tasks"; "ready"].
  unfold Buffer.fetch. cbn [Buffer.method Buffer.pathname].
  rewrite bool_decide_eq_false_2 by discriminate.
  now rewrite bool_decide_eq_true_2.
Qed.


Lemma safe_not_empty (taskId : string) :
  Url.safe taskId = true -> taskId <> "".
Proof. now intros [Hne _]%safe_facts ->. Qed.

Lemma fetch_claim_safe (env : Buffer.Env) (now : Z) (taskId : string) :
  Url.safe taskId = true ->
  Buffer.fetch env now
    {| Buffer.method := "POST";
       Buffer.pathname := Consumer.taskPath taskId "claim" |}
  = Buffer.claim env now taskId.
Proof.
  intros Hsafe. rewrite (taskPath_safe _ "claim" Hsafe eq_refl).
  apply fetch_claim. now apply safe_not_empty.
Qed.

Lemma fetch_complete_safe (env : Buffer.Env) (now : Z) (taskId : string) :
  Url.safe taskId = true ->
  Buffer.fetch env now
    {| Buffer.method := "POST";
       Buffer.pathname := Consumer.taskPath taskId "complete" |}
  = Buffer.complete env now taskId.
Proof.
  intros Hsafe. rewrite (taskPath_safe _ "complete" Hsafe eq_refl).
  apply fetch_complete. now apply safe_not_empty.
Qed.

Lemma fetch_report (env : Api.Env) (now : Z) (taskId uuid : string)
    (body : option Json) :
  Url.safe taskId = true ->
  Api.fetch env now "POST" (Consumer.taskPath taskId "complete") uuid body
  = Api.reportCompletion env now taskId body.
Proof.
  intros Hsafe. rewrite (taskPath_safe _ "complete" Hsafe eq_refl).
  destruct (safe_facts _ Hsafe) as [Hne Hplain].
  unfold Api.fetch, Api.route. cbn [map].
  rewrite (decode_plain _ Hplain).
  change (Url.decode "tasks") with "tasks".
  change (Url.decode "complete") with "complete".
  cbn [String.eqb Ascii.eqb Bool.eqb andb]. now rewrite Hne.
Qed.

(** A completion report creates no task: whatever the path its task id
    gives, the id the application would draw is not used. *)
Lemma report_draws_no_id (env : Api.Env) (now : Z) (pathname : list string)
    (uuid : string) (success : bool) (result error' : JsValue) :
  let data := JObj (literal
    [("success", Some (JBool success)); ("result", result);
     ("error", error')]) in
  Api.fetch env now "POST" pathname uuid (Some data)
  = Api.fetch env now "POST" pathname "" (Some data).
Proof.
  cbv zeta. unfold Api.fetch, Api.route.
  change (String.eqb "POST" "OPTIONS") with false.
  change (String.eqb "POST" "GET") with false.
  change (String.eqb "POST" "POST") with true.
  cbv iota.
  destruct (map Url.decode pathname) as [|only [|id [|last [|]]]];
    try reflexivity.
  rewrite !andb_false_r, andb_true_r.
  destruct (String.eqb only "tasks"); [|reflexivity].
  destruct result, error'; reflexivity.
Qed.

Example report_on_submit_route :
  let data := JObj [("success", JBool true)] in
  Consumer.taskPath "../tasks?" "complete" = ["tasks"] /\
  Consumer.serve (Consumer.PostApiComplete "../tasks?" data) (claimed_world [])
    = (claimed_world [],
       Http.mkResponse 400 (JObj [("error", JStr "Task type is required")])).
Proof. vm_compute. split; reflexivity. Qed.

(** ** The local consumer *)

Lemma calls_app (t1 t2 : list Consumer.Event) :
  Consumer.calls (t1 ++ t2) = Consumer.calls t1 ++ Consumer.calls t2.
Proof.
  induction t1 as [|[level text|call] t1 IH]; simpl; [reflexivity|exact IH|].
  now rewrite IH.
Qed.

(** Closes the facts about the world a consumer call ends in, once the call
    has been evaluated. *)
Ltac trace_facts :=
  repeat split;
  cbn [Consumer.trace Consumer.api Consumer.buffer Consumer.network
       Consumer.clock fst snd];
  rewrite ?calls_app; cbn [Consumer.calls]; rewrite ?app_nil_r, <- ?app_assoc;
  try reflexivity; try discriminate; try (intros; congruence).

(** C3. The consumer does not report and retire every task it claims.  The
    API accepts a submission without payload (201) and sends a message
    without [payload]; the consumer polls, claims the delivered task, and
    the work on it throws in the timer callback, outside every [try]: the
    turn of the loop neither resolves nor rejects, the process ends.  The
    only requests sent are the poll and the claim: no completion is
    reported and the entry is not retired.  The record stays [pending], the
    buffer entry stays [processing], and it has no expiration. *)
Theorem cycle_dies_on_task_without_payload :
  Api.submit empty_storage 1754222400000 "t1" (Some bare_submission)
    = (Consumer.api bare_world,
       Http.mkResponse 201 (JObj
         [("success", JBool true);
          ("taskId", JStr "t1");
          ("status", JStr "pending");
          ("message", JStr "Task queued successfully")])) /\
  Api.TASK_QUEUE_V2 (Consumer.api bare_world)
    = [JObj [("taskId", JStr "t1");
             ("type", JStr "email");
             ("createdAt", JStr (Buffer.createdAt bare_message))]] /\
  exists w',
    Consumer.cycle 5000 bare_world
      = (w', Consumer.Uncaught
               (Consumer.Error "Cannot read properties of undefined")) /\
    Consumer.calls (Consumer.trace w')
      = [Consumer.GetReady; Consumer.PostClaim "t1"] /\
    Consumer.api w' = Consumer.api bare_world /\
    Api.status <$>
      KV.get (Api.TASK_STORAGE (Consumer.api w')) (Consumer.clock w')
        (Api.key "t1") = Some Api.pending /\
    Buffer.TASK_BUFFER (Consumer.buffer w') !! Buffer.key "t1"
      = Some (KV.Entry
                {| Buffer.message := bare_message;
                   Buffer.status := Buffer.processing;
                   Buffer.receivedAt := Date.toISOString 1754222400000;
                   Buffer.claimedAt := Some (Date.toISOString 1754222401000) |}
                None).
Proof.
  split; [reflexivity|]. split; [reflexivity|].
  eexists. split; [vm_compute; reflexivity|].
  vm_compute. repeat split.
Qed.

Example processTask_success :
  let w' := fst (Consumer.processTask claimed_task (claimed_world [])) in
  Api.status <$> KV.get (Api.TASK_STORAGE (Consumer.api w')) 1754222410000
                   (Api.key "t1") = Some Api.completed /\
  Buffer.TASK_BUFFER (Consumer.buffer w') = ∅ /\
  Consumer.clock w' = 1754222402000.
Proof. vm_compute. repeat split. Qed.

Example processTask_unknown_task :
  let w := {| Consumer.api := empty_storage;
              Consumer.buffer := claimed;
              Consumer.clock := 1754222401000;
              Consumer.network := [];
              Consumer.trace := [] |} in
  let w' := fst (Consumer.processTask claimed_task w) in
  Consumer.api w' = empty_storage /\
  Buffer.TASK_BUFFER (Consumer.buffer w') = ∅.
Proof. vm_compute. repeat split. Qed.

Example processTask_without_payload :
  let task :=
    {| Buffer.message :=
         {| Buffer.taskId := "t1"; Buffer.type := JStr "email";
            Buffer.payload := None;
            Buffer.createdAt := Date.toISOString 1754222400000 |};
       Buffer.status := Buffer.processing;
       Buffer.receivedAt := Date.toISOString 1754222400000;
       Buffer.claimedAt := Some (Date.toISOString 1754222401000) |} in
  snd (Consumer.processTask task (claimed_world []))
    = Consumer.Uncaught (Consumer.Error "Cannot read properties of undefined").
Proof. reflexivity. Qed.

(** * More of the three programs *)

(** ** The queue handler *)

(** What the queue handler stores for a message delivered at [now]. *)
Lemma queue_untouched (now : Z) (name : string)
    (batch : list Buffer.QueueMessage) :
  forall env : Buffer.Env,
    (forall body, body ∈ batch -> Buffer.key (Buffer.taskId body) <> name) ->
    Buffer.TASK_BUFFER (Buffer.queue env now batch) !! name
      = Buffer.TASK_BUFFER env !! name.
Proof.
  induction batch as [|first rest IH]; intros env Hfree; simpl; [reflexivity|].
  rewrite IH.
  - simpl. unfold KV.put. apply lookup_insert_ne, Hfree, list_elem_of_here.
  - intros body Hin. apply Hfree. now apply list_elem_of_further.
Qed.

Lemma queue_app (now : Z) (before after : list Buffer.QueueMessage) :
  forall env : Buffer.Env,
    Buffer.queue env now (before ++ after)
      = Buffer.queue (Buffer.queue env now before) now after.
Proof.
  induction before as [|first rest IH]; intros env; simpl; [reflexivity|].
  apply IH.
Qed.

Lemma queue_last (now : Z) (env : Buffer.Env)
    (before after : list Buffer.QueueMessage) (body : Buffer.QueueMessage) :
  (forall later, later ∈ after ->
     Buffer.key (Buffer.taskId later) <> Buffer.key (Buffer.taskId body)) ->
  Buffer.TASK_BUFFER (Buffer.queue env now (before ++ body :: after))
    !! Buffer.key (Buffer.taskId body)
  = Some (KV.Entry
      {| Buffer.message := body;
         Buffer.status := Buffer.ready;
         Buffer.receivedAt := Date.toISOString now;
         Buffer.claimedAt := None |}
      (Some (KV.seconds now + 86400))).
Proof.
  intros Hfree. rewrite queue_app. simpl.
  rewrite queue_untouched by exact Hfree.
  simpl. unfold KV.put. apply lookup_insert_eq.
Qed.

(** Either no message of a batch is for a key, or there is a last one. *)
Lemma batch_last_for (name : string) (batch : list Buffer.QueueMessage) :
  (forall body, body ∈ batch -> Buffer.key (Buffer.taskId body) <> name) \/
  exists before body after,
    batch = before ++ body :: after /\
    Buffer.key (Buffer.taskId body) = name /\
    forall later, later ∈ after -> Buffer.key (Buffer.taskId later) <> name.
Proof.
  induction batch as [|first rest IH].
  - left. intros body Hin. now apply elem_of_nil in Hin.
  - destruct IH as [Hfree|(before & body & after & -> & Hkey & Hafter)].
    + destruct (decide (Buffer.key (Buffer.taskId first) = name)) as [Heq|Hne].
      * right. exists [], first, rest. now repeat split.
      * left. intros body [->|Hin]%elem_of_cons; [exact Hne|now apply Hfree].
    + right. exists (first :: before), body, after. now repeat split.
Qed.

(** X1. A key that is the key of no message of the batch is left as it was;
    for a task id with several messages in the batch, the entry stored is the
    one of the last of them. *)
Theorem queue_last_message_wins (env : Buffer.Env) (now : Z)
    (batch : list Buffer.QueueMessage) :
  (forall name,
     (forall body, body ∈ batch -> Buffer.key (Buffer.taskId body) <> name) ->
     Buffer.TASK_BUFFER (Buffer.queue env now batch) !! name
       = Buffer.TASK_BUFFER env !! name) /\
  (forall before body after,
     batch = before ++ body :: after ->
     (forall later, later ∈ after ->
        Buffer.taskId later <> Buffer.taskId body) ->
     exists e,
       Buffer.TASK_BUFFER (Buffer.queue env now batch)
         !! Buffer.key (Buffer.taskId body) = Some e /\
       Buffer.message (KV.value e) = body).
Proof.
  split.
  - intros name Hfree. now apply queue_untouched.
  - intros before body after -> Hafter. eexists. split.
    + apply queue_last. intros later Hin Hkey. apply (Hafter later Hin).
      unfold Buffer.key in Hkey. now simplify_eq.
    + reflexivity.
Qed.

Lemma queue_last_message_wins_witness :
  Buffer.TASK_BUFFER
    (Buffer.queue empty_buffer 1754222400000
       [sample_message; sample_redelivery]) !! "task:t2" = None /\
  exists e,
    Buffer.TASK_BUFFER
      (Buffer.queue empty_buffer 1754222400000
         [sample_message; sample_redelivery]) !! Buffer.key "t1" = Some e /\
    Buffer.message (KV.value e) = sample_redelivery.
Proof.
  split.
  - rewrite (proj1 (queue_last_message_wins empty_buffer 1754222400000
               [sample_message; sample_redelivery]) "task:t2").
    + reflexivity.
    + intros body [->|[->|Hin%elem_of_nil]%elem_of_cons]%elem_of_cons;
        [discriminate|discriminate|contradiction].
  - apply (proj2 (queue_last_message_wins empty_buffer 1754222400000
             [sample_message; sample_redelivery])
             [sample_message] sample_redelivery []).
    + reflexivity.
    + intros later Hin. now apply elem_of_nil in Hin.
Defined.

(** X2. Delivering a batch again, at any later time, leaves the buffer the
    second delivery alone would leave: one entry per task id, no trace of the
    first delivery. *)
Theorem queue_redelivery_collapses (env : Buffer.Env) (t1 t2 : Z)
    (batch : list Buffer.QueueMessage) :
  Buffer.queue (Buffer.queue env t1 batch) t2 batch = Buffer.queue env t2 batch.
Proof.
  assert (Hext : forall a b : Buffer.Env,
            Buffer.TASK_BUFFER a = Buffer.TASK_BUFFER b -> a = b).
  { intros [a] [b]. simpl. now intros ->. }
  apply Hext, map_eq. intros name.
  destruct (batch_last_for name batch)
    as [Hfree|(before & body & after & -> & <- & Hafter)].
  - now rewrite !queue_untouched.
  - now rewrite !queue_last.
Qed.

(** ** The buffer endpoints, one after the other *)

(** The claim of an entry that can be read and is [ready], written out. *)
Lemma claim_ready (env : Buffer.Env) (now : Z) (taskId : string)
    (task : Buffer.BufferedTask) :
  KV.get (Buffer.TASK_BUFFER env) now (Buffer.key taskId) = Some task ->
  Buffer.status task = Buffer.ready ->
  let claimed :=
    {| Buffer.message := Buffer.message task;
       Buffer.status := Buffer.processing;
       Buffer.receivedAt := Buffer.receivedAt task;
       Buffer.claimedAt := Some (Date.toISOString now) |} in
  Buffer.claim env now taskId =
    ({| Buffer.TASK_BUFFER :=
          KV.put (Buffer.TASK_BUFFER env) now (Buffer.key taskId) claimed None |},
     Http.mkResponse 200 (JObj
       [("success", JBool true);
        ("task", Buffer.task_json claimed);
        ("message", JStr "Task claimed successfully")])).
Proof.
  intros Hget Hready. unfold Buffer.claim. rewrite Hget.
  destruct (decide (Buffer.status task <> Buffer.ready)) as [Hne|_];
    [contradiction|reflexivity].
Qed.

Lemma claim_processing (env : Buffer.Env) (now : Z) (taskId : string)
    (task : Buffer.BufferedTask) :
  KV.get (Buffer.TASK_BUFFER env) now (Buffer.key taskId) = Some task ->
  Buffer.status task = Buffer.processing ->
  Buffer.claim env now taskId =
    (env, Http.mkResponse 409 (JObj
       [("error", JStr "Task not available");
        ("taskId", JStr taskId);
        ("currentStatus", JStr "processing")])).
Proof.
  intros Hget Hprocessing. unfold Buffer.claim. rewrite Hget, Hprocessing.
  destruct (decide (Buffer.processing <> Buffer.ready)) as [_|Hready];
    [reflexivity|].
  exfalso. apply Hready. discriminate.
Qed.

(** X3. After a claim that succeeded, a claim of the same task at any later
    time is answered 409 with the status [processing] and changes nothing:
    the claimed entry has no expiration, so it is never answered 404. *)
Theorem claim_twice_conflict (env : Buffer.Env) (now later : Z)
    (taskId : string) (task : Buffer.BufferedTask) :
  KV.get (Buffer.TASK_BUFFER env) now (Buffer.key taskId) = Some task ->
  Buffer.status task = Buffer.ready ->
  let env' := fst (Buffer.claim env now taskId) in
  Http.status (snd (Buffer.claim env now taskId)) = 200 /\
  Buffer.claim env' later taskId =
    (env', Http.mkResponse 409 (JObj
       [("error", JStr "Task not available");
        ("taskId", JStr taskId);
        ("currentStatus", JStr "processing")])).
Proof.
  intros Hget Hready. cbv zeta.
  rewrite (claim_ready env now taskId task Hget Hready). cbn [fst snd].
  split; [reflexivity|].
  eapply claim_processing; [apply get_put_eq|reflexivity].
Qed.

Lemma claim_twice_conflict_witness :
  Http.status (snd (Buffer.claim claimed (1754222400000 + 2 * 86400000) "t1"))
    = 409.
Proof.
  pose proof (proj2 (claim_twice_conflict buffered 1754222401000
    (1754222400000 + 2 * 86400000) "t1"
    {| Buffer.message := sample_message;
       Buffer.status := Buffer.ready;
       Buffer.receivedAt := Date.toISOString 1754222400000;
       Buffer.claimedAt := None |} eq_refl eq_refl)) as Hsecond.
  unfold claimed. now rewrite Hsecond.
Defined.

Lemma allLoop_spec (env : Buffer.Env) (now : Z) (keys : list string) :
  forall (acc : list Buffer.BufferedTask) (task : Buffer.BufferedTask),
    task ∈ Buffer.allLoop env now keys acc <->
    task ∈ acc \/
    exists name,
      name ∈ keys /\ KV.get (Buffer.TASK_BUFFER env) now name = Some task.
Proof.
  induction keys as [|name keys IH]; intros acc task; simpl.
  - split; [now left|]. intros [H|(name & Hin & _)]; [exact H|].
    now apply elem_of_nil in Hin.
  - destruct (KV.get (Buffer.TASK_BUFFER env) now name) as [found|] eqn:Hget;
      rewrite IH; [rewrite elem_of_app, list_elem_of_singleton|]; split.
    + intros [[H| ->]|(name' & Hin & H)]; [now left| |].
      * right. exists name. split; [apply list_elem_of_here|exact Hget].
      * right. exists name'. split; [now apply list_elem_of_further|exact H].
    + intros [H|(name' & Hin & Hget')]; [now left; left|].
      apply elem_of_cons in Hin as [->|Hin].
      * left; right. congruence.
      * right. now exists name'.
    + intros [H|(name' & Hin & H)]; [now left|].
      right. exists name'. split; [now apply list_elem_of_further|exact H].
    + intros [H|(name' & Hin & Hget')]; [now left|].
      apply elem_of_cons in Hin as [->|Hin]; [congruence|].
      right. now exists name'.
Qed.

Lemma allTasks_sound (env : Buffer.Env) (now : Z) (task : Buffer.BufferedTask) :
  task ∈ Buffer.allTasks env now ->
  exists name e,
    String.prefix "task:" name = true /\
    Buffer.TASK_BUFFER env !! name = Some e /\
    KV.live now e = true /\
    KV.value e = task.
Proof.
  unfold Buffer.allTasks. rewrite allLoop_spec.
  intros [Hnil|(name & Hin & Hget)]; [now apply elem_of_nil in Hnil|].
  apply list_keys_sound in Hin as [Hp _].
  apply get_Some in Hget as (e & Hl & Hlive & Hv).
  now exists name, e.
Qed.

Lemma allTasks_complete (env : Buffer.Env) (now : Z) (name : string)
    (e : KV.entry Buffer.BufferedTask) :
  (size (Buffer.TASK_BUFFER env) <= KV.limit)%nat ->
  String.prefix "task:" name = true ->
  Buffer.TASK_BUFFER env !! name = Some e ->
  KV.live now e = true ->
  KV.value e ∈ Buffer.allTasks env now.
Proof.
  intros Hsize Hp Hl Hlive. unfold Buffer.allTasks.
  apply allLoop_spec. right. exists name. split.
  - apply list_keys_complete; [exact Hsize|exact Hp|now exists e].
  - apply get_Some. now exists e.
Qed.

Lemma allLoop_omap (env : Buffer.Env) (now : Z) (keys : list string) :
  forall acc : list Buffer.BufferedTask,
    Buffer.allLoop env now keys acc =
      acc ++ omap (KV.get (Buffer.TASK_BUFFER env) now) keys.
Proof.
  induction keys as [|name keys IH]; intros acc; cbn [Buffer.allLoop].
  - now rewrite app_nil_r.
  - cbn [omap list_omap].
    destruct (KV.get (Buffer.TASK_BUFFER env) now name) as [task|];
      [|apply IH].
    now rewrite IH, <- app_assoc.
Qed.

Lemma readyLoop_filter (env : Buffer.Env) (now : Z) (keys : list string) :
  forall acc : list Buffer.BufferedTask,
    Buffer.readyLoop env now keys
      (filter (fun task => Buffer.status task = Buffer.ready) acc)
    = filter (fun task => Buffer.status task = Buffer.ready)
        (Buffer.allLoop env now keys acc).
Proof.
  induction keys as [|name keys IH]; intros acc; simpl; [reflexivity|].
  destruct (KV.get (Buffer.TASK_BUFFER env) now name) as [found|];
    [|apply IH].
  rewrite <- IH, filter_app.
  destruct (decide (Buffer.status found = Buffer.ready)) as [Hready|Hother].
  - rewrite filter_cons_True by exact Hready. now rewrite filter_nil.
  - rewrite filter_cons_False by exact Hother.
    now rewrite filter_nil, app_nil_r.
Qed.

(** X4. After the retirement of a task, at any later time its key reads as
    absent, a claim of it is answered 404 and leaves the buffer as it is,
    and every task that [GET /tasks/all] still returns is stored under
    another key, where it was before. *)
Theorem complete_then_claim_not_found (env : Buffer.Env) (now later : Z)
    (taskId : string) :
  let env' := fst (Buffer.complete env now taskId) in
  KV.get (Buffer.TASK_BUFFER env') later (Buffer.key taskId) = None /\
  Buffer.claim env' later taskId =
    (env', Http.mkResponse 404 (JObj
       [("error", JStr "Task not found"); ("taskId", JStr taskId)])) /\
  (forall task,
     task ∈ Buffer.allTasks env' later ->
     exists name,
       name <> Buffer.key taskId /\
       KV.get (Buffer.TASK_BUFFER env) later name = Some task).
Proof.
  cbv zeta. cbn [Buffer.complete fst].
  assert (Hgone :
    KV.get (KV.delete (Buffer.TASK_BUFFER env) (Buffer.key taskId)) later
      (Buffer.key taskId) = None).
  { apply get_absent. unfold KV.delete. apply lookup_delete_eq. }
  cbn [Buffer.TASK_BUFFER]. split; [exact Hgone|]. split.
  - unfold Buffer.claim. cbn [Buffer.TASK_BUFFER]. now rewrite Hgone.
  - intros task (name & e & _ & Hstored & Hlive & Hvalue)%allTasks_sound.
    cbn [Buffer.TASK_BUFFER] in Hstored. unfold KV.delete in Hstored.
    apply lookup_delete_Some in Hstored as [Hne Hstored].
    exists name. split; [congruence|]. apply get_Some. now exists e.
Qed.

(** X5. The tasks of [GET /tasks/ready] are the tasks of [GET /tasks/all]
    whose status is [ready], in the same order. *)
Theorem readyTasks_filter_allTasks (env : Buffer.Env) (now : Z) :
  Buffer.readyTasks env now
    = filter (fun task => Buffer.status task = Buffer.ready)
        (Buffer.allTasks env now).
Proof.
  unfold Buffer.readyTasks, Buffer.allTasks.
  now rewrite <- readyLoop_filter, filter_nil.
Qed.

(** X6. [GET /tasks/all] leaves the buffer as it is and returns one task
    for each name of the first page of [task:] keys whose value can be read,
    whatever its status, in the order of the page and at most 1000; its
    [count] is the number of tasks returned.  Every task returned is the
    value of a stored key whose expiration has not passed; when the buffer
    holds at most 1000 keys, every such value is returned. *)
Theorem listAll_live_entries (env : Buffer.Env) (now : Z) :
  Buffer.listAll env now =
    (env, Http.mkResponse 200 (JObj
       [("tasks", JArr (map Buffer.task_json (Buffer.allTasks env now)));
        ("count", Http.count (map Buffer.task_json (Buffer.allTasks env now)));
        ("timestamp", JStr (Date.toISOString now))])) /\
  (Buffer.allTasks env now =
     omap (KV.get (Buffer.TASK_BUFFER env) now)
       (KV.list (Buffer.TASK_BUFFER env) "task:") /\
   NoDup (KV.list (Buffer.TASK_BUFFER env) "task:") /\
   (length (Buffer.allTasks env now) <= 1000)%nat) /\
  (forall task,
     task ∈ Buffer.allTasks env now ->
     exists name e,
       String.prefix "task:" name = true /\
       Buffer.TASK_BUFFER env !! name = Some e /\
       KV.live now e = true /\
       KV.value e = task) /\
  ((size (Buffer.TASK_BUFFER env) <= 1000)%nat ->
   forall name e,
     String.prefix "task:" name = true ->
     Buffer.TASK_BUFFER env !! name = Some e ->
     KV.live now e = true ->
     KV.value e ∈ Buffer.allTasks env now).
Proof.
  split; [unfold Buffer.listAll, Http.count; now rewrite length_map|].
  split; [split; [|split]|].
  - unfold Buffer.allTasks. now rewrite allLoop_omap.
  - apply list_keys_NoDup.
  - unfold Buffer.allTasks. rewrite allLoop_omap. cbn [app].
    etransitivity; [apply omap_length_le|apply list_keys_length].
  - split; [apply allTasks_sound|].
    intros Hsize name e. now apply allTasks_complete.
Qed.

(** ** [fetch] *)

(** X7. A request whose method is not POST leaves the buffer as it is,
    whatever its path. *)
Theorem fetch_reads_only (env : Buffer.Env) (now : Z) (req : Buffer.Request) :
  Buffer.method req <> "POST" ->
  fst (Buffer.fetch env now req) = env.
Proof.
  intros Hmethod. unfold Buffer.fetch.
  destruct (String.eqb_spec (Buffer.method req) "POST") as [Heq|_];
    [contradiction|].
  destruct (String.eqb (Buffer.method req) "OPTIONS"); [reflexivity|].
  destruct (_ && _); [reflexivity|].
  destruct (_ && _); [reflexivity|].
  destruct (Buffer.taskRoute _ "claim"), (Buffer.taskRoute _ "complete");
    destruct (_ && _); reflexivity.
Qed.

Lemma fetch_reads_only_witness :
  fst (Buffer.fetch buffered 1754222401000
         {| Buffer.method := "GET";
            Buffer.pathname := ["tasks"; "t1"; "claim"] |}) = buffered.
Proof. apply fetch_reads_only. discriminate. Defined.

(** X8. A request never adds an entry to the buffer: a key stored after
    [fetch] was stored before it.  New keys come from the queue handler
    alone. *)
Theorem fetch_adds_no_key (env : Buffer.Env) (now : Z) (req : Buffer.Request)
    (name : string) :
  is_Some (Buffer.TASK_BUFFER (fst (Buffer.fetch env now req)) !! name) ->
  is_Some (Buffer.TASK_BUFFER env !! name).
Proof.
  destruct (fetch_writes env now req) as [->|[[taskId ->]|[taskId ->]]].
  - trivial.
  - unfold Buffer.claim.
    destruct (KV.get _ _ _) as [task|] eqn:Hget; [|trivial].
    destruct (decide _); [trivial|].
    cbn [fst Buffer.TASK_BUFFER]. unfold KV.put.
    destruct (decide (Buffer.key taskId = name)) as [<-|Hne].
    + intros _. apply get_Some in Hget as (e & Hstored & _). now exists e.
    + now rewrite lookup_insert_ne.
  - cbn [Buffer.complete fst Buffer.TASK_BUFFER]. unfold KV.delete.
    intros [e [_ Hstored]%lookup_delete_Some]. now exists e.
Qed.

Lemma fetch_adds_no_key_witness :
  is_Some (Buffer.TASK_BUFFER buffered !! Buffer.key "t1").
Proof.
  apply (fetch_adds_no_key buffered 1754222401000
           {| Buffer.method := "POST";
              Buffer.pathname := ["tasks"; "t1"; "claim"] |}).
  vm_compute. eauto.
Defined.



(** ** The shape of the buffer *)

Lemma queue_shape (now : Z) (batch : list Buffer.QueueMessage) :
  forall env, buffer_shape env -> buffer_shape (Buffer.queue env now batch).
Proof.
  induction batch as [|body rest IH]; intros env Hshape; simpl; [exact Hshape|].
  apply IH. intros name e. simpl. unfold KV.put.
  destruct (decide (Buffer.key (Buffer.taskId body) = name)) as [<-|Hne].
  - rewrite lookup_insert_eq. intros [= <-]. split; [reflexivity|].
    left. simpl. eauto.
  - rewrite lookup_insert_ne by exact Hne. apply Hshape.
Qed.

Lemma claim_shape (env : Buffer.Env) (now : Z) (taskId : string) :
  buffer_shape env -> buffer_shape (fst (Buffer.claim env now taskId)).
Proof.
  intros Hshape. unfold Buffer.claim.
  destruct (KV.get _ _ _) as [task|] eqn:Hget; [|exact Hshape].
  destruct (decide _); [exact Hshape|].
  intros name e. simpl. unfold KV.put.
  destruct (decide (Buffer.key taskId = name)) as [<-|Hne].
  - rewrite lookup_insert_eq. intros [= <-].
    apply get_Some in Hget as (e & Hstored & _ & <-).
    destruct (Hshape _ _ Hstored) as [Hkey _].
    split; [exact Hkey|]. right. simpl. eauto.
  - rewrite lookup_insert_ne by exact Hne. apply Hshape.
Qed.

Lemma complete_shape (env : Buffer.Env) (now : Z) (taskId : string) :
  buffer_shape env -> buffer_shape (fst (Buffer.complete env now taskId)).
Proof.
  intros Hshape name e. simpl. unfold KV.delete.
  intros [_ Hstored]%lookup_delete_Some. exact (Hshape name e Hstored).
Qed.

Lemma run_shape (history : list (Z * Buffer.Invocation)) :
  forall env, buffer_shape env -> buffer_shape (Buffer.run env history).
Proof.
  induction history as [|[now i] rest IH]; intros env Hshape; simpl;
    [exact Hshape|].
  apply IH. destruct i as [batch|req]; simpl.
  - now apply queue_shape.
  - destruct (fetch_writes env now req) as [->|[[taskId ->]|[taskId ->]]].
    + exact Hshape.
    + now apply claim_shape.
    + now apply complete_shape.
Qed.

(** X10. In a buffer that deliveries and requests have built from the empty
    one, every entry is stored under the key of its own task id, and is
    either [ready], without [claimedAt] and with an expiration, or
    [processing], with [claimedAt] and without expiration.  No entry has the
    status [completed], and two entries never share a task id. *)
Theorem reachable_buffer_shape (history : list (Z * Buffer.Invocation))
    (name : string) (e : KV.entry Buffer.BufferedTask) :
  Buffer.TASK_BUFFER (Buffer.run empty_buffer history) !! name = Some e ->
  entry_shape name e /\
  Buffer.status (KV.value e) <> Buffer.completed /\
  (forall name' e',
     Buffer.TASK_BUFFER (Buffer.run empty_buffer history) !! name' = Some e' ->
     Buffer.taskId (Buffer.message (KV.value e'))
       = Buffer.taskId (Buffer.message (KV.value e)) ->
     name' = name /\ e' = e).
Proof.
  assert (Hshape : buffer_shape (Buffer.run empty_buffer history)).
  { apply run_shape. intros name' e' Hempty. simpl in Hempty.
    now rewrite lookup_empty in Hempty. }
  intros Hstored. pose proof (Hshape _ _ Hstored) as Hentry.
  split; [exact Hentry|]. split.
  - destruct Hentry as [_ [[-> _]|[-> _]]]; discriminate.
  - intros name' e' Hstored' Hid.
    destruct Hentry as [-> _]. destruct (Hshape _ _ Hstored') as [-> _].
    rewrite Hid in *. split; [reflexivity|]. congruence.
Qed.

Lemma reachable_buffer_shape_witness :
  entry_shape (Buffer.key "t1") (KV.Entry claimed_task None).
Proof.
  apply (reachable_buffer_shape
    [ (1754222400000, Buffer.Deliver [sample_message]);
      (1754222401000,
       Buffer.Fetch {| Buffer.method := "POST";
                       Buffer.pathname := ["tasks"; "t1"; "claim"] |}) ]).
  vm_compute. reflexivity.
Defined.

(** ** Submitting *)

Lemma submit_accepted (env : Api.Env) (now : Z) (taskId : string)
    (json : Json) (type : Json) (payload : JsValue) :
  prop json "type" = Some (Some type) ->
  prop json "payload" = Some payload ->
  truthy (Some type) = true ->
  let task :=
    {| Api.id := taskId;
       Api.type := type;
       Api.payload := payload;
       Api.createdAt := Date.toISOString now;
       Api.status := Api.pending;
       Api.completedAt := None;
       Api.result := None;
       Api.error := None |} in
  Api.submit env now taskId (Some json) =
    ({| Api.TASK_STORAGE :=
          KV.put (Api.TASK_STORAGE env) now (Api.key taskId) task None;
        Api.TASK_QUEUE_V2 :=
          Api.TASK_QUEUE_V2 env ++
          [JObj (literal
             [("taskId", Some (JStr taskId));
              ("type", Some type);
              ("payload", payload);
              ("createdAt", Some (JStr (Date.toISOString now)))])] |},
     Http.mkResponse 201 (JObj
       [("success", JBool true);
        ("taskId", JStr taskId);
        ("status", JStr "pending");
        ("message", JStr "Task queued successfully")])).
Proof.
  intros Htype Hpayload Htruthy. unfold Api.submit.
  now rewrite Htype, Hpayload, Htruthy.
Qed.

Lemma prop_payload (json : Json) (type : JsValue) :
  prop json "type" = Some type -> exists payload, prop json "payload" = Some payload.
Proof. destruct json; simpl; try discriminate; eauto. Qed.

(** X11. A submission whose [type] is truthy is answered 201 with the task
    id and the status [pending]; the status of the task asked for at any
    later time is answered 200 with [pending], the type submitted, the time
    of the submission as [createdAt] and no [completedAt]; and one message
    with the task id, the type and the creation time has been added at the
    end of the queue. *)
Theorem submit_then_status_pending (env : Api.Env) (now later : Z)
    (taskId : string) (json type : Json) :
  prop json "type" = Some (Some type) ->
  truthy (Some type) = true ->
  let env' := fst (Api.submit env now taskId (Some json)) in
  let status := snd (Api.getStatus env' later taskId) in
  snd (Api.submit env now taskId (Some json)) =
    Http.mkResponse 201 (JObj
      [("success", JBool true);
       ("taskId", JStr taskId);
       ("status", JStr "pending");
       ("message", JStr "Task queued successfully")]) /\
  status =
    Http.mkResponse 200 (JObj
      [("taskId", JStr taskId);
       ("status", JStr "pending");
       ("type", type);
       ("createdAt", JStr (Date.toISOString now))]) /\
  exists message,
    Api.TASK_QUEUE_V2 env' = Api.TASK_QUEUE_V2 env ++ [message] /\
    field message "taskId" = Some (JStr taskId) /\
    field message "type" = Some type /\
    field message "createdAt" = Some (JStr (Date.toISOString now)).
Proof.
  intros Htype Htruthy. cbv zeta.
  destruct (prop_payload json _ Htype) as [payload Hpayload].
  rewrite (submit_accepted env now taskId json type payload
             Htype Hpayload Htruthy).
  cbn [fst snd]. split; [reflexivity|]. split.
  - unfold Api.getStatus. cbn [Api.TASK_STORAGE]. now rewrite get_put_eq.
  - eexists. cbn [Api.TASK_QUEUE_V2]. split; [reflexivity|].
    now destruct payload.
Qed.

Lemma submit_then_status_pending_witness :
  snd (Api.getStatus submitted (1754222400000 + 86400000) "t1") =
    Http.mkResponse 200 (JObj
      [("taskId", JStr "t1");
       ("status", JStr "pending");
       ("type", JStr "email");
       ("createdAt", JStr (Date.toISOString 1754222400000))]).
Proof.
  apply (submit_then_status_pending empty_storage 1754222400000
           (1754222400000 + 86400000) "t1" sample_submission (JStr "email"));
    reflexivity.
Defined.

(** X12. [POST /tasks] writes the record before it sends the message and
    undoes nothing, whether the bindings work or throw.  With both bindings
    working the handler is [submit].  An answer 201 is given only when
    both worked: the record of the new id is stored and exactly one message
    has been sent.  Any other answer has sent no message, and has left the
    storage as it was unless it is [send] that threw.  No record under
    another key is ever touched.  When [send] throws on a submission with a
    type, the answer is 500 and the record just written stays, [pending]
    and without expiration, with no message for it. *)
Theorem submit_record_then_message (bindings : Api.Bindings) (env : Api.Env)
    (now : Z) (taskId : string) (body : option Json) :
  let answer := Api.submitUnder bindings env now taskId body in
  (bindings = Api.healthy -> answer = Api.submit env now taskId body) /\
  (Http.status (snd answer) = 201 ->
   bindings = Api.healthy /\
   length (Api.TASK_QUEUE_V2 (fst answer))
     = S (length (Api.TASK_QUEUE_V2 env)) /\
   is_Some (Api.TASK_STORAGE (fst answer) !! Api.key taskId)) /\
  (Http.status (snd answer) <> 201 ->
   Api.TASK_QUEUE_V2 (fst answer) = Api.TASK_QUEUE_V2 env /\
   (bindings <> Api.sendThrows -> fst answer = env)) /\
  (forall name, name <> Api.key taskId ->
     Api.TASK_STORAGE (fst answer) !! name = Api.TASK_STORAGE env !! name) /\
  (bindings = Api.sendThrows ->
   forall json type payload,
     body = Some json ->
     prop json "type" = Some type ->
     truthy type = true ->
     prop json "payload" = Some payload ->
     Http.status (snd answer) = 500 /\
     Api.TASK_QUEUE_V2 (fst answer) = Api.TASK_QUEUE_V2 env /\
     exists task,
       Api.TASK_STORAGE (fst answer) !! Api.key taskId
         = Some (KV.Entry task None) /\
       Api.id task = taskId /\
       Api.status task = Api.pending /\
       Api.payload task = payload).
Proof.
  cbv zeta. split; [intros ->; reflexivity|].
  unfold Api.submitUnder.
  assert (Hrefused : forall status (answer : Json),
    status <> 201 ->
    (status = 201 ->
     bindings = Api.healthy /\
     length (Api.TASK_QUEUE_V2 env) = S (length (Api.TASK_QUEUE_V2 env)) /\
     is_Some (Api.TASK_STORAGE env !! Api.key taskId)) /\
    (status <> 201 ->
     Api.TASK_QUEUE_V2 env = Api.TASK_QUEUE_V2 env /\
     (bindings <> Api.sendThrows -> env = env)) /\
    (forall name, name <> Api.key taskId ->
       Api.TASK_STORAGE env !! name = Api.TASK_STORAGE env !! name)).
  { intros status answer Hstatus.
    split; [intros Hcreated; now contradiction Hstatus|]. now repeat split. }
  destruct body as [json|].
  2:{ destruct (Hrefused 500 (JObj [("error", JStr "Failed to create task")]))
      as (H1 & H2 & H3); [discriminate|].
    repeat (split; [assumption|]). intros _ json' type' payload' [=]. }
  destruct (prop json "type") as [[type|]|] eqn:Htype;
    destruct (prop json "payload") as [payload|] eqn:Hpayload;
    try (destruct (Hrefused 500
                     (JObj [("error", JStr "Failed to create task")]))
           as (H1 & H2 & H3); [discriminate|];
         repeat (split; [assumption|]);
         intros _ json' type' payload' [= <-] Ht Htruthy Hp; congruence);
    try (destruct (Hrefused 400
                     (JObj [("error", JStr "Task type is required")]))
           as (H1 & H2 & H3); [discriminate|];
         repeat (split; [assumption|]);
         intros _ json' type' payload' [= <-] Ht Htruthy Hp;
         rewrite Htype in Ht; injection Ht as <-; discriminate Htruthy).
  destruct (truthy (Some type)) eqn:Htruthy; cbn [negb].
  2:{ destruct (Hrefused 400 (JObj [("error", JStr "Task type is required")]))
        as (H1 & H2 & H3); [discriminate|].
      repeat (split; [assumption|]).
      intros _ json' type' payload' [= <-] Ht Htruthy' Hp.
      rewrite Htype in Ht. injection Ht as <-. congruence. }
  destruct bindings;
    cbn [fst snd Http.status Api.TASK_QUEUE_V2 Api.TASK_STORAGE];
    (split; [|split; [|split]]).
  - intros _. rewrite length_app. cbn [length]. split; [reflexivity|].
    split; [lia|]. unfold KV.put. rewrite lookup_insert_eq. eauto.
  - intros Hne. now contradiction Hne.
  - intros name Hne. unfold KV.put. now apply lookup_insert_ne.
  - discriminate.
  - discriminate.
  - now split.
  - reflexivity.
  - discriminate.
  - discriminate.
  - intros _. split; [reflexivity|]. intros Hne. now contradiction Hne.
  - intros name Hne. unfold KV.put. now apply lookup_insert_ne.
  - intros _ json' type' payload' [= <-]. rewrite Htype, Hpayload.
    intros [= <-] _ [= <-]. split; [reflexivity|]. split; [reflexivity|].
    eexists. split; [unfold KV.put; apply lookup_insert_eq|]. now repeat split.
Qed.

Lemma submit_record_then_message_witness :
  let answer :=
    Api.submitUnder Api.sendThrows empty_storage 1754222400000 "t1"
      (Some sample_submission) in
  Http.status (snd answer) = 500 /\
  Api.TASK_QUEUE_V2 (fst answer) = [] /\
  exists task,
    Api.TASK_STORAGE (fst answer) !! Api.key "t1"
      = Some (KV.Entry task None) /\
    Api.status task = Api.pending.
Proof.
  cbv zeta.
  destruct (proj2 (proj2 (proj2 (proj2
              (submit_record_then_message Api.sendThrows empty_storage
                 1754222400000 "t1" (Some sample_submission)))))
              eq_refl sample_submission (Some (JStr "email"))
              (Some (JObj [("to", JStr "a@b.com")]))
              eq_refl eq_refl eq_refl eq_refl)
    as (Hstatus & Hqueue & task & Hstored & _ & Hpending & _).
  split; [exact Hstatus|]. split; [exact Hqueue|].
  exists task. now split.
Defined.

(** ** Reporting a completion *)

(** X13. A completion report whose body is not JSON, or is [null], is
    answered 500 whether or not the task has a record: the body is read
    before the record is looked up.  A report with a usable body for a task
    without a record is answered 404.  In both cases nothing is written. *)
Theorem reportCompletion_errors (env : Api.Env) (now : Z) (taskId : string) :
  let internal :=
    (env, Http.mkResponse 500 (JObj [("error", JStr "Failed to complete task")])) in
  Api.reportCompletion env now taskId None = internal /\
  Api.reportCompletion env now taskId (Some JNull) = internal /\
  (forall json,
     json <> JNull ->
     KV.get (Api.TASK_STORAGE env) now (Api.key taskId) = None ->
     Api.reportCompletion env now taskId (Some json) =
       (env, Http.mkResponse 404 (JObj [("error", JStr "Task not found")]))).
Proof.
  cbv zeta. split; [reflexivity|]. split; [reflexivity|].
  intros json Hjson Hget. unfold Api.reportCompletion. rewrite Hget.
  destruct json; simpl; congruence.
Qed.

Lemma reportCompletion_errors_witness :
  Api.reportCompletion submitted 1754222405000 "t2" (Some success_report) =
    (submitted, Http.mkResponse 404 (JObj [("error", JStr "Task not found")])).
Proof.
  apply (proj2 (proj2 (reportCompletion_errors submitted 1754222405000 "t2"))).
  - discriminate.
  - reflexivity.
Defined.

(** X14. A completion report never creates a record, never touches another
    record nor the queue, and never changes the id, the type, the payload or
    the creation time of the record it updates. *)
Theorem reportCompletion_keeps_identity (env : Api.Env) (now : Z)
    (taskId : string) (body : option Json) :
  let env' := fst (Api.reportCompletion env now taskId body) in
  Api.TASK_QUEUE_V2 env' = Api.TASK_QUEUE_V2 env /\
  (forall name, name <> Api.key taskId ->
     Api.TASK_STORAGE env' !! name = Api.TASK_STORAGE env !! name) /\
  (Api.TASK_STORAGE env !! Api.key taskId = None ->
   Api.TASK_STORAGE env' !! Api.key taskId = None) /\
  (forall e e',
     Api.TASK_STORAGE env !! Api.key taskId = Some e ->
     Api.TASK_STORAGE env' !! Api.key taskId = Some e' ->
     Api.id (KV.value e') = Api.id (KV.value e) /\
     Api.type (KV.value e') = Api.type (KV.value e) /\
     Api.payload (KV.value e') = Api.payload (KV.value e) /\
     Api.createdAt (KV.value e') = Api.createdAt (KV.value e)).
Proof.
  cbv zeta. unfold Api.reportCompletion.
  assert (Hsame :
    Api.TASK_QUEUE_V2 env = Api.TASK_QUEUE_V2 env /\
    (forall name, name <> Api.key taskId ->
       Api.TASK_STORAGE env !! name = Api.TASK_STORAGE env !! name) /\
    (Api.TASK_STORAGE env !! Api.key taskId = None ->
     Api.TASK_STORAGE env !! Api.key taskId = None) /\
    (forall e e',
       Api.TASK_STORAGE env !! Api.key taskId = Some e ->
       Api.TASK_STORAGE env !! Api.key taskId = Some e' ->
       Api.id (KV.value e') = Api.id (KV.value e) /\
       Api.type (KV.value e') = Api.type (KV.value e) /\
       Api.payload (KV.value e') = Api.payload (KV.value e) /\
       Api.createdAt (KV.value e') = Api.createdAt (KV.value e))).
  { repeat split; try congruence; trivial. }
  destruct body as [json|]; [|exact Hsame].
  destruct (prop json "success") as [success|]; [|exact Hsame].
  destruct (prop json "result") as [result|]; [|exact Hsame].
  destruct (prop json "error") as [error|]; [|exact Hsame].
  destruct (KV.get _ _ _) as [task|] eqn:Hget; [|exact Hsame].
  cbn [fst Api.TASK_QUEUE_V2 Api.TASK_STORAGE]. unfold KV.put.
  apply get_Some in Hget as (found & Hstored & _ & <-).
  split; [reflexivity|]. split; [|split].
  - intros name Hne. now apply lookup_insert_ne.
  - congruence.
  - intros e e' He. rewrite lookup_insert_eq. intros [= <-].
    assert (e = found) as -> by congruence. now repeat split.
Qed.

Lemma reportCompletion_keeps_identity_witness :
  Api.TASK_STORAGE reported_once !! Api.key "t2" = None.
Proof.
  exact (proj1 (proj2 (proj2
    (reportCompletion_keeps_identity reported_once 1754222409000 "t2"
       (Some failure_report)))) eq_refl).
Defined.

(** ** The shape of the storage *)

Lemma app_shape (env : Api.Env) (now : Z) (req : Api.Request) :
  storage_shape env -> storage_shape (fst (Api.app env now req)).
Proof.
  intros Hshape.
  destruct req as [|taskId body|taskId|taskId body|]; simpl;
    try exact Hshape.
  - unfold Api.submit.
    destruct body as [json|]; [|exact Hshape].
    destruct (prop json "type") as [[type|]|]; try exact Hshape;
      destruct (prop json "payload") as [payload|]; try exact Hshape.
    destruct (truthy (Some type)); simpl; [|exact Hshape].
    intros name e. simpl. unfold KV.put.
    destruct (decide (Api.key taskId = name)) as [<-|Hne].
    + rewrite lookup_insert_eq. intros [= <-].
      repeat split; simpl; congruence.
    + rewrite lookup_insert_ne by exact Hne. apply Hshape.
  - unfold Api.getStatus. now destruct (KV.get _ _ _).
  - unfold Api.reportCompletion.
    destruct body as [json|]; [|exact Hshape].
    destruct (prop json "success") as [success|]; [|exact Hshape].
    destruct (prop json "result") as [result|]; [|exact Hshape].
    destruct (prop json "error") as [error|]; [|exact Hshape].
    destruct (KV.get _ _ _) as [task|] eqn:Hget; [|exact Hshape].
    intros name e. simpl. unfold KV.put.
    destruct (decide (Api.key taskId = name)) as [<-|Hne].
    + rewrite lookup_insert_eq. intros [= <-].
      apply get_Some in Hget as (found & Hstored & _ & <-).
      destruct (Hshape _ _ Hstored) as (Hkey & _).
      split; [exact Hkey|]. simpl.
      destruct (truthy success); repeat split; congruence.
    + rewrite lookup_insert_ne by exact Hne. apply Hshape.
Qed.

Lemma run_storage_shape (history : list (Z * Api.Request)) :
  forall env, storage_shape env -> storage_shape (Api.run env history).
Proof.
  induction history as [|[now req] rest IH]; intros env Hshape; simpl;
    [exact Hshape|].
  apply IH. now apply app_shape.
Qed.

Lemma empty_storage_shape : storage_shape empty_storage.
Proof.
  intros name e Hempty. simpl in Hempty. now rewrite lookup_empty in Hempty.
Qed.

(** X15. In the storage after any history of requests, every record is
    stored under the key of its own id and without expiration, so that it
    can be read at every time; its status is [pending], [completed] or
    [failed], never [processing]; and it has a [completedAt] exactly when
    its status is not [pending]. *)
Theorem reachable_storage_shape (history : list (Z * Api.Request))
    (name : string) (e : KV.entry Api.Task) :
  Api.TASK_STORAGE (Api.run empty_storage history) !! name = Some e ->
  record_shape name e /\
  (forall now,
     KV.get (Api.TASK_STORAGE (Api.run empty_storage history)) now
       (Api.key (Api.id (KV.value e))) = Some (KV.value e)).
Proof.
  intros Hstored.
  pose proof (run_storage_shape history _ empty_storage_shape _ _ Hstored)
    as Hrecord.
  split; [exact Hrecord|]. intros now.
  destruct Hrecord as (<- & Hexpiration & _).
  apply get_Some. exists e. split; [exact Hstored|].
  unfold KV.live. now rewrite Hexpiration.
Qed.

Lemma reachable_storage_shape_witness :
  record_shape (Api.key "t1") (KV.Entry sample_task None).
Proof.
  apply (reachable_storage_shape
    [(1754222400000, Api.PostTasks "t1" (Some sample_submission))]).
  vm_compute. reflexivity.
Defined.

(** ** Listing the records *)

Lemma omap_read {V} (ns : KV.namespace V) (now : Z) (keys : list string) :
  (forall name, name ∈ keys ->
     exists e, ns !! name = Some e /\ KV.live now e = true) ->
  exists values : list V,
    omap (fun data => data) (map (fun name => KV.get ns now name) keys)
      = values /\
    length values = length keys /\
    forall v, v ∈ values <->
      exists name e, name ∈ keys /\ ns !! name = Some e /\ KV.value e = v.
Proof.
  induction keys as [|name keys IH]; intros Hread.
  - exists []. split; [reflexivity|]. split; [reflexivity|].
    intros v. split; [intros Hin; now apply elem_of_nil in Hin|].
    intros (name & e & Hin & _). now apply elem_of_nil in Hin.
  - destruct IH as (values & Hvalues & Hlength & Hmem).
    { intros other Hin. apply Hread. now apply list_elem_of_further. }
    destruct (Hread name) as (e & Hstored & Hlive); [apply list_elem_of_here|].
    exists (KV.value e :: values). split; [|split].
    + cbn [map omap list_omap]. unfold KV.get at 1.
      rewrite Hstored, Hlive. cbn. now f_equal.
    + cbn [length]. now rewrite Hlength.
    + intros v. rewrite elem_of_cons, Hmem. split.
      * intros [->|(name' & e' & Hin & Hstored' & Hv)].
        -- exists name, e. split; [apply list_elem_of_here|now split].
        -- exists name', e'. split; [now apply list_elem_of_further|now split].
      * intros (name' & e' & [->|Hin]%elem_of_cons & Hstored' & Hv).
        -- left. congruence.
        -- right. now exists name', e'.
Qed.

(** X16. In the storage after any history of requests, [GET /tasks] changes
    nothing and returns the documents of the records under the first page
    of keys: as many documents as there are records, up to 1000, [count]
    being their number.  Every document returned has, property by property,
    the values of a stored record; when the storage holds at most 1000
    records, every record has its document in the answer. *)
Theorem listTasks_first_page (history : list (Z * Api.Request)) (now : Z) :
  let env := Api.run empty_storage history in
  exists docs,
    Api.listTasks env now =
      (env, Http.mkResponse 200 (JObj
         [("tasks", JArr docs); ("count", Http.count docs)])) /\
    length docs = Nat.min 1000 (size (Api.TASK_STORAGE env)) /\
    (forall doc,
       doc ∈ docs ->
       exists name e,
         Api.TASK_STORAGE env !! name = Some e /\
         forall property,
           field doc property = field (Api.task_json (KV.value e)) property) /\
    ((size (Api.TASK_STORAGE env) <= 1000)%nat ->
     forall name e,
       Api.TASK_STORAGE env !! name = Some e ->
       exists doc,
         doc ∈ docs /\
         forall property,
           field doc property = field (Api.task_json (KV.value e)) property).
Proof.
  cbv zeta. set (env := Api.run empty_storage history).
  pose proof (run_storage_shape history _ empty_storage_shape) as Hshape.
  fold env in Hshape.
  set (keys := KV.list (Api.TASK_STORAGE env) "task:").
  assert (Hprefixed :
    List.filter (String.prefix "task:")
      (List.map fst (map_to_list (Api.TASK_STORAGE env)))
    = List.map fst (map_to_list (Api.TASK_STORAGE env))).
  { rewrite forallb_filter_id; [reflexivity|].
    apply forallb_forall. intros name [[name' e] [<- Hin]]%in_map_iff.
    apply list_elem_of_In, elem_of_map_to_list in Hin.
    destruct (Hshape _ _ Hin) as [-> _]. simpl.
    unfold Api.key. destruct (Api.id (KV.value e)); vm_compute; reflexivity. }
  assert (Hlength :
    length keys = Nat.min 1000 (size (Api.TASK_STORAGE env))).
  { subst keys. unfold KV.list. rewrite length_take, merge_sort_Permutation.
    now rewrite Hprefixed, length_map, length_map_to_list. }
  destruct (omap_read (Api.TASK_STORAGE env) now keys)
    as (tasks & Htasks & Hcount & Hmem).
  { intros name Hin. apply list_keys_sound in Hin as [_ [e Hstored]].
    exists e. split; [exact Hstored|].
    destruct (Hshape _ _ Hstored) as (_ & Hexpiration & _).
    unfold KV.live. now rewrite Hexpiration. }
  exists (map Api.task_json tasks). split; [|split; [|split]].
  - unfold Api.listTasks. fold keys. rewrite Htasks.
    unfold Http.count. now rewrite !length_map, Hcount.
  - now rewrite length_map, Hcount.
  - intros doc [task [-> Hin]]%list_elem_of_fmap.
    apply Hmem in Hin as (name & e & _ & Hstored & <-).
    now exists name, e.
  - intros Hsize name e Hstored. exists (Api.task_json (KV.value e)).
    split; [|reflexivity]. apply list_elem_of_fmap.
    exists (KV.value e). split; [reflexivity|]. apply Hmem.
    exists name, e. split; [|now split].
    apply list_keys_complete; [exact Hsize| |now exists e].
    destruct (Hshape _ _ Hstored) as [-> _].
    unfold Api.key. destruct (Api.id (KV.value e)); vm_compute; reflexivity.
Qed.

(** ** The consumer's view of the buffer's answers *)

Lemma parseTask_json (task : Buffer.BufferedTask) :
  Consumer.parseTask (Buffer.task_json task) = Some task.
Proof.
  destruct task as [[taskId type payload createdAt] status receivedAt claimedAt].
  destruct payload, claimedAt, status; reflexivity.
Qed.

Lemma tasksOf_listReady (env : Buffer.Env) (now : Z) :
  Consumer.tasksOf (snd (Buffer.listReady env now)) = Buffer.readyTasks env now.
Proof.
  change (Consumer.tasksOf (snd (Buffer.listReady env now)))
    with (omap Consumer.parseTask
            (map Buffer.task_json (Buffer.readyTasks env now))).
  induction (Buffer.readyTasks env now) as [|task tasks IH]; [reflexivity|].
  change (omap Consumer.parseTask (map Buffer.task_json (task :: tasks)))
    with (match Consumer.parseTask (Buffer.task_json task) with
          | Some parsed =>
              parsed :: omap Consumer.parseTask (map Buffer.task_json tasks)
          | None => omap Consumer.parseTask (map Buffer.task_json tasks)
          end).
  now rewrite parseTask_json, IH.
Qed.

(** What a poll does and returns, by the fate of the request. *)
Lemma getReadyTasks_run (w : Consumer.World) :
  exists w',
    Consumer.getReadyTasks w =
      (w', Consumer.Returned
             (match fst (Consumer.next (Consumer.network w)) with
              | Consumer.delivered =>
                  Buffer.readyTasks (Consumer.buffer w) (Consumer.clock w)
              | _ => []
              end)) /\
    Consumer.calls (Consumer.trace w') =
      Consumer.calls (Consumer.trace w) ++ [Consumer.GetReady] /\
    Consumer.api w' = Consumer.api w /\
    Consumer.buffer w' = Consumer.buffer w /\
    Consumer.clock w' = Consumer.clock w /\
    Consumer.network w' = snd (Consumer.next (Consumer.network w)).
Proof.
  unfold Consumer.getReadyTasks, Consumer.try_catch, Consumer.bind,
    Consumer.request, Consumer.bind, Consumer.log, Consumer.record,
    Consumer.ret.
  cbn [Consumer.network Consumer.trace Consumer.api Consumer.buffer
       Consumer.clock].
  destruct (Consumer.next (Consumer.network w)) as [n rest] eqn:Hnext.
  cbn [fst snd].
  destruct n; cbn [Consumer.serve fst snd Consumer.api Consumer.buffer
                   Consumer.clock Consumer.network Consumer.trace];
    rewrite ?fetch_ready.
  - pose proof (tasksOf_listReady (Consumer.buffer w) (Consumer.clock w))
      as Htasks.
    assert (Hok : Http.ok (snd (Buffer.listReady (Consumer.buffer w)
                                  (Consumer.clock w))) = true) by reflexivity.
    assert (Hbuffer : fst (Buffer.listReady (Consumer.buffer w)
                             (Consumer.clock w)) = Consumer.buffer w)
      by reflexivity.
    destruct (Buffer.listReady _ _) as [buffer' r]. cbn [fst snd] in *.
    subst buffer'. rewrite Hok, Htasks.
    destruct (0 <? Z.of_nat (length (Buffer.readyTasks _ _)));
      eexists; (split; [reflexivity|]); trace_facts.
  - eexists. split; [reflexivity|]. trace_facts.
  - unfold Buffer.listReady. eexists. split; [reflexivity|]. trace_facts.
Qed.

(** X18. Polling never rejects.  When the request is answered, the consumer
    gets the ready tasks of the buffer as the buffer worker lists them at
    that time, each of them [ready] and readable under a key of the buffer;
    when the request or its answer is lost it gets no task.  Polling sends
    one request and changes neither service. *)
Theorem getReadyTasks_resolves (w : Consumer.World) :
  exists w' tasks,
    Consumer.getReadyTasks w = (w', Consumer.Returned tasks) /\
    tasks =
      match fst (Consumer.next (Consumer.network w)) with
      | Consumer.delivered =>
          Buffer.readyTasks (Consumer.buffer w) (Consumer.clock w)
      | _ => []
      end /\
    (forall task,
       task ∈ tasks ->
       Buffer.status task = Buffer.ready /\
       exists name,
         KV.get (Buffer.TASK_BUFFER (Consumer.buffer w)) (Consumer.clock w)
           name = Some task) /\
    Consumer.calls (Consumer.trace w') =
      Consumer.calls (Consumer.trace w) ++ [Consumer.GetReady] /\
    Consumer.api w' = Consumer.api w /\
    Consumer.buffer w' = Consumer.buffer w.
Proof.
  destruct (getReadyTasks_run w)
    as (w' & Hrun & Hcalls & Hapi & Hbuffer & _ & _).
  eexists w', _. split; [exact Hrun|]. split; [reflexivity|].
  split; [|now repeat split].
  intros task Hin.
  assert (Hready :
    task ∈ Buffer.readyTasks (Consumer.buffer w) (Consumer.clock w)).
  { destruct (fst (Consumer.next (Consumer.network w)));
      [exact Hin|now apply elem_of_nil in Hin|now apply elem_of_nil in Hin]. }
  unfold Buffer.readyTasks in Hready.
  apply readyLoop_spec in Hready
    as [Hnil|(name & _ & Hget & Hstatus)]; [now apply elem_of_nil in Hnil|].
  split; [exact Hstatus|]. now exists name.
Qed.

(** What a claim sent by the consumer does and returns, by the fate of the
    request and by the answer of the buffer worker to the request as it
    arrives there. *)
Lemma claimTask_run (taskId : string) (w : Consumer.World) :
  let answer :=
    Buffer.fetch (Consumer.buffer w) (Consumer.clock w)
      {| Buffer.method := "POST";
         Buffer.pathname := Consumer.taskPath taskId "claim" |} in
  let answered :=
    match fst (Consumer.next (Consumer.network w)) with
    | Consumer.delivered => Http.ok (snd answer)
    | _ => false
    end in
  exists w',
    Consumer.claimTask taskId w =
      (w', Consumer.Returned
             (if answered
              then field (Http.body (snd answer)) "task" ≫= Consumer.parseTask
              else None)) /\
    Consumer.trace w' =
      Consumer.trace w ++
      [Consumer.Log Consumer.info "Claiming task";
       Consumer.Sent (Consumer.PostClaim taskId);
       if answered
       then Consumer.Log Consumer.info "Task claimed successfully"
       else Consumer.Log Consumer.warn "Failed to claim task"] /\
    Consumer.api w' = Consumer.api w /\
    Consumer.buffer w' =
      match fst (Consumer.next (Consumer.network w)) with
      | Consumer.dropped => Consumer.buffer w
      | _ => fst answer
      end /\
    Consumer.clock w' = Consumer.clock w /\
    Consumer.network w' = snd (Consumer.next (Consumer.network w)).
Proof.
  cbv zeta.
  unfold Consumer.claimTask, Consumer.try_catch, Consumer.bind,
    Consumer.request, Consumer.bind, Consumer.log, Consumer.record,
    Consumer.ret.
  cbn [Consumer.network Consumer.trace Consumer.api Consumer.buffer
       Consumer.clock].
  destruct (Consumer.next (Consumer.network w)) as [n rest] eqn:Hnext.
  cbn [fst snd].
  destruct n; cbn [Consumer.serve fst snd Consumer.api Consumer.buffer
                   Consumer.clock Consumer.network Consumer.trace];
    try match goal with
        | |- context [Buffer.fetch ?a ?b ?c] =>
            destruct (Buffer.fetch a b c) as [buffer' r]
        end;
    cbn [fst snd];
    try match goal with
        | |- context [Http.ok ?r] => destruct (Http.ok r)
        end;
    eexists; (split; [reflexivity|]);
    cbn [Consumer.trace Consumer.api Consumer.buffer Consumer.network
         Consumer.clock];
    rewrite <- ?app_assoc; now repeat split.
Qed.

Lemma claim_rejected (env : Buffer.Env) (now : Z) (taskId : string) :
  Http.status (snd (Buffer.claim env now taskId)) <> 200 ->
  fst (Buffer.claim env now taskId) = env /\
  Http.ok (snd (Buffer.claim env now taskId)) = false.
Proof.
  unfold Buffer.claim.
  destruct (KV.get _ _ _) as [task|]; [|now split].
  destruct (decide _); [now split|].
  intros Hstatus. now contradiction Hstatus.
Qed.

Lemma claim_accepted (env : Buffer.Env) (now : Z) (taskId : string) :
  Http.status (snd (Buffer.claim env now taskId)) = 200 ->
  exists task,
    KV.get (Buffer.TASK_BUFFER env) now (Buffer.key taskId) = Some task /\
    Buffer.status task = Buffer.ready.
Proof.
  unfold Buffer.claim.
  destruct (KV.get _ _ _) as [task|]; [|discriminate].
  destruct (decide (Buffer.status task <> Buffer.ready)) as [|Hready];
    [discriminate|].
  intros _. exists task. split; [reflexivity|].
  now destruct (decide (Buffer.status task = Buffer.ready)).
Qed.

(** X19. Claiming a task whose id is safe in a path never rejects, sends
    one request and leaves the API as it is; it logs the attempt, and then
    the success when it returns a task, a warning when it returns none.
    Answered, a claim of a [ready] entry returns the entry as claimed
    ([processing], [claimedAt] the time of the claim); a claim of an entry
    that is missing, expired or not [ready] returns nothing and leaves the
    buffer as it is.  When the request is dropped nothing happens; when only
    the answer is lost the consumer gets nothing although the buffer worker
    has made the entry [processing]. *)
Theorem claimTask_resolves (taskId : string) (w : Consumer.World) :
  Url.safe taskId = true ->
  exists w' claimedTask,
    Consumer.claimTask taskId w = (w', Consumer.Returned claimedTask) /\
    Consumer.trace w' =
      Consumer.trace w ++
      [Consumer.Log Consumer.info "Claiming task";
       Consumer.Sent (Consumer.PostClaim taskId);
       match claimedTask with
       | Some _ => Consumer.Log Consumer.info "Task claimed successfully"
       | None => Consumer.Log Consumer.warn "Failed to claim task"
       end] /\
    Consumer.api w' = Consumer.api w /\
    (fst (Consumer.next (Consumer.network w)) = Consumer.dropped ->
     claimedTask = None /\ Consumer.buffer w' = Consumer.buffer w) /\
    (forall task,
       KV.get (Buffer.TASK_BUFFER (Consumer.buffer w)) (Consumer.clock w)
         (Buffer.key taskId) = Some task ->
       Buffer.status task = Buffer.ready ->
       let claimed :=
         {| Buffer.message := Buffer.message task;
            Buffer.status := Buffer.processing;
            Buffer.receivedAt := Buffer.receivedAt task;
            Buffer.claimedAt := Some (Date.toISOString (Consumer.clock w)) |} in
       (fst (Consumer.next (Consumer.network w)) = Consumer.delivered ->
        claimedTask = Some claimed) /\
       (fst (Consumer.next (Consumer.network w)) = Consumer.lost ->
        claimedTask = None /\
        KV.get (Buffer.TASK_BUFFER (Consumer.buffer w')) (Consumer.clock w)
          (Buffer.key taskId) = Some claimed)) /\
    (Http.status
       (snd (Buffer.claim (Consumer.buffer w) (Consumer.clock w) taskId))
       <> 200 ->
     claimedTask = None /\ Consumer.buffer w' = Consumer.buffer w).
Proof.
  intros Hsafe.
  destruct (claimTask_run taskId w)
    as (w' & Hrun & Htrace & Hapi & Hbuffer & _ & _).
  rewrite (fetch_claim_safe _ _ _ Hsafe) in Hrun, Htrace, Hbuffer.
  set (answer := Buffer.claim (Consumer.buffer w) (Consumer.clock w) taskId)
    in *.
  assert (Hcases :
    (Http.status (snd answer) <> 200 /\ fst answer = Consumer.buffer w /\
     Http.ok (snd answer) = false) \/
    (exists task,
       KV.get (Buffer.TASK_BUFFER (Consumer.buffer w)) (Consumer.clock w)
         (Buffer.key taskId) = Some task /\
       Buffer.status task = Buffer.ready)).
  { destruct (decide (Http.status (snd answer) = 200)) as [Hok|Hno].
    - right. now apply claim_accepted.
    - left. split; [exact Hno|]. now apply claim_rejected. }
  destruct Hcases as [(Hno & Hsame & Hok)|(task & Hget & Hready)].
  - rewrite Hok in Hrun, Htrace. rewrite Hsame in Hbuffer.
    assert (Hnone :
      (if match fst (Consumer.next (Consumer.network w)) with
          | Consumer.delivered => false
          | _ => false
          end
       then field (Http.body (snd answer)) "task" ≫= Consumer.parseTask
       else None) = None)
      by now destruct (fst (Consumer.next (Consumer.network w))).
    rewrite Hnone in Hrun.
    assert (Hkept : Consumer.buffer w' = Consumer.buffer w)
      by (rewrite Hbuffer; now destruct (fst (Consumer.next _))).
    exists w', None. split; [exact Hrun|]. split.
    { rewrite Htrace. now destruct (fst (Consumer.next _)). }
    split; [exact Hapi|]. split; [now split|]. split; [|now split].
    intros task Hget Hready.
    pose proof (claim_ready _ _ _ task Hget Hready) as Hclaim.
    cbv zeta in Hclaim. fold answer in Hclaim. rewrite Hclaim in Hno.
    now contradiction Hno.
  - pose proof (claim_ready _ _ _ task Hget Hready) as Hclaim.
    cbv zeta in Hclaim. fold answer in Hclaim.
    set (claimed :=
           {| Buffer.message := Buffer.message task;
              Buffer.status := Buffer.processing;
              Buffer.receivedAt := Buffer.receivedAt task;
              Buffer.claimedAt := Some (Date.toISOString (Consumer.clock w)) |})
      in *.
    rewrite Hclaim in Hrun, Htrace, Hbuffer.
    cbn [fst snd Http.ok Http.status Http.body] in Hrun, Htrace, Hbuffer.
    change (field _ "task" ≫= Consumer.parseTask)
      with (Consumer.parseTask (Buffer.task_json claimed)) in Hrun.
    rewrite parseTask_json in Hrun.
    change ((200 <=? 200) && (200 <? 300)) with true in Hrun, Htrace.
    eexists w', _. split; [exact Hrun|]. split.
    { rewrite Htrace. now destruct (fst (Consumer.next _)). }
    split; [exact Hapi|]. split; [|split].
    + intros Hdropped. rewrite Hbuffer, Hdropped. now split.
    + intros task' Hget' Hready'. cbv zeta.
      assert (task' = task) as -> by congruence. fold claimed.
      split; [now intros ->|]. intros Hlost. rewrite Hlost.
      split; [reflexivity|]. rewrite Hbuffer, Hlost. cbn [Buffer.TASK_BUFFER].
      apply get_put_eq.
    + rewrite Hclaim. intros Hno. now contradiction Hno.
Qed.

Lemma claimTask_resolves_witness :
  exists w' claimedTask,
    Consumer.claimTask "t1"
      {| Consumer.api := submitted;
         Consumer.buffer := buffered;
         Consumer.clock := 1754222401000;
         Consumer.network := [Consumer.lost];
         Consumer.trace := [] |}
      = (w', Consumer.Returned claimedTask) /\
    claimedTask = None /\
    KV.get (Buffer.TASK_BUFFER (Consumer.buffer w')) 1754222401000
      (Buffer.key "t1") = Some claimed_task.
Proof.
  destruct (claimTask_resolves "t1"
    {| Consumer.api := submitted;
       Consumer.buffer := buffered;
       Consumer.clock := 1754222401000;
       Consumer.network := [Consumer.lost];
       Consumer.trace := [] |} eq_refl)
    as (w' & claimedTask & Hrun & _ & _ & _ & Hready & _).
  exists w', claimedTask. split; [exact Hrun|].
  apply (proj2 (Hready
    {| Buffer.message := sample_message;
       Buffer.status := Buffer.ready;
       Buffer.receivedAt := Date.toISOString 1754222400000;
       Buffer.claimedAt := None |} eq_refl eq_refl)).
  reflexivity.
Defined.

(** An id with a space reaches the buffer worker percent-encoded: the claim
    of the [ready] entry of the task [a b] looks under [task:a%20b], is
    answered 404 and changes nothing; so does the claim of the task whose id
    is empty, whose path has an empty segment. *)
Example claimTask_escaped_id :
  let entry (taskId : string) :=
    {| Buffer.taskId := taskId; Buffer.type := JStr "email";
       Buffer.payload := Some (JObj []);
       Buffer.createdAt := Date.toISOString 1754222400000 |} in
  let w (taskId : string) :=
    {| Consumer.api := empty_storage;
       Consumer.buffer :=
         Buffer.queue empty_buffer 1754222400000 [entry taskId];
       Consumer.clock := 1754222401000;
       Consumer.network := [];
       Consumer.trace := [] |} in
  Consumer.taskPath "a b" "claim" = ["tasks"; "a%20b"; "claim"] /\
  snd (Consumer.serve (Consumer.PostClaim "a b") (w "a b"))
    = Http.mkResponse 404 (JObj
        [("error", JStr "Task not found"); ("taskId", JStr "a%20b")]) /\
  Consumer.claimTask "a b" (w "a b")
    = ({| Consumer.api := empty_storage;
          Consumer.buffer := Consumer.buffer (w "a b");
          Consumer.clock := 1754222401000;
          Consumer.network := [];
          Consumer.trace :=
            [Consumer.Log Consumer.info "Claiming task";
             Consumer.Sent (Consumer.PostClaim "a b");
             Consumer.Log Consumer.warn "Failed to claim task"] |},
       Consumer.Returned None) /\
  Http.status (snd (Consumer.serve (Consumer.PostClaim "") (w ""))) = 404 /\
  snd (Consumer.claimTask "" (w "")) = Consumer.Returned None.
Proof. vm_compute. repeat split. Qed.

(** ** Processing a claimed task *)

(** The world after the completion report, by the fate of the request. *)
Lemma markTaskCompleted_run (taskId : string) (success : bool)
    (result : JsValue) (error' : option Consumer.Exn) (w : Consumer.World) :
  let data := JObj (literal
    [("success", Some (JBool success));
     ("result", result);
     ("error", (fun e => JStr (Consumer.message e)) <$> error')]) in
  exists w',
    Consumer.markTaskCompleted taskId success result error' w
      = (w', Consumer.Returned tt) /\
    Consumer.calls (Consumer.trace w') =
      Consumer.calls (Consumer.trace w) ++
      [Consumer.PostApiComplete taskId data] /\
    Consumer.api w' =
      match fst (Consumer.next (Consumer.network w)) with
      | Consumer.dropped => Consumer.api w
      | _ => fst (Api.fetch (Consumer.api w) (Consumer.clock w) "POST"
                    (Consumer.taskPath taskId "complete") "" (Some data))
      end /\
    Consumer.buffer w' = Consumer.buffer w /\
    Consumer.clock w' = Consumer.clock w /\
    Consumer.network w' = snd (Consumer.next (Consumer.network w)).
Proof.
  cbv zeta.
  unfold Consumer.markTaskCompleted, Consumer.try_catch, Consumer.bind,
    Consumer.request, Consumer.bind, Consumer.log, Consumer.record.
  cbn [Consumer.network Consumer.trace Consumer.api Consumer.buffer
       Consumer.clock].
  destruct (Consumer.next (Consumer.network w)) as [n rest] eqn:Hnext.
  cbn [fst snd].
  destruct n; cbn [Consumer.serve fst snd Consumer.api Consumer.buffer
                   Consumer.clock Consumer.network Consumer.trace];
    try match goal with
        | |- context [Api.fetch ?a ?b ?c ?d ?e ?f] =>
            destruct (Api.fetch a b c d e f) as [api' r]
        end;
    cbn [fst snd];
    try match goal with
        | |- context [Http.ok ?r] => destruct (Http.ok r)
        end;
    eexists; (split; [reflexivity|]); trace_facts.
Qed.

(** The world after the retirement, by the fate of the request. *)
Lemma completeTaskInBuffer_run (taskId : string) (w : Consumer.World) :
  exists w',
    Consumer.completeTaskInBuffer taskId w = (w', Consumer.Returned tt) /\
    Consumer.calls (Consumer.trace w') =
      Consumer.calls (Consumer.trace w) ++ [Consumer.PostBufferComplete taskId] /\
    Consumer.api w' = Consumer.api w /\
    Consumer.buffer w' =
      match fst (Consumer.next (Consumer.network w)) with
      | Consumer.dropped => Consumer.buffer w
      | _ => fst (Buffer.fetch (Consumer.buffer w) (Consumer.clock w)
                    {| Buffer.method := "POST";
                       Buffer.pathname :=
                         Consumer.taskPath taskId "complete" |})
      end /\
    Consumer.clock w' = Consumer.clock w /\
    Consumer.network w' = snd (Consumer.next (Consumer.network w)).
Proof.
  unfold Consumer.completeTaskInBuffer, Consumer.try_catch, Consumer.bind,
    Consumer.request, Consumer.bind, Consumer.log, Consumer.record.
  cbn [Consumer.network Consumer.trace Consumer.api Consumer.buffer
       Consumer.clock].
  destruct (Consumer.next (Consumer.network w)) as [n rest] eqn:Hnext.
  cbn [fst snd].
  destruct n; cbn [Consumer.serve fst snd Consumer.api Consumer.buffer
                   Consumer.clock Consumer.network Consumer.trace];
    try match goal with
        | |- context [Buffer.fetch ?a ?b ?c] =>
            destruct (Buffer.fetch a b c) as [buffer' r]
        end;
    cbn [fst snd];
    try match goal with
        | |- context [Http.ok ?r] => destruct (Http.ok r)
        end;
    eexists; (split; [reflexivity|]); trace_facts.
Qed.

(** The world after [processTask] on a task whose execution resolves or
    rejects: the report goes to the API, then the retirement to the buffer
    worker, each under the path its task id gives. *)
Lemma processTask_run (w : Consumer.World) (task : Buffer.BufferedTask)
    (payload : Json) (shouldFail : JsValue) :
  Buffer.payload (Buffer.message task) = Some payload ->
  prop payload "shouldFail" = Some shouldFail ->
  let taskId := Buffer.taskId (Buffer.message task) in
  let done :=
    Consumer.clock w
    + Consumer.getProcessingTime (Buffer.type (Buffer.message task)) in
  let first := Consumer.next (Consumer.network w) in
  let second := Consumer.next (snd first) in
  exists w' data,
    Consumer.processTask task w = (w', Consumer.Returned tt) /\
    Consumer.calls (Consumer.trace w') =
      Consumer.calls (Consumer.trace w) ++
      [Consumer.PostApiComplete taskId data;
       Consumer.PostBufferComplete taskId] /\
    field data "success" = Some (JBool (negb (truthy shouldFail))) /\
    Consumer.api w' =
      match fst first with
      | Consumer.dropped => Consumer.api w
      | _ => fst (Api.fetch (Consumer.api w) done "POST"
                    (Consumer.taskPath taskId "complete") "" (Some data))
      end /\
    Consumer.buffer w' =
      match fst second with
      | Consumer.dropped => Consumer.buffer w
      | _ => fst (Buffer.fetch (Consumer.buffer w) done
                    {| Buffer.method := "POST";
                       Buffer.pathname :=
                         Consumer.taskPath taskId "complete" |})
      end /\
    Consumer.clock w' = done /\
    Consumer.network w' = snd second.
Proof.
  intros Hpayload Hprop taskId done first second.
  unfold Consumer.processTask, Consumer.try_catch, Consumer.bind,
    Consumer.simulateWork, Consumer.bind, Consumer.log, Consumer.record,
    Consumer.sleep, Consumer.now.
  rewrite Hpayload, Hprop.
  cbn [Consumer.network Consumer.trace Consumer.api Consumer.buffer
       Consumer.clock].
  destruct (truthy shouldFail);
    match goal with
    | |- context [Consumer.markTaskCompleted ?i ?s ?r ?e ?w1] =>
        destruct (markTaskCompleted_run i s r e w1)
          as (w2 & -> & Hcalls2 & Hapi2 & Hbuffer2 & Hclock2 & Hnet2)
    end;
    destruct (completeTaskInBuffer_run taskId w2)
      as (w3 & Hretire & Hcalls3 & Hapi3 & Hbuffer3 & Hclock3 & Hnet3);
    fold taskId; rewrite Hretire;
    cbn [Consumer.network Consumer.trace Consumer.api Consumer.buffer
         Consumer.clock] in *;
    eexists _, _; (split; [reflexivity|]);
    cbn [Consumer.trace Consumer.api Consumer.buffer Consumer.network
         Consumer.clock];
    rewrite ?calls_app; cbn [Consumer.calls]; rewrite ?app_nil_r;
    rewrite ?Hcalls3, ?Hcalls2, ?calls_app; cbn [Consumer.calls];
    rewrite ?app_nil_r, <- ?app_assoc;
    (split; [reflexivity|]);
    (split; [reflexivity|]);
    (split; [rewrite Hapi3, Hapi2; reflexivity|]);
    (split; [rewrite Hbuffer3, Hnet2, Hbuffer2, Hclock2; reflexivity|]);
    (split; [rewrite Hclock3, Hclock2; reflexivity|]);
    rewrite Hnet3, Hnet2; reflexivity.
Qed.

(** X20. On a claimed task without payload, or with the payload [null],
    [processTask] neither resolves nor rejects: the exception escapes from
    the timer callback.  No request has been sent by then, so the API still
    shows the task as it was and the buffer keeps its [processing] entry. *)
Theorem processTask_uncaught_without_payload (w : Consumer.World)
    (task : Buffer.BufferedTask) :
  Buffer.payload (Buffer.message task) = None \/
  Buffer.payload (Buffer.message task) = Some JNull ->
  exists w' e,
    Consumer.processTask task w = (w', Consumer.Uncaught e) /\
    Consumer.calls (Consumer.trace w') = Consumer.calls (Consumer.trace w) /\
    Consumer.api w' = Consumer.api w /\
    Consumer.buffer w' = Consumer.buffer w.
Proof.
  intros Hpayload.
  unfold Consumer.processTask, Consumer.try_catch, Consumer.bind,
    Consumer.simulateWork, Consumer.bind, Consumer.log, Consumer.record,
    Consumer.sleep, Consumer.now.
  destruct Hpayload as [-> | ->]; cbn [prop];
    eexists _, _; (split; [reflexivity|]); trace_facts.
Qed.

Lemma processTask_uncaught_without_payload_witness :
  exists w' e,
    Consumer.processTask
      {| Buffer.message :=
           {| Buffer.taskId := "t1"; Buffer.type := JStr "email";
              Buffer.payload := None;
              Buffer.createdAt := Date.toISOString 1754222400000 |};
         Buffer.status := Buffer.processing;
         Buffer.receivedAt := Date.toISOString 1754222400000;
         Buffer.claimedAt := Some (Date.toISOString 1754222401000) |}
      (claimed_world []) = (w', Consumer.Uncaught e) /\
    Consumer.calls (Consumer.trace w') = [] /\
    Consumer.api w' = submitted /\
    Consumer.buffer w' = claimed.
Proof.
  apply (processTask_uncaught_without_payload (claimed_world [])).
  left. reflexivity.
Defined.

(** ** The polling loop *)











(** ** One delivered task, from the poll to the retirement *)

Lemma single_entry_read (received now : Z) (body : Buffer.QueueMessage) :
  KV.seconds now < KV.seconds received + 86400 ->
  KV.get (Buffer.TASK_BUFFER (Buffer.queue empty_buffer received [body])) now
    (Buffer.key (Buffer.taskId body))
  = Some {| Buffer.message := body;
            Buffer.status := Buffer.ready;
            Buffer.receivedAt := Date.toISOString received;
            Buffer.claimedAt := None |}.
Proof.
  intros Hlive. apply get_Some. eexists. split; [|split].
  - simpl. unfold KV.put. apply lookup_insert_eq.
  - unfold KV.live. simpl. now apply Z.ltb_lt.
  - reflexivity.
Qed.

Lemma single_entry_ready (received now : Z) (body : Buffer.QueueMessage) :
  KV.seconds now < KV.seconds received + 86400 ->
  Buffer.readyTasks (Buffer.queue empty_buffer received [body]) now
  = [{| Buffer.message := body;
        Buffer.status := Buffer.ready;
        Buffer.receivedAt := Date.toISOString received;
        Buffer.claimedAt := None |}].
Proof.
  intros Hlive. unfold Buffer.readyTasks, KV.list.
  cbn [Buffer.queue Buffer.TASK_BUFFER empty_buffer]. unfold KV.put.
  rewrite insert_empty, map_to_list_singleton.
  cbn [List.map fst List.filter]. rewrite prefix_key.
  change (take KV.limit (merge_sort _ [?name])) with [name].
  cbn [Buffer.readyLoop Buffer.TASK_BUFFER]. unfold KV.get.
  rewrite lookup_singleton_eq. unfold KV.live.
  cbn [KV.expiration KV.value fmap option_fmap option_map].
  apply Z.ltb_lt in Hlive. rewrite Hlive. cbn [Buffer.status].
  now destruct (decide (Buffer.ready = Buffer.ready)).
Qed.

Lemma prop_of_field (data : Json) (name : string) (v : Json) :
  field data name = Some v ->
  forall name', prop data name' = Some (field data name').
Proof. destruct data; simpl; try discriminate. reflexivity. Qed.

(** X22. One turn of the loop on a buffer that holds one delivered task
    whose id is safe in a path, whose expiration has not passed and whose
    payload is not [null], with every request answered: the consumer polls,
    claims the task, reports its completion to the API and retires it, in
    this order; the report carries [success] true unless the payload asks
    for a failure; afterwards the buffer is empty, the clock has advanced by
    the processing time and the poll interval, and a record the API held
    for the task is [completed] or [failed] with [completedAt] the time the
    work ended. *)
Theorem cycle_single_task (api : Api.Env) (received clock pollInterval : Z)
    (body : Buffer.QueueMessage) (payload : Json) (shouldFail : JsValue) :
  Url.safe (Buffer.taskId body) = true ->
  Buffer.payload body = Some payload ->
  prop payload "shouldFail" = Some shouldFail ->
  KV.seconds clock < KV.seconds received + 86400 ->
  let w :=
    {| Consumer.api := api;
       Consumer.buffer := Buffer.queue empty_buffer received [body];
       Consumer.clock := clock;
       Consumer.network := [];
       Consumer.trace := [] |} in
  let taskId := Buffer.taskId body in
  let done := clock + Consumer.getProcessingTime (Buffer.type body) in
  exists w' data,
    Consumer.cycle pollInterval w = (w', Consumer.Returned tt) /\
    Consumer.calls (Consumer.trace w') =
      [Consumer.GetReady;
       Consumer.PostClaim taskId;
       Consumer.PostApiComplete taskId data;
       Consumer.PostBufferComplete taskId] /\
    field data "success" = Some (JBool (negb (truthy shouldFail))) /\
    Consumer.api w' = fst (Api.reportCompletion api done taskId (Some data)) /\
    Consumer.buffer w' = empty_buffer /\
    Consumer.clock w' = done + pollInterval /\
    (forall task,
       KV.get (Api.TASK_STORAGE api) done (Api.key taskId) = Some task ->
       exists task',
         Api.TASK_STORAGE (Consumer.api w') !! Api.key taskId
           = Some (KV.Entry task' None) /\
         Api.status task' =
           (if truthy shouldFail then Api.failed else Api.completed) /\
         Api.completedAt task' = Some (Date.toISOString done)).
Proof.
  intros Hsafe Hpayload Hprop Hlive. cbv zeta.
  set (entry := {| Buffer.message := body;
                   Buffer.status := Buffer.ready;
                   Buffer.receivedAt := Date.toISOString received;
                   Buffer.claimedAt := None |}).
  set (claimedTask :=
         {| Buffer.message := body;
            Buffer.status := Buffer.processing;
            Buffer.receivedAt := Date.toISOString received;
            Buffer.claimedAt := Some (Date.toISOString clock) |}).
  set (w := {| Consumer.api := api;
               Consumer.buffer := Buffer.queue empty_buffer received [body];
               Consumer.clock := clock;
               Consumer.network := [];
               Consumer.trace := [] |}).
  (* the poll *)
  destruct (getReadyTasks_run w)
    as (w1 & Hrun1 & Hcalls1 & Hapi1 & Hbuffer1 & Hclock1 & Hnet1).
  cbn [Consumer.network Consumer.trace Consumer.api Consumer.buffer
       Consumer.clock Consumer.next fst snd Consumer.calls app w]
    in Hrun1, Hcalls1, Hapi1, Hbuffer1, Hclock1, Hnet1.
  rewrite (single_entry_ready received clock body Hlive) in Hrun1.
  fold entry in Hrun1.
  (* the claim *)
  set (w1' := {| Consumer.api := Consumer.api w1;
                 Consumer.buffer := Consumer.buffer w1;
                 Consumer.clock := Consumer.clock w1;
                 Consumer.network := Consumer.network w1;
                 Consumer.trace :=
                   Consumer.trace w1 ++
                   [Consumer.Log Consumer.info "Processing task(s)"] |}).
  destruct (claimTask_run (Buffer.taskId body) w1')
    as (w2 & Hrun2 & Htrace2 & Hapi2 & Hbuffer2 & Hclock2 & Hnet2).
  rewrite (fetch_claim_safe _ _ _ Hsafe) in Hrun2, Htrace2, Hbuffer2.
  cbn [Consumer.network Consumer.trace Consumer.api Consumer.buffer
       Consumer.clock w1'] in Hrun2, Htrace2, Hapi2, Hbuffer2, Hclock2, Hnet2.
  rewrite Hnet1, Hbuffer1, Hclock1 in Hrun2, Htrace2, Hbuffer2.
  rewrite Hnet1 in Hnet2. rewrite Hclock1 in Hclock2.
  cbn [Consumer.next fst snd] in Hrun2, Htrace2, Hbuffer2, Hnet2.
  rewrite (claim_ready _ clock (Buffer.taskId body) entry
             (single_entry_read received clock body Hlive) eq_refl)
    in Hrun2, Htrace2, Hbuffer2.
  cbn [fst snd Http.body Buffer.message Buffer.receivedAt entry]
    in Hrun2, Htrace2, Hbuffer2.
  fold claimedTask in Hrun2, Hbuffer2.
  change (Http.ok _) with true in Hrun2, Htrace2. cbv iota in Hrun2, Htrace2.
  change (field _ "task" ≫= Consumer.parseTask)
    with (Consumer.parseTask (Buffer.task_json claimedTask)) in Hrun2.
  rewrite parseTask_json in Hrun2.
  assert (Hcalls2 :
    Consumer.calls (Consumer.trace w2)
      = [Consumer.GetReady; Consumer.PostClaim (Buffer.taskId body)]).
  { rewrite Htrace2, !calls_app, Hcalls1. reflexivity. }
  (* the work, the report and the retirement *)
  destruct (processTask_run w2 claimedTask payload shouldFail Hpayload Hprop)
    as (w3 & data & Hrun3 & Hcalls3 & Hsuccess & Hapi3 & Hbuffer3 & Hclock3
        & Hnet3).
  cbn [Buffer.message Buffer.taskId Buffer.type claimedTask]
    in Hrun3, Hcalls3, Hapi3, Hbuffer3, Hclock3, Hnet3.
  rewrite (fetch_report _ _ _ _ _ Hsafe) in Hapi3.
  rewrite (fetch_complete_safe _ _ _ Hsafe) in Hbuffer3.
  rewrite Hnet2 in Hapi3, Hbuffer3, Hnet3.
  cbn [Consumer.next fst snd] in Hapi3, Hbuffer3, Hnet3.
  rewrite Hclock2, Hapi2 in Hapi3. cbn [Consumer.api w1'] in Hapi3.
  rewrite Hapi1 in Hapi3.
  rewrite Hclock2, Hbuffer2 in Hbuffer3. rewrite Hclock2 in Hclock3.
  rewrite Hcalls2 in Hcalls3.
  exists {| Consumer.api := Consumer.api w3;
            Consumer.buffer := Consumer.buffer w3;
            Consumer.clock := Consumer.clock w3 + pollInterval;
            Consumer.network := Consumer.network w3;
            Consumer.trace := Consumer.trace w3 |}, data.
  split.
  { unfold Consumer.cycle, Consumer.try_catch. unfold Consumer.bind at 1.
    rewrite Hrun1. unfold Consumer.bind at 1.
    change (0 <? Z.of_nat (length [entry])) with true. cbv iota.
    unfold Consumer.bind at 1, Consumer.log at 1, Consumer.record at 1.
    fold w1'. cbn [Consumer.forTasks]. unfold Consumer.bind at 1.
    cbn [Buffer.message entry]. rewrite Hrun2.
    unfold Consumer.bind at 1. rewrite Hrun3. reflexivity. }
  cbn [Consumer.network Consumer.trace Consumer.api Consumer.buffer
       Consumer.clock].
  split; [exact Hcalls3|].
  split; [exact Hsuccess|].
  split; [exact Hapi3|].
  split.
  { rewrite Hbuffer3. unfold Buffer.complete, KV.delete, KV.put, empty_buffer.
    cbn [fst Buffer.TASK_BUFFER Buffer.queue]. unfold KV.put. f_equal.
    now rewrite !delete_insert_eq, delete_empty. }
  split; [now rewrite Hclock3|].
  intros task Hget. rewrite Hapi3.
  pose proof (prop_of_field data "success" _ Hsuccess) as Hprops.
  rewrite (reportCompletion_found api _ (Buffer.taskId body) data _ _ _ task
             (Hprops "success") (Hprops "result") (Hprops "error") Hget).
  cbn [fst Api.TASK_STORAGE]. unfold KV.put. eexists.
  split; [apply lookup_insert_eq|].
  cbn [Api.completed_task Api.status Api.completedAt].
  rewrite Hsuccess. cbn [truthy]. split; [|reflexivity].
  now destruct (truthy shouldFail).
Qed.

(** ** The properties above on the sample data *)

Lemma complete_then_claim_not_found_witness :
  Http.status
    (snd (Buffer.claim (fst (Buffer.complete buffered_two 1754222401000 "t1"))
            1754222402000 "t1")) = 404 /\
  exists name,
    name <> Buffer.key "t1" /\
    KV.get (Buffer.TASK_BUFFER buffered_two) 1754222402000 name =
      Some {| Buffer.message := other_message;
              Buffer.status := Buffer.ready;
              Buffer.receivedAt := Date.toISOString 1754222400000;
              Buffer.claimedAt := None |}.
Proof.
  split.
  - now rewrite (proj1 (proj2
      (complete_then_claim_not_found buffered_two 1754222401000
         1754222402000 "t1"))).
  - apply (proj2 (proj2
      (complete_then_claim_not_found buffered_two 1754222401000
         1754222402000 "t1"))).
    vm_compute. apply list_elem_of_here.
Defined.

Lemma listAll_live_entries_witness :
  claimed_task ∈ Buffer.allTasks claimed (1754222400000 + 2 * 86400000).
Proof.
  apply (proj2 (proj2 (proj2
    (listAll_live_entries claimed (1754222400000 + 2 * 86400000))))
    ltac:(vm_compute; lia) (Buffer.key "t1") (KV.Entry claimed_task None));
    vm_compute; reflexivity.
Defined.

Lemma listTasks_first_page_witness :
  exists docs doc,
    doc ∈ docs /\ length docs = 1%nat /\
    field doc "status" = Some (JStr "pending").
Proof.
  destruct (listTasks_first_page
              [(1754222400000, Api.PostTasks "t1" (Some sample_submission))]
              1754222401000)
    as (docs & _ & Hlength & _ & Hrecords).
  destruct (Hrecords ltac:(vm_compute; lia) (Api.key "t1")
              (KV.Entry sample_task None) ltac:(vm_compute; reflexivity))
    as (doc & Hin & Hfields).
  exists docs, doc. split; [exact Hin|]. split.
  - rewrite Hlength. vm_compute. reflexivity.
  - rewrite Hfields. reflexivity.
Defined.

Lemma cycle_single_task_witness :
  exists w' data,
    Consumer.cycle 5000
      {| Consumer.api := submitted;
         Consumer.buffer := buffered;
         Consumer.clock := 1754222401000;
         Consumer.network := [];
         Consumer.trace := [] |} = (w', Consumer.Returned tt) /\
    Consumer.calls (Consumer.trace w') =
      [Consumer.GetReady;
       Consumer.PostClaim "t1";
       Consumer.PostApiComplete "t1" data;
       Consumer.PostBufferComplete "t1"] /\
    Consumer.buffer w' = empty_buffer /\
    Consumer.clock w' = 1754222407000 /\
    exists task',
      Api.TASK_STORAGE (Consumer.api w') !! Api.key "t1"
        = Some (KV.Entry task' None) /\
      Api.status task' = Api.completed.
Proof.
  destruct (cycle_single_task submitted 1754222400000 1754222401000 5000
              sample_message (JObj [("to", JStr "a@b.com")]) None)
    as (w' & data & Hrun & Hcalls & _ & _ & Hbuffer & Hclock & Hrecord).
  - reflexivity.
  - reflexivity.
  - reflexivity.
  - vm_compute. reflexivity.
  - exists w', data. split; [exact Hrun|]. split; [exact Hcalls|].
    split; [exact Hbuffer|]. split; [exact Hclock|].
    destruct (Hrecord sample_task) as (task' & Hstored & Hstatus & _).
    + vm_compute. reflexivity.
    + exists task'. split; [exact Hstored|exact Hstatus].
Defined.

Example cycle_failing_task :
  let w' :=
    fst (Consumer.cycle 5000
           {| Consumer.api := empty_storage;
              Consumer.buffer :=
                Buffer.queue empty_buffer 1754222400000 [other_message];
              Consumer.clock := 1754222401000;
              Consumer.network := [];
              Consumer.trace := [] |}) in
  Consumer.calls (Consumer.trace w') =
    [Consumer.GetReady;
     Consumer.PostClaim "t2";
     Consumer.PostApiComplete "t2"
       (JObj [("success", JBool false);
              ("error", JStr "Simulated task failure")]);
     Consumer.PostBufferComplete "t2"] /\
  Consumer.clock w' = 1754222409000.
Proof. vm_compute. split; reflexivity. Qed.

(** ** Starting the consumer *)

Lemma fetch_health (env : Buffer.Env) (now : Z) :
  Buffer.fetch env now
    {| Buffer.method := "GET"; Buffer.pathname := ["health"] |}
  = Buffer.health env now.
Proof.
  unfold Buffer.fetch. cbn [Buffer.method Buffer.pathname].
  now rewrite bool_decide_eq_true_2.
Qed.

(** A health request changes nothing but the network; it resolves exactly
    when it is answered. *)
Lemma probe_run (service : Consumer.Service) (w : Consumer.World) :
  let w' :=
    {| Consumer.api := Consumer.api w;
       Consumer.buffer := Consumer.buffer w;
       Consumer.clock := Consumer.clock w;
       Consumer.network := snd (Consumer.next (Consumer.network w));
       Consumer.trace := Consumer.trace w |} in
  match fst (Consumer.next (Consumer.network w)) with
  | Consumer.delivered =>
      exists r, Consumer.probe service w = (w', Consumer.Returned r)
  | _ =>
      Consumer.probe service w
        = (w', Consumer.Thrown (Consumer.AxiosError None))
  end.
Proof.
  unfold Consumer.probe.
  destruct (Consumer.next (Consumer.network w)) as [n rest]. cbn [fst snd].
  destruct n; [|reflexivity|reflexivity].
  destruct service; cbn [Consumer.buffer Consumer.clock Consumer.api].
  - rewrite fetch_health. now eexists.
  - now eexists.
Qed.

(** X23. [start] fails fast: when the health request to the buffer worker
    or the one to the API is not answered, [start] returns without a single
    poll, claim, report or retirement, and both services and the clock are
    as they were, however many turns the loop was to run. *)
Theorem start_fails_fast (pollInterval : Z) (turns : nat) (w : Consumer.World) :
  fst (Consumer.next (Consumer.network w)) <> Consumer.delivered \/
  fst (Consumer.next (snd (Consumer.next (Consumer.network w))))
    <> Consumer.delivered ->
  exists w',
    Consumer.start pollInterval turns w = (w', Consumer.Returned tt) /\
    Consumer.calls (Consumer.trace w') = Consumer.calls (Consumer.trace w) /\
    Consumer.api w' = Consumer.api w /\
    Consumer.buffer w' = Consumer.buffer w /\
    Consumer.clock w' = Consumer.clock w.
Proof.
  intros Hfails.
  pose proof (probe_run Consumer.queueWorker
    {| Consumer.api := Consumer.api w;
       Consumer.buffer := Consumer.buffer w;
       Consumer.clock := Consumer.clock w;
       Consumer.network := Consumer.network w;
       Consumer.trace :=
         (Consumer.trace w ++
          [Consumer.Log Consumer.info "Task Consumer starting..."]) ++
         [Consumer.Log Consumer.info "Testing connections..."] |})
    as Hfirst.
  cbv zeta in Hfirst.
  cbn [Consumer.network Consumer.trace Consumer.api Consumer.buffer
       Consumer.clock] in Hfirst.
  destruct (Consumer.next (Consumer.network w)) as [first rest].
  cbn [fst snd] in Hfirst, Hfails.
  destruct (Consumer.next rest) as [second rest'] eqn:Hnext.
  cbn [fst snd] in Hfails.
  assert (Hcases :
    (first = Consumer.delivered /\ second <> Consumer.delivered) \/
    first <> Consumer.delivered).
  { destruct first; [left|right|right]; try discriminate.
    split; [reflexivity|]. destruct Hfails as [Hfails|Hfails];
      [now contradiction Hfails|exact Hfails]. }
  clear Hfails.
  destruct Hcases as [[-> Hsecond]|Hfirst'].
  - destruct Hfirst as [r Hfirst].
    pose proof (probe_run Consumer.apiWorker
      {| Consumer.api := Consumer.api w;
         Consumer.buffer := Consumer.buffer w;
         Consumer.clock := Consumer.clock w;
         Consumer.network := rest;
         Consumer.trace :=
           ((Consumer.trace w ++
             [Consumer.Log Consumer.info "Task Consumer starting..."]) ++
            [Consumer.Log Consumer.info "Testing connections..."]) ++
           [Consumer.Log Consumer.info "Queue worker connection OK:"] |})
      as Hprobe.
    cbv zeta in Hprobe.
    cbn [Consumer.network Consumer.trace Consumer.api Consumer.buffer
         Consumer.clock] in Hprobe.
    rewrite Hnext in Hprobe. cbn [fst snd] in Hprobe.
    assert (Hthrown :
      Consumer.probe Consumer.apiWorker
        {| Consumer.api := Consumer.api w;
           Consumer.buffer := Consumer.buffer w;
           Consumer.clock := Consumer.clock w;
           Consumer.network := rest;
           Consumer.trace :=
             ((Consumer.trace w ++
               [Consumer.Log Consumer.info "Task Consumer starting..."]) ++
              [Consumer.Log Consumer.info "Testing connections..."]) ++
             [Consumer.Log Consumer.info "Queue worker connection OK:"] |}
      = ({| Consumer.api := Consumer.api w;
            Consumer.buffer := Consumer.buffer w;
            Consumer.clock := Consumer.clock w;
            Consumer.network := rest';
            Consumer.trace :=
              ((Consumer.trace w ++
                [Consumer.Log Consumer.info "Task Consumer starting..."]) ++
               [Consumer.Log Consumer.info "Testing connections..."]) ++
              [Consumer.Log Consumer.info "Queue worker connection OK:"] |},
         Consumer.Thrown (Consumer.AxiosError None))).
    { destruct second; [now contradiction Hsecond|exact Hprobe|exact Hprobe]. }
    eexists. split.
    + unfold Consumer.start, Consumer.testConnections, Consumer.try_catch.
      unfold Consumer.bind at 1 2 3 4, Consumer.log at 1 2,
        Consumer.record at 1 2.
      cbn [Consumer.network Consumer.trace Consumer.api Consumer.buffer
           Consumer.clock].
      rewrite Hfirst.
      unfold Consumer.bind at 1 2, Consumer.log at 1, Consumer.record at 1.
      cbn [Consumer.network Consumer.trace Consumer.api Consumer.buffer
           Consumer.clock].
      rewrite Hthrown.
      unfold Consumer.bind, Consumer.log, Consumer.record, Consumer.ret.
      cbn [negb]. reflexivity.
    + trace_facts.
  - assert (Hthrown :
      Consumer.probe Consumer.queueWorker
        {| Consumer.api := Consumer.api w;
           Consumer.buffer := Consumer.buffer w;
           Consumer.clock := Consumer.clock w;
           Consumer.network := Consumer.network w;
           Consumer.trace :=
             (Consumer.trace w ++
              [Consumer.Log Consumer.info "Task Consumer starting..."]) ++
             [Consumer.Log Consumer.info "Testing connections..."] |}
      = ({| Consumer.api := Consumer.api w;
            Consumer.buffer := Consumer.buffer w;
            Consumer.clock := Consumer.clock w;
            Consumer.network := rest;
            Consumer.trace :=
              (Consumer.trace w ++
               [Consumer.Log Consumer.info "Task Consumer starting..."]) ++
              [Consumer.Log Consumer.info "Testing connections..."] |},
         Consumer.Thrown (Consumer.AxiosError None))).
    { destruct first; [now contradiction Hfirst'|exact Hfirst|exact Hfirst]. }
    eexists. split.
    + unfold Consumer.start, Consumer.testConnections, Consumer.try_catch.
      unfold Consumer.bind at 1 2 3 4, Consumer.log at 1 2,
        Consumer.record at 1 2.
      cbn [Consumer.network Consumer.trace Consumer.api Consumer.buffer
           Consumer.clock].
      rewrite Hthrown.
      unfold Consumer.bind, Consumer.log, Consumer.record, Consumer.ret.
      cbn [negb]. reflexivity.
    + trace_facts.
Qed.

Lemma start_fails_fast_witness :
  exists w',
    Consumer.start 5000 3
      {| Consumer.api := submitted;
         Consumer.buffer := buffered;
         Consumer.clock := 1754222401000;
         Consumer.network := [Consumer.delivered; Consumer.lost];
         Consumer.trace := [] |} = (w', Consumer.Returned tt) /\
    Consumer.calls (Consumer.trace w') = [] /\
    Consumer.api w' = submitted /\
    Consumer.buffer w' = buffered /\
    Consumer.clock w' = 1754222401000.
Proof.
  apply (start_fails_fast 5000 3
    {| Consumer.api := submitted;
       Consumer.buffer := buffered;
       Consumer.clock := 1754222401000;
       Consumer.network := [Consumer.delivered; Consumer.lost];
       Consumer.trace := [] |}).
  right. discriminate.
Defined.

Example start_polls_when_connected :
  Consumer.calls
    (Consumer.trace
       (fst (Consumer.start 5000 1
               {| Consumer.api := submitted;
                  Consumer.buffer := buffered;
                  Consumer.clock := 1754222401000;
                  Consumer.network := [];
                  Consumer.trace := [] |})))
  = [Consumer.GetReady;
     Consumer.PostClaim "t1";
     Consumer.PostApiComplete "t1"
       (JObj [("success", JBool true);
              ("result",
               JObj [("processedAt", JStr "2025-08-03T12:00:02.000Z");
                     ("processedBy", JStr "local-consumer-v2");
                     ("processingDuration", JNum (inject_Z 1000))])]);
     Consumer.PostBufferComplete "t1"].
Proof. vm_compute. reflexivity. Qed.
